(** * Fruit-detection front end (app.py): upload, inference, tally, display

    A shallow embedding of the Streamlit script [app.py].  The script is
    re-executed from top to bottom on every user interaction; one execution
    is modelled by [App.app], a computation in a small state / output /
    exception monad:

    - the state holds what survives a rerun: the [st.cache_resource] slot
      of [load_model] and the file system;
    - the output is the list of calls made to the outside world, in program
      order (Streamlit widgets, [tempfile], [os], PIL, the detector);
    - a computation ends normally, by [st.stop()], or by an uncaught
      Python exception.

    The detector (ultralytics [YOLO]), the image decoder ([PIL.Image.open])
    and the temporary directory are parameters of the development. *)

From stdpp Require Import gmap strings list fin_maps pretty.
From Stdlib Require Import QArith.
From Stdlib.Strings Require Import Byte Ascii.

Local Open Scope string_scope.
Local Open Scope list_scope.
Local Open Scope Z_scope.

(** ** Python built-ins used by the script *)

Module Py.

(** Uncaught Python exceptions: the class and [str(e)]. *)
Inductive exn_class :=
| KeyError | IndexError | FileExistsError | FileNotFoundError
| StreamlitAPIException | OtherException.

Record exn := Exn { exn_cls : exn_class; exn_str : string }.

(** [s.endswith(suf)]: some tail of [s] is [suf]. *)
Fixpoint str_endswith (s suf : string) : bool :=
  if String.eqb s suf then true
  else match s with
       | EmptyString => false
       | String _ s' => str_endswith s' suf
       end.

(** [s.endswith((suf1, suf2, ...))] *)
Definition str_endswith_any (s : string) (sufs : list string) : bool :=
  existsb (str_endswith s) sufs.

(** [s.split(sep)] for a one-character separator; never the empty list. *)
Fixpoint str_split (sep : Ascii.ascii) (s : string) : list string :=
  match s with
  | EmptyString => [EmptyString]
  | String c s' =>
      if Ascii.eqb c sep then EmptyString :: str_split sep s'
      else match str_split sep s' with
           | [] => [String c EmptyString]
           | w :: ws => String c w :: ws
           end
  end.

(** [l[-1]] *)
Definition getitem_last {A} (l : list A) : exn + A :=
  match last l with
  | Some x => inr x
  | None => inl (Exn IndexError "list index out of range")
  end.

(** [l[0]] *)
Definition getitem_0 {A} (l : list A) : exn + A :=
  match l with
  | x :: _ => inr x
  | [] => inl (Exn IndexError "list index out of range")
  end.

(** [l.count(x)] *)
Fixpoint list_count `{EqDecision A} (x : A) (l : list A) : nat :=
  match l with
  | [] => 0%nat
  | y :: l' => ((if decide (y = x) then 1 else 0) + list_count x l')%nat
  end.

(** A [dict] with string keys, in insertion order. *)
Definition dict (V : Type) : Type := list (string * V).

(** [d[k] = v]: an existing key keeps its position. *)
Fixpoint dict_setitem {V} (d : dict V) (k : string) (v : V) : dict V :=
  match d with
  | [] => [(k, v)]
  | (k', v') :: d' =>
      if decide (k' = k) then (k', v) :: d'
      else (k', v') :: dict_setitem d' k v
  end.

(** [d.get(k)] *)
Fixpoint dict_get {V} (d : dict V) (k : string) : option V :=
  match d with
  | [] => None
  | (k', v') :: d' => if decide (k' = k) then Some v' else dict_get d' k
  end.

Definition dict_keys {V} (d : dict V) : list string := d.*1.
Definition dict_items {V} (d : dict V) : list (string * V) := d.
Definition dict_len {V} (d : dict V) : nat := length d.

(** The mapping a dict denotes; [d1 == d2] in Python compares these. *)
Definition dict_view {V} (d : dict V) : gmap string V := list_to_map d.

(** [order] is a possible iteration order of [set(l)]: every distinct
    element of [l] once.  Which one Python picks depends on the string
    hash seed of the process. *)
Definition iterates_set (order l : list string) : Prop :=
  NoDup order ∧ ∀ x, x ∈ order ↔ x ∈ l.

End Py.

(** ** OpenCV: pixel buffers and channel reordering *)

Module Cv2.

(** An 8-bit, 3-channel pixel, channels in storage order. *)
Definition pixel : Type := byte * byte * byte.

(** Rows of pixels (a numpy array of shape H x W x 3). *)
Definition image : Type := list (list pixel).

Inductive ColorConversionCode := COLOR_BGR2RGB.

(** Exchange channels 0 and 2 of a pixel. *)
Definition swap_02 (p : pixel) : pixel := let '(c0, c1, c2) := p in (c2, c1, c0).

(** [cv2.cvtColor(src, code)]: BGR2RGB exchanges channels 0 and 2
    of every pixel. *)
Definition cvtColor (src : image) (code : ColorConversionCode) : image :=
  match code with
  | COLOR_BGR2RGB => fmap (M:=list) swap_02 <$> (src : list (list pixel))
  end.

Definition channel (p : pixel) (i : nat) : option byte :=
  match i, p with
  | 0%nat, (c, _, _) => Some c
  | 1%nat, (_, c, _) => Some c
  | 2%nat, (_, _, c) => Some c
  | _, _ => None
  end.

(** [img[r][c]] *)
Definition pixel_at (img : image) (r c : nat) : option pixel :=
  row ← img !! r; row !! c.

End Cv2.

(** ** The file system, [os] and [tempfile] *)

Module Os.

(** [os.path.join(a, b)] (POSIX flavour). *)
Definition path_join (a b : string) : string :=
  if String.prefix "/" b then b
  else if decide (a = EmptyString) then b
  else if Py.str_endswith a "/" then a +:+ b
  else a +:+ "/" +:+ b.

(** A regular file: the directory it is in, its name there, its bytes. *)
Record file := File { f_dir : string; f_name : string; f_data : list byte }.

Definition f_path (f : file) : string := path_join (f_dir f) (f_name f).

(** The files on disk.  The order of the list carries no meaning: the
    order in which a directory is enumerated is a choice of the
    operating system (see [enumerates]). *)
Definition fs : Type := list file.

Definition at_path (p : string) (f : file) : bool := bool_decide (f_path f = p).

(** Contents of the file at path [p], if there is one. *)
Definition read (p : string) (d : fs) : option (list byte) :=
  f_data <$> List.find (at_path p) d.

Definition exists_ (p : string) (d : fs) : bool :=
  bool_decide (is_Some (read p d)).

(** The names of the files in [dir].  The directories the script
    lists are made by the detector before it returns, and it puts
    regular files only in them. *)
Definition listdir (dir : string) (d : fs) : list string :=
  f_name <$> List.filter (λ f, bool_decide (f_dir f = dir)) d.

(** [entries] is a possible result of [os.listdir(dir)]: the names of
    the files in [dir], in any order. *)
Definition enumerates (entries : list string) (dir : string) (d : fs) : Prop :=
  entries ≡ₚ listdir dir d.

(** Remove every entry at path [p]. *)
Definition remove (p : string) (d : fs) : fs :=
  List.filter (λ f, negb (at_path p f)) d.

(** Create or overwrite the file [f].  Where a new file goes in the
    list is immaterial, see [fs]. *)
Definition write (f : file) (d : fs) : fs :=
  if exists_ (f_path f) d
  then (λ g, if at_path (f_path f) g then f else g) <$> d
  else (d ++ [f])%list.

Definition write_all (fl : list file) (d : fs) : fs :=
  foldl (λ acc f, write f acc) d fl.

(** The name [tempfile] gives its files: tmp, random characters, suffix. *)
Definition temp_name (rnd suffix : string) : string := "tmp" +:+ rnd +:+ suffix.

(** [tempfile] draws random names ([rnds], in order) until one is free
    in [tmpdir]. *)
Fixpoint mkstemp (tmpdir : string) (rnds : list string) (suffix : string)
    (d : fs) : option file :=
  match rnds with
  | [] => None
  | rnd :: rnds' =>
      let f := File tmpdir (temp_name rnd suffix) [] in
      if exists_ (f_path f) d then mkstemp tmpdir rnds' suffix d
      else Some f
  end.

End Os.

(** ** The detector (ultralytics) *)

Module Yolo.

(** One detected object; the script reads only [box.cls]. *)
Record box := Box { cls : Z }.

(** One [Results] object of [model.predict]. *)
Record Results := {
  plot : Cv2.image;        (* results[i].plot(): annotated frame, BGR *)
  boxes : list box;        (* results[i].boxes *)
  save_dir : string        (* results[i].save_dir *)
}.

(** Keyword arguments of [model.predict]. *)
Record predict_args := {
  source : string;
  conf : Q;
  save : bool;
  project : option string;
  name : option string;
  vid_stride : option nat;
  stream : option bool
}.

(** A loaded model: its class-name table, and what [predict] returns
    and writes to disk, given the disk it sees. *)
Record detector := {
  names : gmap Z string;
  predict : Os.fs → predict_args → Py.exn + (list Results * list Os.file)
}.

End Yolo.

(** ** Running a script: state, calls made, outcome *)

Module Run.

(** A file handed over by [st.file_uploader]. *)
Record UploadedFile := { up_name : string; up_data : list byte }.

(** The body of one count card: the [count-card] HTML template of the
    script with the label and the count filled in. *)
Record count_card := Card { card_fruit : string; card_count : nat }.

(** Calls to the outside world, as the script makes them.  Keyword
    arguments that only concern layout ([use_container_width],
    [unsafe_allow_html]) are left out. *)
Inductive call :=
| st_error (body : string)
| st_stop
| st_file_uploader (label : string) (type : list string)
| st_markdown (body : string)
| st_image (img : Cv2.image)
| st_info (body : string)
| st_warning (body : string)
| st_columns (spec : nat)
| col_markdown (col : nat) (body : count_card)
| st_video (path : string)
| st_download_button (label : string) (data : list byte)
    (file_name : string) (mime : string)
| YOLO_new (model_path : string)
| model_predict (args : Yolo.predict_args)
| tempfile_new (path : string)
| file_write (path : string) (data : list byte)
| Image_open_path (path : string)
| os_listdir (dir : string)
| open_rb (path : string)
| os_unlink (path : string).

(** What survives from one rerun of the script to the next. *)
Record state := State {
  cache : option Yolo.detector;   (* the st.cache_resource entry of load_model *)
  disk : Os.fs
}.

Inductive outcome (A : Type) :=
| Return (a : A)       (* ran to the end *)
| Stopped              (* st.stop() *)
| Raised (e : Py.exn). (* uncaught exception *)
Arguments Return {A} a.
Arguments Stopped {A}.
Arguments Raised {A} e.

Definition M (A : Type) : Type := state → state * list call * outcome A.

(** The run [r], with the calls [t] made before it. *)
Definition after {A} (t : list call) (r : state * list call * outcome A)
    : state * list call * outcome A :=
  (r.1.1, (t ++ r.1.2)%list, r.2).

#[export] Instance M_ret : MRet M := λ A a s, (s, [], Return a).

#[export] Instance M_bind : MBind M := λ A B k c s,
  match c s with
  | (s1, t1, Return a) => after t1 (k a s1)
  | (s1, t1, Stopped) => (s1, t1, Stopped)
  | (s1, t1, Raised e) => (s1, t1, Raised e)
  end.

Definition emit (c : call) : M unit := λ s, (s, [c], Return tt).
Definition raise {A} (e : Py.exn) : M A := λ s, (s, [], Raised e).
Definition stop {A} : M A := λ s, (s, [st_stop], Stopped).
Definition get : M state := λ s, (s, [], Return s).
Definition put_cache (c : option Yolo.detector) : M unit :=
  λ s, (State c (disk s), [], Return tt).
Definition put_disk (d : Os.fs) : M unit :=
  λ s, (State (cache s) d, [], Return tt).

(** A Python expression that either has a value or raises. *)
Definition lift {A} (r : Py.exn + A) : M A :=
  match r with inl e => raise e | inr a => mret a end.

(** [try: c  except Exception as e: h e] *)
Definition try_except {A} (c : M A) (h : Py.exn → M A) : M A := λ s,
  match c s with
  | (s1, t1, Raised e) => after t1 (h e s1)
  | r => r
  end.

(** [for x in l: body x] *)
Fixpoint for_each {A} (l : list A) (body : A → M unit) : M unit :=
  match l with
  | [] => mret tt
  | x :: l' => body x;; for_each l' body
  end.

End Run.

(** ** The script *)

Module App.
Import Run.

Inductive Mode := Image | Video.

(** What the user has entered in the widgets when the script reruns,
    and the choices the Python runtime makes during that rerun. *)
Record inputs := {
  model_path : string;                      (* st.sidebar.text_input *)
  conf : Q;                                 (* st.sidebar.slider *)
  mode : Mode;                              (* st.sidebar.radio *)
  uploaded_image : option UploadedFile;     (* the image uploader *)
  uploaded_video : option UploadedFile;     (* the video uploader *)
  set_iter : list string → list string;     (* iteration order of set(...) *)
  listdir_iter : list string → list string; (* enumeration order of os.listdir *)
  tmp_rnds : list string                    (* random names tried by tempfile *)
}.

(** [{label: labels.count(label) for label in set(labels)}], where
    [order] is the order in which [set(labels)] is iterated. *)
Definition counts (order labels : list string) : Py.dict nat :=
  foldl (λ d label, Py.dict_setitem d label (Py.list_count label labels)) [] order.

(** The tuple given to [f.endswith] when scanning the output directory. *)
Definition video_suffixes : list string := [".mp4"; ".avi"; ".mov"; ".mkv"].

Section Script.

Variable YOLO : string → Py.exn + Yolo.detector.
Variable Image_open : list byte → Py.exn + Cv2.image.
Variable tempdir : string.

(** [@st.cache_resource def load_model(): return YOLO(model_path)].
    The function has no parameters, so the cache has one entry; a
    call that raises stores nothing. *)
Definition load_model (model_path : string) : M Yolo.detector :=
  s ← get;
  match cache s with
  | Some model => mret model
  | None =>
      emit (YOLO_new model_path);;
      model ← lift (YOLO model_path);
      put_cache (Some model);;
      mret model
  end.

(** [tempfile.NamedTemporaryFile(delete=False, suffix=suffix)] *)
Definition NamedTemporaryFile (rnds : list string) (suffix : string) : M Os.file :=
  s ← get;
  match Os.mkstemp tempdir rnds suffix (disk s) with
  | None => raise (Py.Exn Py.FileExistsError "No usable temporary file name found")
  | Some tmp =>
      put_disk (Os.write tmp (disk s));;
      emit (tempfile_new (Os.f_path tmp));;
      mret tmp
  end.

(** [tmp.write(data)], flushed when the [with] block closes the file. *)
Definition tmp_write (tmp : Os.file) (data : list byte) : M unit :=
  s ← get;
  put_disk (Os.write (Os.File (Os.f_dir tmp) (Os.f_name tmp) data) (disk s));;
  emit (file_write (Os.f_path tmp) data).

(** [open(path, 'rb')] and reading it to the end. *)
Definition open_read (path : string) : M (list byte) :=
  emit (open_rb path);;
  s ← get;
  match Os.read path (disk s) with
  | Some data => mret data
  | None => raise (Py.Exn Py.FileNotFoundError path)
  end.

(** [Image.open(path)] *)
Definition Image_open_at (path : string) : M Cv2.image :=
  emit (Image_open_path path);;
  s ← get;
  match Os.read path (disk s) with
  | Some data => lift (Image_open data)
  | None => raise (Py.Exn Py.FileNotFoundError path)
  end.

(** [model.predict(...)]: the results, and the files it leaves. *)
Definition predict (model : Yolo.detector) (args : Yolo.predict_args)
    : M (list Yolo.Results) :=
  emit (model_predict args);;
  s ← get;
  '(results, written) ← lift (Yolo.predict model (disk s) args);
  put_disk (Os.write_all written (disk s));;
  mret results.

(** [model.names[int(box.cls)]] *)
Definition names_getitem (model : Yolo.detector) (k : Z) : M string :=
  match Yolo.names model !! k with
  | Some label => mret label
  | None => raise (Py.Exn Py.KeyError (pretty k))
  end.

(** [st.columns(spec)] with an integer [spec]. *)
Definition columns (spec : nat) : M (list nat) :=
  emit (st_columns spec);;
  match spec with
  | O => raise (Py.Exn Py.StreamlitAPIException "The spec argument must be positive")
  | _ => mret (seq 0 spec)
  end.

(** [os.unlink(path)] *)
Definition unlink (path : string) : M unit :=
  emit (os_unlink path);;
  s ← get;
  if Os.exists_ path (disk s) then put_disk (Os.remove path (disk s))
  else raise (Py.Exn Py.FileNotFoundError path).

(** [os.listdir(dir)]: the entries of [dir], in the order in which
    the operating system enumerates them during this rerun. *)
Definition listdir_at (inp : inputs) (dir : string) : M (list string) :=
  emit (os_listdir dir);;
  s ← get;
  mret (listdir_iter inp (Os.listdir dir (disk s))).

(** The [# Fruit Counts] part of the image block. *)
Definition fruit_counts (model : Yolo.detector) (inp : inputs)
    (r0 : Yolo.Results) : M unit :=
  labels ← mapM (λ box, names_getitem model (Yolo.cls box)) (Yolo.boxes r0);
  match labels with
  | _ :: _ =>
      let counts := counts (set_iter inp labels) labels in
      emit (st_markdown "<div class='section'><h3>🍎 Fruit Detection Summary</h3></div>");;
      cols ← columns (Py.dict_len counts);
      for_each (zip cols (Py.dict_items counts))
        (λ '(col, (fruit, count)), emit (col_markdown col (Card fruit count)))
  | [] => emit (st_warning "❌ No fruits detected")
  end.

(** The [if mode == 'Image':] block. *)
Definition image_mode (model : Yolo.detector) (inp : inputs) : M unit :=
  emit (st_file_uploader "📤 Upload an Image" ["jpg"; "jpeg"; "png"]);;
  match uploaded_image inp with
  | None => mret tt
  | Some up =>
      tmp ← NamedTemporaryFile (tmp_rnds inp) ".jpg";
      tmp_write tmp (up_data up);;
      let img_path := Os.f_path tmp in
      emit (st_markdown "<div class='section'><h3>📷 Original Image</h3></div>");;
      original_img ← Image_open_at img_path;
      emit (st_image original_img);;
      emit (st_info "🔍 Detecting fruits...");;
      results ← predict model
        {| Yolo.source := img_path; Yolo.conf := conf inp; Yolo.save := false;
           Yolo.project := None; Yolo.name := None;
           Yolo.vid_stride := None; Yolo.stream := None |};
      r0 ← lift (Py.getitem_0 results);
      let result_bgr := Yolo.plot r0 in
      let result_rgb := Cv2.cvtColor result_bgr Cv2.COLOR_BGR2RGB in
      emit (st_markdown "<div class='section'><h3>🎯 Detected Image</h3></div>");;
      emit (st_image result_rgb);;
      fruit_counts model inp r0;;
      unlink img_path
  end.

(** The part of the video block that looks for the detector's
    output and shows it. *)
Definition processed_video (inp : inputs) (r0 : Yolo.Results) : M unit :=
  let pred_dir := Yolo.save_dir r0 in
  entries ← listdir_at inp pred_dir;
  let pred_videos :=
    List.filter (λ f, Py.str_endswith_any f video_suffixes) entries in
  match pred_videos with
  | f0 :: _ =>
      let output_path := Os.path_join pred_dir f0 in
      emit (st_markdown "<div class='section'><h3>✅ Processed Video</h3></div>");;
      emit (st_video output_path);;
      f ← open_read output_path;
      emit (st_download_button "⬇ Download Processed Video" f
              "detected_fruit_video.mp4" "video/mp4")
  | [] => emit (st_warning "⚠ Processed video not found")
  end.

(** The [elif mode == 'Video':] block. *)
Definition video_mode (model : Yolo.detector) (inp : inputs) : M unit :=
  emit (st_file_uploader "📤 Upload a Video" ["mp4"; "mov"; "avi"; "mkv"]);;
  match uploaded_video inp with
  | None => mret tt
  | Some up =>
      ext ← lift (Py.getitem_last (Py.str_split "."%char (up_name up)));
      tfile ← NamedTemporaryFile (tmp_rnds inp) ("." +:+ ext);
      tmp_write tfile (up_data up);;
      let video_path := Os.f_path tfile in
      emit (st_markdown "<div class='section'><h3>🎥 Original Video</h3></div>");;
      emit (st_video video_path);;
      emit (st_info "⏳ Processing video...");;
      results ← predict model
        {| Yolo.source := video_path; Yolo.conf := conf inp; Yolo.save := true;
           Yolo.project := Some "runs/detect"; Yolo.name := Some "fruit_ui";
           Yolo.vid_stride := Some 1%nat; Yolo.stream := Some false |};
      r0 ← lift (Py.getitem_0 results);
      processed_video inp r0;;
      unlink video_path
  end.

(** The script from [LOAD MODEL] on.  What precedes it only draws the
    page and reads the three sidebar widgets into [inputs]. *)
Definition app (inp : inputs) : M unit :=
  model ← try_except (load_model (model_path inp))
             (λ e, emit (st_error ("❌ Could not load model: " +:+ Py.exn_str e));;
                   stop);
  match mode inp with
  | Image => image_mode model inp
  | Video => video_mode model inp
  end.

(** A process lifetime: the script reruns once per interaction, on
    the state the previous rerun left (an uncaught exception or
    [st.stop()] ends a rerun, not the process). *)
Fixpoint session (inps : list inputs) (s : state)
    : list (list call * outcome unit) * state :=
  match inps with
  | [] => ([], s)
  | inp :: inps' =>
      let r := app inp s in
      let rest := session inps' r.1.1 in
      ((r.1.2, r.2) :: rest.1, rest.2)
  end.

End Script.

(** The user edits the model-path text box. *)
Definition set_model_path (p : string) (inp : inputs) : inputs :=
  {| model_path := p; conf := conf inp; mode := mode inp;
     uploaded_image := uploaded_image inp;
     uploaded_video := uploaded_video inp;
     set_iter := set_iter inp; listdir_iter := listdir_iter inp;
     tmp_rnds := tmp_rnds inp |}.

End App.

(** ** Predicates on runs used in the statements *)

Module Spec.
Import Run App.

(** The calls the [# Fruit Counts] part of the image block may make. *)
Definition summary_call (c : call) : Prop :=
  match c with
  | st_markdown _ | st_columns _ | col_markdown _ _ | st_warning _ => True
  | _ => False
  end.

(** [c] leaves the model cache alone and never constructs a detector. *)
Definition keeps_model {A} (c : M A) : Prop :=
  ∀ s, cache (c s).1.1 = cache s ∧ Forall (λ x, ∀ p, x ≠ YOLO_new p) (c s).1.2.

(** The disk once the upload has been saved in the temporary file. *)
Abbreviation saved tmp data d :=
  (Os.write (Os.File (Os.f_dir tmp) (Os.f_name tmp) data) (Os.write tmp d)).

Abbreviation image_args inp path :=
  {| Yolo.source := path; Yolo.conf := conf inp; Yolo.save := false;
     Yolo.project := None; Yolo.name := None;
     Yolo.vid_stride := None; Yolo.stream := None |}.

Abbreviation video_args inp path :=
  {| Yolo.source := path; Yolo.conf := conf inp; Yolo.save := true;
     Yolo.project := Some "runs/detect"; Yolo.name := Some "fruit_ui";
     Yolo.vid_stride := Some 1%nat; Yolo.stream := Some false |}.

End Spec.

(** ** A concrete world, for examples *)

Module Demo.
Import Run App.

(** A detector that finds two apples and a banana in any image and
    leaves an annotated [.avi] next to a label file for any video. *)
Definition fruit_detector : Yolo.detector :=
  {| Yolo.names := {[ 0%Z := "apple"; 1%Z := "banana" ]};
     Yolo.predict := λ _ args,
       if Yolo.save args then
         inr ([ {| Yolo.plot := []; Yolo.boxes := [];
                   Yolo.save_dir := "runs/detect/fruit_ui" |} ],
              [ Os.File "runs/detect/fruit_ui" "labels.txt" [];
                Os.File "runs/detect/fruit_ui" "clip.avi" [x01; x02] ])
       else
         inr ([ {| Yolo.plot := [[(x01, x02, x03)]];
                   Yolo.boxes := [Yolo.Box 0; Yolo.Box 1; Yolo.Box 0];
                   Yolo.save_dir := "runs/detect/predict" |} ], []) |}.

(** A detector that finds nothing and leaves only a label file. *)
Definition blind_detector : Yolo.detector :=
  {| Yolo.names := {[ 0%Z := "apple"; 1%Z := "banana" ]};
     Yolo.predict := λ _ args,
       inr ([ {| Yolo.plot := [[(x01, x02, x03)]]; Yolo.boxes := [];
                 Yolo.save_dir := "runs/detect/fruit_ui" |} ],
            [ Os.File "runs/detect/fruit_ui" "labels.txt" [] ]) |}.

Definition YOLO (model_path : string) : Py.exn + Yolo.detector :=
  if String.eqb model_path "best.pt" then inr fruit_detector
  else if String.eqb model_path "blind.pt" then inr blind_detector
  else inl (Py.Exn Py.FileNotFoundError "No such file or directory").

Definition Image_open (data : list byte) : Py.exn + Cv2.image :=
  inr [[(x09, x08, x07)]].

Definition tempdir : string := "/tmp".

Definition image_inputs (model_path : string) : inputs :=
  {| model_path := model_path; conf := 4 # 10; mode := Image;
     uploaded_image := Some {| up_name := "bowl.png"; up_data := [x05] |};
     uploaded_video := None;
     set_iter := remove_dups; listdir_iter := λ names, names;
     tmp_rnds := ["abc"; "def"] |}.

Definition video_inputs (model_path : string) : inputs :=
  {| model_path := model_path; conf := 4 # 10; mode := Video;
     uploaded_image := None;
     uploaded_video := Some {| up_name := "clip.mov"; up_data := [x05] |};
     set_iter := remove_dups; listdir_iter := λ names, names;
     tmp_rnds := ["abc"; "def"] |}.

Definition fresh : state := State None [].

(** A process that has served an upload before: the detector is
    cached, and the output directory still holds the video it left
    then. *)
Definition used : state :=
  State (Some fruit_detector)
    [Os.File "runs/detect/fruit_ui" "earlier.avi" [x09]].

(** A video upload during which [os.listdir] enumerates a directory in
    the order [order]. *)
Definition video_inputs_listing (order : list string → list string) : inputs :=
  {| model_path := "best.pt"; conf := 4 # 10; mode := Video;
     uploaded_image := None;
     uploaded_video := Some {| up_name := "clip.mov"; up_data := [x05] |};
     set_iter := remove_dups; listdir_iter := order;
     tmp_rnds := ["abc"; "def"] |}.

End Demo.

(** ** Further predicates on runs *)

Module Trace.
Import Run.

(** Every call [c] makes satisfies [P], however the run ends. *)
Definition emits_only {A} (P : call → Prop) (c : M A) : Prop :=
  ∀ s, Forall P (c s).1.2.

(** [c] never ends by [st.stop()]. *)
Definition never_stops {A} (c : M A) : Prop :=
  ∀ s, (c s).2 ≠ Stopped.

(** Calls that belong to the image block only. *)
Definition image_only_call (c : call) : Prop :=
  match c with
  | st_image _ | Image_open_path _ | st_columns _ | col_markdown _ _ => True
  | _ => False
  end.

(** Calls that belong to the video block only. *)
Definition video_only_call (c : call) : Prop :=
  match c with
  | st_video _ | os_listdir _ | open_rb _ | st_download_button _ _ _ _ => True
  | _ => False
  end.

(** Is [c] a call of [model.predict]? *)
Definition is_model_predict (c : call) : bool :=
  match c with model_predict _ => true | _ => false end.

(** The calls the output scan of the video block may make. *)
Definition scan_call (c : call) : Prop :=
  match c with
  | os_listdir _ | st_markdown _ | st_video _ | open_rb _
  | st_download_button _ _ _ _ | st_warning _ => True
  | _ => False
  end.

End Trace.

(** ** Worlds in which something goes wrong *)

Module Faults.
Import Run App.

(** A detector whose [predict] raises. *)
Definition failing_detector : Yolo.detector :=
  {| Yolo.names := {[ 0%Z := "apple" ]};
     Yolo.predict := λ _ _, inl (Py.Exn Py.OtherException "cannot read the source") |}.

(** A detector that returns no [Results] at all (a video without frames). *)
Definition empty_detector : Yolo.detector :=
  {| Yolo.names := {[ 0%Z := "apple" ]};
     Yolo.predict := λ _ _, inr ([], []) |}.

(** A detector that reports class ids its name table does not have. *)
Definition sparse_detector : Yolo.detector :=
  {| Yolo.names := {[ 0%Z := "apple" ]};
     Yolo.predict := λ _ _,
       inr ([ {| Yolo.plot := [[(x01, x02, x03)]];
                 Yolo.boxes := [Yolo.Box 0; Yolo.Box 7; Yolo.Box 9];
                 Yolo.save_dir := "runs/detect/predict" |} ], []) |}.

(** The constructor of a site that also has these three models. *)
Definition faulty_YOLO (model_path : string) : Py.exn + Yolo.detector :=
  if String.eqb model_path "failing.pt" then inr failing_detector
  else if String.eqb model_path "empty.pt" then inr empty_detector
  else if String.eqb model_path "sparse.pt" then inr sparse_detector
  else Demo.YOLO model_path.

(** An idle rerun: nothing has been uploaded. *)
Definition idle_inputs (model_path : string) (m : Mode) : inputs :=
  {| model_path := model_path; conf := 4 # 10; mode := m;
     uploaded_image := None; uploaded_video := None;
     set_iter := remove_dups; listdir_iter := λ names, names;
     tmp_rnds := ["abc"; "def"] |}.

(** A video whose name has no dot. *)
Definition dotless_inputs : inputs :=
  {| model_path := "best.pt"; conf := 4 # 10; mode := Video;
     uploaded_image := None;
     uploaded_video := Some {| up_name := "holiday"; up_data := [x05] |};
     set_iter := remove_dups; listdir_iter := λ names, names;
     tmp_rnds := ["abc"; "def"] |}.

End Faults.

(** * Facts about the Python built-ins *)

Module PyFacts.
Import Py.

Lemma str_endswith_refl (s : string) : str_endswith s s = true.
Proof. destruct s; cbn [str_endswith]; by rewrite String.eqb_refl. Qed.

Lemma str_endswith_cons (c : Ascii.ascii) (s suf : string) :
  str_endswith s suf = true → str_endswith (String c s) suf = true.
Proof.
  intros H. cbn [str_endswith].
  destruct (String.eqb (String c s) suf); [done|exact H].
Qed.

Lemma str_endswith_app (a b suf : string) :
  str_endswith b suf = true → str_endswith (a +:+ b) suf = true.
Proof.
  intros H. induction a as [|c a IH]; [exact H|].
  apply str_endswith_cons, IH.
Qed.

Lemma str_endswith_inv (s suf : string) :
  str_endswith s suf = true → ∃ a, s = a +:+ suf.
Proof.
  induction s as [|c s IH]; cbn [str_endswith].
  - destruct (String.eqb_spec EmptyString suf) as [<-|]; [|done].
    by exists EmptyString.
  - destruct (String.eqb_spec (String c s) suf) as [<-|_].
    + by exists EmptyString.
    + intros [a ->]%IH. by exists (String c a).
Qed.

Lemma str_split_length (sep : Ascii.ascii) (s : string) :
  (1 ≤ length (str_split sep s))%nat.
Proof.
  induction s as [|c s IH]; simpl; [lia|].
  destruct (Ascii.eqb c sep); simpl; [lia|].
  destruct (str_split sep s); simpl in *; lia.
Qed.

Lemma str_split_app_length (sep : Ascii.ascii) (stem ext : string) :
  (2 ≤ length (str_split sep (stem +:+ String sep ext)))%nat.
Proof.
  induction stem as [|c stem IH]; simpl.
  - rewrite Ascii.eqb_refl. simpl. pose proof (str_split_length sep ext). lia.
  - destruct (Ascii.eqb c sep); simpl; [lia|].
    destruct (str_split sep (stem +:+ String sep ext)); simpl in *; lia.
Qed.

(** The last field of [stem.ext] is the last field of [ext]. *)
Lemma str_split_last_app (sep : Ascii.ascii) (stem ext : string) :
  last (str_split sep (stem +:+ String sep ext)) = last (str_split sep ext).
Proof.
  induction stem as [|c stem IH]; simpl.
  - rewrite Ascii.eqb_refl.
    pose proof (str_split_length sep ext).
    destruct (str_split sep ext); simpl in *; [lia|done].
  - pose proof (str_split_app_length sep stem ext) as Hlen.
    destruct (Ascii.eqb c sep).
    + destruct (str_split sep (stem +:+ String sep ext)); simpl in *; [lia|done].
    + destruct (str_split sep (stem +:+ String sep ext)) as [|w [|w' ws]];
        simpl in *; [lia|lia|done].
Qed.

Lemma list_count_pos `{EqDecision A} (x : A) (l : list A) :
  x ∈ l ↔ (0 < list_count x l)%nat.
Proof.
  induction l as [|y l IH]; simpl.
  - split; [by intros ?%elem_of_nil|lia].
  - rewrite elem_of_cons, IH. destruct (decide (y = x)) as [->|Hne].
    + split; [lia|by left].
    + split; [intros [?|?]; [congruence|lia] | intros ?; right; lia].
Qed.

Section dict.
Context {V : Type}.
Implicit Types (d : dict V) (k : string) (v : V).

Lemma dict_get_setitem d k v k' :
  dict_get (dict_setitem d k v) k' = if decide (k = k') then Some v else dict_get d k'.
Proof.
  induction d as [|[k0 v0] d IH]; simpl.
  - by destruct (decide (k = k')).
  - destruct (decide (k0 = k)) as [->|Hne]; simpl.
    + by destruct (decide (k = k')).
    + rewrite IH. destruct (decide (k0 = k')) as [->|]; [|done].
      by destruct (decide (k = k')).
Qed.

Lemma dict_keys_setitem_in d k v k' :
  k' ∈ dict_keys (dict_setitem d k v) ↔ k' = k ∨ k' ∈ dict_keys d.
Proof.
  unfold dict_keys. induction d as [|[k0 v0] d IH]; simpl.
  - rewrite list_elem_of_singleton, elem_of_nil. tauto.
  - destruct (decide (k0 = k)) as [->|Hne]; simpl.
    + rewrite !elem_of_cons. tauto.
    + rewrite !elem_of_cons, IH. tauto.
Qed.

Lemma dict_keys_setitem_NoDup d k v :
  NoDup (dict_keys d) → NoDup (dict_keys (dict_setitem d k v)).
Proof.
  unfold dict_keys. induction d as [|[k0 v0] d IH]; simpl.
  - intros _. apply NoDup_singleton.
  - rewrite NoDup_cons. intros [Hk0 Hd].
    destruct (decide (k0 = k)) as [->|Hne]; simpl.
    + by apply NoDup_cons.
    + apply NoDup_cons. split; [|by apply IH].
      intros [?|?]%dict_keys_setitem_in; done.
Qed.

Lemma dict_keys_setitem_fresh d k v :
  k ∉ dict_keys d → dict_keys (dict_setitem d k v) = dict_keys d ++ [k].
Proof.
  unfold dict_keys. induction d as [|[k0 v0] d IH]; intros Hk; [done|].
  rewrite fmap_cons in Hk. apply not_elem_of_cons in Hk as [Hne Hk].
  cbn [dict_setitem]. rewrite decide_False by done.
  rewrite !fmap_cons. simpl. f_equal. by apply IH.
Qed.

Lemma dict_get_keys d k : is_Some (dict_get d k) ↔ k ∈ dict_keys d.
Proof.
  unfold dict_keys. induction d as [|[k0 v0] d IH]; simpl.
  - rewrite elem_of_nil. split; [by intros [? ?]|done].
  - rewrite elem_of_cons. destruct (decide (k0 = k)) as [->|Hne].
    + split; [by left|by eexists].
    + rewrite IH. split; [by right|by intros [?|?]].
Qed.

Lemma dict_view_lookup d k : dict_view d !! k = dict_get d k.
Proof.
  unfold dict_view. induction d as [|[k0 v0] d IH]; simpl; [done|].
  destruct (decide (k0 = k)) as [->|Hne].
  - by rewrite lookup_insert_eq.
  - by rewrite lookup_insert_ne.
Qed.

Lemma dict_view_items d : NoDup (dict_keys d) → map_to_list (dict_view d) ≡ₚ dict_items d.
Proof. intros H. by apply map_to_list_to_map. Qed.
End dict.

End PyFacts.

Module CountsFacts.
Import Py PyFacts App.

(** The loop of the dict comprehension, from any dict built so far. *)
Local Abbreviation counts_from d order labels :=
  (foldl (λ d' label, dict_setitem d' label (list_count label labels)) d order).

Lemma counts_from_get d order labels label :
  dict_get (counts_from d order labels) label =
    if decide (label ∈ order) then Some (list_count label labels)
    else dict_get d label.
Proof.
  revert d.
  induction order as [|k order IH]; intros d; simpl.
  - destruct (decide (label ∈ [])) as [H|H]; [by apply elem_of_nil in H|done].
  - rewrite IH, dict_get_setitem.
    destruct (decide (label ∈ order)) as [Hin|Hnin].
    + rewrite decide_True by (by right). done.
    + destruct (decide (k = label)) as [->|Hne].
      * rewrite decide_True by (by left). done.
      * rewrite decide_False; [done|].
        intros [?|?]%elem_of_cons; congruence.
Qed.

Lemma counts_from_keys d order labels label :
  label ∈ dict_keys (counts_from d order labels) ↔
    label ∈ order ∨ label ∈ dict_keys d.
Proof.
  revert d.
  induction order as [|k order IH]; intros d; simpl.
  - rewrite elem_of_nil. tauto.
  - rewrite IH, dict_keys_setitem_in, elem_of_cons. tauto.
Qed.

Lemma counts_from_NoDup d order labels :
  NoDup (dict_keys d) → NoDup (dict_keys (counts_from d order labels)).
Proof.
  revert d.
  induction order as [|k order IH]; intros d Hd; simpl; [done|].
  by apply IH, dict_keys_setitem_NoDup.
Qed.

Lemma counts_get order labels label :
  dict_get (counts order labels) label =
    if decide (label ∈ order) then Some (list_count label labels) else None.
Proof. apply (counts_from_get []). Qed.

Lemma counts_keys order labels label :
  label ∈ dict_keys (counts order labels) ↔ label ∈ order.
Proof.
  unfold counts. rewrite counts_from_keys. unfold dict_keys. simpl. rewrite elem_of_nil. tauto.
Qed.

Lemma counts_NoDup order labels : NoDup (dict_keys (counts order labels)).
Proof. apply (counts_from_NoDup []). apply NoDup_nil_2. Qed.

(** Each key is set once, so the dict lists the keys in iteration order. *)
Lemma counts_keys_order order labels :
  NoDup order → dict_keys (counts order labels) = order.
Proof.
  intros Hnd. unfold counts.
  enough (∀ d, NoDup (dict_keys d ++ order) →
            dict_keys (foldl (λ d label, dict_setitem d label (list_count label labels)) d order)
            = dict_keys d ++ order) as H.
  { apply (H []). done. }
  clear Hnd. induction order as [|k order IH]; intros d Hd; simpl.
  - by rewrite app_nil_r.
  - assert (k ∉ dict_keys d) as Hk.
    { apply NoDup_app in Hd as (_ & Hdis & _).
      intros Hk. apply (Hdis k Hk). by left. }
    rewrite IH; rewrite dict_keys_setitem_fresh by done;
      rewrite <- app_assoc; done.
Qed.

Lemma counts_length order labels :
  NoDup order → dict_len (counts order labels) = length order.
Proof.
  intros H. rewrite <- (counts_keys_order order labels H) at 2.
  unfold dict_len, dict_keys. by rewrite length_fmap.
Qed.

Lemma iterates_set_nil order : iterates_set order [] → order = [].
Proof.
  intros [_ H]. destruct order as [|x order]; [done|].
  exfalso. apply (not_elem_of_nil x), H. by left.
Qed.

End CountsFacts.


(** * Facts about the file system model *)

Module OsFacts.
Import Os.
Implicit Types (d : fs) (f g : file) (p q : string).

Lemma at_path_true p f : at_path p f = true ↔ f_path f = p.
Proof. unfold at_path. apply bool_decide_eq_true. Qed.

Lemma at_path_false p f : at_path p f = false ↔ f_path f ≠ p.
Proof. unfold at_path. apply bool_decide_eq_false. Qed.

Lemma exists_true p d : exists_ p d = true ↔ is_Some (read p d).
Proof. unfold exists_. apply bool_decide_eq_true. Qed.

Lemma exists_false p d : exists_ p d = false ↔ read p d = None.
Proof.
  unfold exists_. rewrite bool_decide_eq_false. symmetry. apply eq_None_not_Some.
Qed.

Lemma read_nil p : read p [] = None.
Proof. done. Qed.

Lemma read_cons p f d :
  read p (f :: d) = if decide (f_path f = p) then Some (f_data f) else read p d.
Proof.
  unfold read. simpl. unfold at_path at 1.
  destruct (decide (f_path f = p)) as [H|H].
  - by rewrite bool_decide_eq_true_2.
  - by rewrite bool_decide_eq_false_2.
Qed.

Lemma read_app p d1 d2 :
  read p (d1 ++ d2) = match read p d1 with Some b => Some b | None => read p d2 end.
Proof.
  induction d1 as [|f d1 IH]; [done|].
  rewrite <- app_comm_cons, !read_cons. by destruct (decide (f_path f = p)).
Qed.

Lemma read_replace p f d :
  read p ((λ g, if at_path (f_path f) g then f else g) <$> d) =
    if decide (p = f_path f)
    then (λ _, f_data f) <$> read p d
    else read p d.
Proof.
  induction d as [|g d IH]; [by destruct (decide (p = f_path f))|].
  rewrite fmap_cons, !read_cons, IH.
  destruct (at_path (f_path f) g) eqn:Hg.
  - apply at_path_true in Hg.
    destruct (decide (p = f_path f)) as [->|Hne].
    + by rewrite !decide_True.
    + rewrite !decide_False by congruence. done.
  - apply at_path_false in Hg.
    destruct (decide (p = f_path f)) as [->|Hne]; [|done].
    rewrite !decide_False by done. done.
Qed.

(** A write is seen at its own path and nowhere else. *)
Lemma read_write p f d :
  read p (write f d) = if decide (p = f_path f) then Some (f_data f) else read p d.
Proof.
  unfold write. destruct (exists_ (f_path f) d) eqn:Hex.
  - rewrite read_replace. apply exists_true in Hex as [b Hb].
    destruct (decide (p = f_path f)) as [->|]; [by rewrite Hb|done].
  - apply exists_false in Hex. rewrite read_app, read_cons, read_nil.
    destruct (decide (p = f_path f)) as [->|Hne].
    + rewrite Hex. by rewrite decide_True.
    + rewrite decide_False by done. by destruct (read p d).
Qed.

Lemma read_write_all_is_Some p w d :
  is_Some (read p d) → is_Some (read p (write_all w d)).
Proof.
  unfold write_all. revert d.
  induction w as [|f w IH]; intros d H; [done|]. simpl.
  apply IH. rewrite read_write. destruct (decide (p = f_path f)); eauto.
Qed.

Lemma read_remove p q d :
  read p (remove q d) = if decide (p = q) then None else read p d.
Proof.
  unfold remove. induction d as [|f d IH]; [by destruct (decide (p = q))|].
  simpl. destruct (at_path q f) eqn:Hf; simpl.
  - apply at_path_true in Hf. rewrite IH, read_cons.
    destruct (decide (p = q)) as [->|Hne]; [done|].
    rewrite decide_False by congruence. done.
  - apply at_path_false in Hf. rewrite !read_cons, IH.
    destruct (decide (p = q)) as [->|Hne]; [|done].
    rewrite !decide_False by done. done.
Qed.

(** Whatever [os.listdir] lists can be opened. *)
Lemma listdir_read dir n d :
  n ∈ listdir dir d → is_Some (read (path_join dir n) d).
Proof.
  unfold listdir. intros (f & -> & Hf)%list_elem_of_fmap.
  apply list_elem_of_In, filter_In in Hf as [Hin Hdir].
  apply bool_decide_eq_true in Hdir as <-.
  fold (f_path f). clear -Hin.
  induction d as [|g d IH]; [destruct Hin|].
  rewrite read_cons. destruct (decide (f_path g = f_path f)); [eauto|].
  destruct Hin as [->|Hin]; [done|]. by apply IH.
Qed.

Lemma enumerates_read entries dir n d :
  enumerates entries dir d → n ∈ entries →
  is_Some (read (path_join dir n) d).
Proof.
  unfold enumerates. intros Hperm Hin. apply listdir_read.
  by rewrite <- Hperm.
Qed.

Lemma mkstemp_Some tmpdir rnds suffix d f :
  mkstemp tmpdir rnds suffix d = Some f →
  read (f_path f) d = None ∧
  ∃ rnd, rnd ∈ rnds ∧ f = File tmpdir (temp_name rnd suffix) [].
Proof.
  induction rnds as [|rnd rnds IH]; [done|]. simpl.
  destruct (exists_ _ d) eqn:Hex.
  - intros (? & rnd' & ? & ?)%IH. split; [done|]. exists rnd'. split; [by right|done].
  - intros [= <-]. apply exists_false in Hex. split; [done|].
    exists rnd. split; [by left|done].
Qed.

Lemma mkstemp_is_Some tmpdir rnds suffix d rnd :
  rnd ∈ rnds →
  read (path_join tmpdir (temp_name rnd suffix)) d = None →
  is_Some (mkstemp tmpdir rnds suffix d).
Proof.
  intros Hin Hfree. induction rnds as [|rnd' rnds IH]; [by apply elem_of_nil in Hin|].
  simpl. destruct (exists_ _ d) eqn:Hex; [|eauto].
  apply elem_of_cons in Hin as [->|Hin]; [|by apply IH].
  apply exists_true in Hex as [b Hb]. unfold f_path in Hb. simpl in Hb. congruence.
Qed.

(** A temporary file's path ends with the suffix asked for. *)
Lemma temp_path_suffix tmpdir rnd suffix :
  Py.str_endswith (path_join tmpdir (temp_name rnd suffix)) suffix = true.
Proof.
  assert (Py.str_endswith (temp_name rnd suffix) suffix = true) as Hname.
  { unfold temp_name. do 2 apply PyFacts.str_endswith_app.
    apply PyFacts.str_endswith_refl. }
  unfold path_join.
  destruct (String.prefix "/" (temp_name rnd suffix)); [done|].
  destruct (decide (tmpdir = EmptyString)); [done|].
  destruct (Py.str_endswith tmpdir "/").
  - by apply PyFacts.str_endswith_app.
  - by do 2 apply PyFacts.str_endswith_app.
Qed.

End OsFacts.

(** * Facts about runs *)

Module RunFacts.
Import Run.

Lemma after_nil {A} (x : state * list call * outcome A) : after [] x = x.
Proof. by destruct x as [[??]?]. Qed.

Lemma after_after {A} t1 t2 (x : state * list call * outcome A) :
  after t1 (after t2 x) = after (t1 ++ t2) x.
Proof. destruct x as [[??]?]. unfold after. simpl. by rewrite app_assoc. Qed.

Lemma bind_run {A B} (c : M A) (k : A → M B) s :
  (c ≫= k) s =
    match c s with
    | (s1, t1, Return a) => after t1 (k a s1)
    | (s1, t1, Stopped) => (s1, t1, Stopped)
    | (s1, t1, Raised e) => (s1, t1, Raised e)
    end.
Proof. done. Qed.

Lemma bind_emit {B} c (k : unit → M B) s : (emit c ≫= k) s = after [c] (k tt s).
Proof. done. Qed.

Lemma bind_get {B} (k : state → M B) s : (get ≫= k) s = k s s.
Proof. rewrite bind_run. simpl. apply after_nil. Qed.

Lemma bind_ret {A B} (a : A) (k : A → M B) s : (mret a ≫= k) s = k a s.
Proof. rewrite bind_run. simpl. apply after_nil. Qed.

Lemma bind_put_disk {B} d (k : unit → M B) s :
  (put_disk d ≫= k) s = k tt (State (cache s) d).
Proof. rewrite bind_run. simpl. apply after_nil. Qed.

Lemma bind_put_cache {B} c (k : unit → M B) s :
  (put_cache c ≫= k) s = k tt (State c (disk s)).
Proof. rewrite bind_run. simpl. apply after_nil. Qed.

Lemma bind_raise {A B} e (k : A → M B) s : (raise e ≫= k) s = (s, [], Raised e).
Proof. done. Qed.

Lemma bind_lift_inr {A B} (a : A) (k : A → M B) s : (lift (inr a) ≫= k) s = k a s.
Proof. apply bind_ret. Qed.

Lemma bind_lift_inl {A B} e (k : A → M B) s : (lift (inl e) ≫= k) s = (s, [], Raised e).
Proof. done. Qed.

Lemma bind_assoc {A B C} (c : M A) (k : A → M B) (h : B → M C) s :
  ((c ≫= k) ≫= h) s = (c ≫= (λ a, k a ≫= h)) s.
Proof.
  rewrite !bind_run. destruct (c s) as [[s1 t1] [a| |e]]; [|done..].
  rewrite bind_run. destruct (k a s1) as [[s2 t2] [b| |e]]; simpl; [|done..].
  by rewrite after_after.
Qed.

(** One step of a run: the leading primitive of a bind is executed. *)
Ltac run_step :=
  first [ rewrite bind_assoc | rewrite bind_emit | rewrite bind_get
        | rewrite bind_ret | rewrite bind_put_disk | rewrite bind_put_cache
        | rewrite bind_lift_inr | rewrite bind_lift_inl | rewrite bind_raise ];
  cbv beta.
Ltac run_steps := repeat run_step.

End RunFacts.

Module AppFacts.
Import Run RunFacts App OsFacts CountsFacts Spec.

Lemma unlink_run path s :
  is_Some (Os.read path (disk s)) →
  unlink path s = (State (cache s) (Os.remove path (disk s)), [os_unlink path], Return tt).
Proof.
  intros H%exists_true. unfold unlink.
  rewrite bind_emit, bind_get, H. done.
Qed.

Lemma find_filter {A} (P : A → bool) (l : list A) :
  List.find P l = head (List.filter P l).
Proof. induction l as [|x l IH]; [done|]. simpl. by destruct (P x). Qed.

(** Looking up the class names raises or returns, and calls nothing. *)
Lemma labels_run (model : Yolo.detector) (bs : list Yolo.box) s :
  mapM (λ box, names_getitem model (Yolo.cls box)) bs s =
    (s, [],
     match mapM (λ box, Yolo.names model !! Yolo.cls box) bs with
     | Some labels => Return labels
     | None =>
         match List.find (λ box, bool_decide (Yolo.names model !! Yolo.cls box = None)) bs with
         | Some box => Raised (Py.Exn Py.KeyError (pretty (Yolo.cls box)))
         | None => Stopped
         end
     end).
Proof.
  induction bs as [|b bs IH]; [done|].
  cbn [mapM]. rewrite bind_run. unfold names_getitem at 1.
  simpl. destruct (Yolo.names model !! Yolo.cls b) as [label|] eqn:Hb; simpl.
  - rewrite bind_run, IH.
    destruct (mapM (λ box, Yolo.names model !! Yolo.cls box) bs) as [labels|];
      simpl; [done|].
    by destruct (List.find _ bs).
  - done.
Qed.

Lemma labels_run_not_stopped (model : Yolo.detector) (bs : list Yolo.box) s :
  (mapM (λ box, names_getitem model (Yolo.cls box)) bs s).2 ≠ Stopped.
Proof.
  rewrite labels_run. simpl.
  destruct (mapM (λ box, Yolo.names model !! Yolo.cls box) bs)
    as [labels|] eqn:Hm; [done|].
  destruct (List.find _ bs) as [box|] eqn:Hf; [done|]. exfalso.
  induction bs as [|b bs IH]; [done|].
  simpl in Hf. cbn [mapM] in Hm.
  destruct (Yolo.names model !! Yolo.cls b) eqn:Hb; simpl in *.
  + destruct (mapM (λ box, Yolo.names model !! Yolo.cls box) bs); [done|].
    by apply IH.
  + done.
Qed.

Lemma cards_run (cols : list nat) (items : list (string * nat)) s :
  for_each (zip cols items)
    (λ '(col, (fruit, count)), emit (col_markdown col (Card fruit count))) s =
  (s, (λ '(col, (fruit, count)), col_markdown col (Card fruit count)) <$> zip cols items,
   Return tt).
Proof.
  generalize (zip cols items). intros l.
  induction l as [|[col [fruit count]] l IH]; [done|].
  cbn [for_each]. rewrite bind_emit, IH. done.
Qed.

Lemma bind_columns {B} n (k : list nat → M B) s :
  (columns (S n) ≫= k) s = after [st_columns (S n)] (k (seq 0 (S n)) s).
Proof. done. Qed.

(** The fruit-count part reads and displays; it changes no state. *)
Lemma fruit_counts_cases model inp r0 s :
  ∃ t r, fruit_counts model inp r0 s = (s, t, r) ∧ r ≠ Stopped ∧
         Forall summary_call t.
Proof.
  unfold fruit_counts. rewrite bind_run.
  pose proof (labels_run_not_stopped model (Yolo.boxes r0) s) as Hns.
  rewrite labels_run in *. simpl in Hns.
  destruct (mapM (λ box, Yolo.names model !! Yolo.cls box) (Yolo.boxes r0))
    as [labels|].
  - destruct labels as [|l labels].
    + eexists _, _. split; [reflexivity|]. split; [done|].
      repeat constructor.
    + rewrite after_nil, bind_emit.
      destruct (Py.dict_len _) as [|n] eqn:Hn.
      * eexists _, _. split; [reflexivity|]. split; [done|].
        repeat constructor.
      * rewrite bind_columns, cards_run.
        eexists _, _. split; [reflexivity|]. split; [done|].
        do 2 (constructor; [done|]). simpl.
        apply Forall_fmap, Forall_forall. by intros [col [fruit count]] _.
  - destruct (List.find _ (Yolo.boxes r0)).
    + by eexists _, _.
    + done.
Qed.

(** With every class id named, the part shows the notice for no
    labels and one card per entry of [counts] otherwise. *)
Lemma fruit_counts_run model inp r0 labels s :
  mapM (λ box, Yolo.names model !! Yolo.cls box) (Yolo.boxes r0) = Some labels →
  Py.iterates_set (set_iter inp labels) labels →
  fruit_counts model inp r0 s =
    (s,
     match labels with
     | [] => [st_warning "❌ No fruits detected"]
     | _ :: _ =>
         let counts := counts (set_iter inp labels) labels in
         st_markdown "<div class='section'><h3>🍎 Fruit Detection Summary</h3></div>"
         :: st_columns (length counts)
         :: ((λ '(col, (fruit, count)), col_markdown col (Card fruit count))
               <$> zip (seq 0 (length counts)) counts)
     end,
     Return tt).
Proof.
  intros Hlabels [Hnd Hiff]. unfold fruit_counts.
  rewrite bind_run, labels_run, Hlabels, after_nil.
  destruct labels as [|l labels]; [done|].
  rewrite bind_emit.
  pose proof (counts_length (set_iter inp (l :: labels)) (l :: labels) Hnd) as Hlen.
  assert (l ∈ set_iter inp (l :: labels)) as Hl by (apply Hiff; by left).
  destruct (set_iter inp (l :: labels)) as [|x order] eqn:Horder;
    [by apply elem_of_nil in Hl|].
  simpl in Hlen. unfold Py.dict_len in *. rewrite Hlen.
  rewrite bind_columns, cards_run. done.
Qed.

(** The scan of the output directory, whatever order the directory
    is enumerated in. *)
Lemma processed_video_run inp r0 s :
  let pred_dir := Yolo.save_dir r0 in
  processed_video inp r0 s =
    match List.find (λ f, Py.str_endswith_any f video_suffixes)
            (listdir_iter inp (Os.listdir pred_dir (disk s))) with
    | None =>
        (s, [os_listdir pred_dir; st_warning "⚠ Processed video not found"], Return tt)
    | Some f0 =>
        match Os.read (Os.path_join pred_dir f0) (disk s) with
        | Some data =>
            (s, [os_listdir pred_dir;
                 st_markdown "<div class='section'><h3>✅ Processed Video</h3></div>";
                 st_video (Os.path_join pred_dir f0);
                 open_rb (Os.path_join pred_dir f0);
                 st_download_button "⬇ Download Processed Video" data
                   "detected_fruit_video.mp4" "video/mp4"],
             Return tt)
        | None =>
            (s, [os_listdir pred_dir;
                 st_markdown "<div class='section'><h3>✅ Processed Video</h3></div>";
                 st_video (Os.path_join pred_dir f0);
                 open_rb (Os.path_join pred_dir f0)],
             Raised (Py.Exn Py.FileNotFoundError (Os.path_join pred_dir f0)))
        end
    end.
Proof.
  intros pred_dir. unfold processed_video, listdir_at. fold pred_dir.
  rewrite find_filter. run_steps.
  destruct (List.filter _ (listdir_iter inp (Os.listdir pred_dir (disk s))))
    as [|f0 rest] eqn:Hf.
  - done.
  - unfold open_read. run_steps.
    cbn [head].
    destruct (Os.read (Os.path_join pred_dir f0) (disk s)); by run_steps.
Qed.

(** When the enumeration is one of the directory, the first match can
    be opened. *)
Lemma find_enumerated inp dir d f0 :
  Os.enumerates (listdir_iter inp (Os.listdir dir d)) dir d →
  List.find (λ f, Py.str_endswith_any f video_suffixes)
    (listdir_iter inp (Os.listdir dir d)) = Some f0 →
  is_Some (Os.read (Os.path_join dir f0) d).
Proof.
  intros Henum Hfind. apply (OsFacts.enumerates_read _ _ _ _ Henum).
  apply list_elem_of_In. by apply find_some in Hfind as [? _].
Qed.

End AppFacts.

Module ScriptFacts.
Import Run RunFacts App OsFacts CountsFacts AppFacts Spec.

Lemma read_saved tmp data d : Os.read (Os.f_path tmp) (saved tmp data d) = Some data.
Proof. rewrite read_write. by rewrite decide_True. Qed.

Lemma find_all_false {A} (P : A → bool) (l : list A) :
  (∀ x, x ∈ l → P x = false) → List.find P l = None.
Proof.
  induction l as [|x l IH]; intros H; [done|]. simpl.
  rewrite (H x) by (by left). apply IH. intros y Hy. apply H. by right.
Qed.

Lemma find_first {A} (P : A → bool) (before : list A) (x : A) (rest : list A) :
  (∀ y, y ∈ before → P y = false) → P x = true →
  List.find P (before ++ x :: rest) = Some x.
Proof.
  induction before as [|y before IH]; intros Hb Hx; simpl.
  - by rewrite Hx.
  - rewrite (Hb y) by (by left). apply IH; [|done].
    intros z Hz. apply Hb. by right.
Qed.

Lemma first_split {A} (P : A → bool) (l : list A) (x : A) :
  x ∈ l → P x = true →
  ∃ before y rest,
    l = before ++ y :: rest ∧ (∀ z, z ∈ before → P z = false) ∧ P y = true.
Proof.
  induction l as [|a l IH]; intros Hin Hx; [by apply elem_of_nil in Hin|].
  destruct (P a) eqn:Ha.
  - exists [], a, l. split; [done|]. split; [|done].
    intros z Hz. by apply elem_of_nil in Hz.
  - apply elem_of_cons in Hin as [->|Hin]; [congruence|].
    destruct (IH Hin Hx) as (before & y & rest & -> & Hb & Hy).
    exists (a :: before), y, rest. split; [done|]. split; [|done].
    intros z [->|Hz]%elem_of_cons; [done|by apply Hb].
Qed.

(** A name passes [f.endswith(('.mp4', '.avi', '.mov', '.mkv'))] exactly
    when it ends with a dot and one of the four extensions. *)
Lemma video_suffix_extension (f : string) :
  Py.str_endswith_any f video_suffixes = true ↔
  ∃ stem e, e ∈ ["mp4"; "avi"; "mov"; "mkv"] ∧ f = stem +:+ "." +:+ e.
Proof.
  unfold Py.str_endswith_any, video_suffixes. rewrite existsb_exists. split.
  - intros (suffix & Hin & [stem ->]%PyFacts.str_endswith_inv).
    exists stem. simpl in Hin.
    destruct Hin as [<-|[<-|[<-|[<-|[]]]]];
      [exists "mp4"|exists "avi"|exists "mov"|exists "mkv"];
      (split; [rewrite !elem_of_cons; tauto|done]).
  - intros (stem & e & He & ->). exists ("." +:+ e). split.
    + rewrite !elem_of_cons, elem_of_nil in He. simpl.
      destruct He as [->|[->|[->|[->|[]]]]]; tauto.
    + apply PyFacts.str_endswith_app, PyFacts.str_endswith_refl.
Qed.

(** The calls of the output scan, and the state it leaves alone. *)
Lemma processed_video_cases inp r0 s :
  ∃ tv r, processed_video inp r0 s = (s, tv, r) ∧ r ≠ Stopped ∧
    (r = Return tt →
     ∀ out, open_rb out ∈ tv →
       ∃ data, Os.read out (disk s) = Some data ∧
               st_download_button "⬇ Download Processed Video" data
                 "detected_fruit_video.mp4" "video/mp4" ∈ tv) ∧
    (∀ p, tempfile_new p ∉ tv) ∧ (∀ p, os_unlink p ∉ tv).
Proof.
  rewrite processed_video_run. cbv zeta.
  destruct (List.find _ _) as [f0|];
    [destruct (Os.read _ _) as [data|] eqn:Hdata|];
    eexists _, _; (split; [done|]); (split; [done|]); (split; [|split]).
  - intros _ out Hout. exists data.
    rewrite !elem_of_cons in Hout.
    destruct Hout as [?|[?|[?|[[= ->]|[?|Hnil]]]]]; try done.
    + split; [done|]. rewrite !elem_of_cons. auto 10.
    + by apply elem_of_nil in Hnil.
  - intros p Hin. rewrite !elem_of_cons, elem_of_nil in Hin. intuition discriminate.
  - intros p Hin. rewrite !elem_of_cons, elem_of_nil in Hin. intuition discriminate.
  - done.
  - intros p Hin. rewrite !elem_of_cons, elem_of_nil in Hin. intuition discriminate.
  - intros p Hin. rewrite !elem_of_cons, elem_of_nil in Hin. intuition discriminate.
  - intros _ out Hin. rewrite !elem_of_cons, elem_of_nil in Hin. intuition discriminate.
  - intros p Hin. rewrite !elem_of_cons, elem_of_nil in Hin. intuition discriminate.
  - intros p Hin. rewrite !elem_of_cons, elem_of_nil in Hin. intuition discriminate.
Qed.

Section Script.
Variable YOLO : string → Py.exn + Yolo.detector.
Variable Image_open : list byte → Py.exn + Cv2.image.
Variable tempdir : string.

(** An image run, up to the display of the annotated frame. *)
Lemma image_mode_run model inp s up tmp img r0 rs written :
  uploaded_image inp = Some up →
  Os.mkstemp tempdir (tmp_rnds inp) ".jpg" (disk s) = Some tmp →
  Image_open (up_data up) = inr img →
  Yolo.predict model (saved tmp (up_data up) (disk s))
    (image_args inp (Os.f_path tmp)) = inr (r0 :: rs, written) →
  image_mode Image_open tempdir model inp s =
    after [st_file_uploader "📤 Upload an Image" ["jpg"; "jpeg"; "png"];
           tempfile_new (Os.f_path tmp);
           file_write (Os.f_path tmp) (up_data up);
           st_markdown "<div class='section'><h3>📷 Original Image</h3></div>";
           Image_open_path (Os.f_path tmp);
           st_image img;
           st_info "🔍 Detecting fruits...";
           model_predict (image_args inp (Os.f_path tmp));
           st_markdown "<div class='section'><h3>🎯 Detected Image</h3></div>";
           st_image (Cv2.cvtColor (Yolo.plot r0) Cv2.COLOR_BGR2RGB)]
      ((fruit_counts model inp r0;; unlink (Os.f_path tmp))
         (State (cache s)
            (Os.write_all written (saved tmp (up_data up) (disk s))))).
Proof.
  intros Hup Htmp Himg Hpred.
  unfold image_mode, NamedTemporaryFile, tmp_write, Image_open_at, predict.
  rewrite Hup. run_steps. rewrite Htmp. run_steps. cbn [disk cache].
  rewrite read_saved, Himg. run_steps. cbn [disk cache].
  rewrite Hpred. run_steps. cbn [disk cache Py.getitem_0].
  run_steps. by rewrite !after_after.
Qed.

(** A video run, up to the return of the detector. *)
Lemma video_mode_run model inp s up ext tfile r0 rs written :
  uploaded_video inp = Some up →
  last (Py.str_split "." (up_name up)) = Some ext →
  Os.mkstemp tempdir (tmp_rnds inp) ("." +:+ ext) (disk s) = Some tfile →
  Yolo.predict model (saved tfile (up_data up) (disk s))
    (video_args inp (Os.f_path tfile)) = inr (r0 :: rs, written) →
  video_mode tempdir model inp s =
    after [st_file_uploader "📤 Upload a Video" ["mp4"; "mov"; "avi"; "mkv"];
           tempfile_new (Os.f_path tfile);
           file_write (Os.f_path tfile) (up_data up);
           st_markdown "<div class='section'><h3>🎥 Original Video</h3></div>";
           st_video (Os.f_path tfile);
           st_info "⏳ Processing video...";
           model_predict (video_args inp (Os.f_path tfile))]
      ((processed_video inp r0;; unlink (Os.f_path tfile))
         (State (cache s)
            (Os.write_all written (saved tfile (up_data up) (disk s))))).
Proof.
  intros Hup Hext Htmp Hpred.
  unfold video_mode, NamedTemporaryFile, tmp_write, predict, Py.getitem_last.
  rewrite Hup, Hext. run_steps. rewrite Htmp. run_steps. cbn [disk cache].
  rewrite Hpred. run_steps. cbn [disk cache Py.getitem_0].
  run_steps. by rewrite !after_after.
Qed.

(** The temporary file is still there when the script unlinks it. *)
Lemma unlink_saved tmp data written c d :
  unlink (Os.f_path tmp) (State c (Os.write_all written (saved tmp data d))) =
    (State c (Os.remove (Os.f_path tmp) (Os.write_all written (saved tmp data d))),
     [os_unlink (Os.f_path tmp)], Return tt).
Proof.
  apply (unlink_run _ (State c _)). cbn [disk].
  apply read_write_all_is_Some. rewrite read_saved. eauto.
Qed.

Lemma last_str_split sep name : is_Some (last (Py.str_split sep name)).
Proof.
  pose proof (PyFacts.str_split_length sep name) as H.
  destruct (Py.str_split sep name) as [|w ws] eqn:E; [simpl in H; lia|].
  rewrite last_is_Some. done.
Qed.

(** What a normal exit of the image block tells about the run. *)
Lemma image_mode_normal model inp s s' t :
  image_mode Image_open tempdir model inp s = (s', t, Return tt) →
  (uploaded_image inp = None ∧ s' = s ∧
   t = [st_file_uploader "📤 Upload an Image" ["jpg"; "jpeg"; "png"]]) ∨
  (∃ up tmp img r0 rs written tc,
     uploaded_image inp = Some up ∧
     Os.mkstemp tempdir (tmp_rnds inp) ".jpg" (disk s) = Some tmp ∧
     Image_open (up_data up) = inr img ∧
     Yolo.predict model (saved tmp (up_data up) (disk s))
       (image_args inp (Os.f_path tmp)) = inr (r0 :: rs, written) ∧
     Forall summary_call tc ∧
     s' = State (cache s)
            (Os.remove (Os.f_path tmp)
               (Os.write_all written (saved tmp (up_data up) (disk s)))) ∧
     t = [st_file_uploader "📤 Upload an Image" ["jpg"; "jpeg"; "png"];
          tempfile_new (Os.f_path tmp);
          file_write (Os.f_path tmp) (up_data up);
          st_markdown "<div class='section'><h3>📷 Original Image</h3></div>";
          Image_open_path (Os.f_path tmp);
          st_image img;
          st_info "🔍 Detecting fruits...";
          model_predict (image_args inp (Os.f_path tmp));
          st_markdown "<div class='section'><h3>🎯 Detected Image</h3></div>";
          st_image (Cv2.cvtColor (Yolo.plot r0) Cv2.COLOR_BGR2RGB)]
         ++ tc ++ [os_unlink (Os.f_path tmp)]).
Proof.
  intros Hrun.
  destruct (uploaded_image inp) as [up|] eqn:Hup.
  2:{ left. unfold image_mode in Hrun. rewrite Hup in Hrun.
      revert Hrun. run_steps. by intros [= <- <-]. }
  right.
  destruct (Os.mkstemp tempdir (tmp_rnds inp) ".jpg" (disk s)) as [tmp|] eqn:Htmp.
  2:{ exfalso. revert Hrun.
      unfold image_mode, NamedTemporaryFile. rewrite Hup. run_steps.
      rewrite Htmp. by run_steps. }
  destruct (Image_open (up_data up)) as [e|img] eqn:Himg.
  { exfalso. revert Hrun.
    unfold image_mode, NamedTemporaryFile, tmp_write, Image_open_at.
    rewrite Hup. run_steps. rewrite Htmp. run_steps. cbn [disk cache].
    rewrite read_saved, Himg. by run_steps. }
  destruct (Yolo.predict model (saved tmp (up_data up) (disk s))
              (image_args inp (Os.f_path tmp))) as [e|[[|r0 rs] written]] eqn:Hpred.
  1,2: exfalso; revert Hrun;
    unfold image_mode, NamedTemporaryFile, tmp_write, Image_open_at, predict;
    rewrite Hup; run_steps; rewrite Htmp; run_steps; cbn [disk cache];
    rewrite read_saved, Himg; run_steps; cbn [disk cache];
    rewrite Hpred; by run_steps.
  rewrite (image_mode_run _ _ _ _ _ _ _ _ _ Hup Htmp Himg Hpred) in Hrun.
  rewrite bind_run in Hrun.
  destruct (fruit_counts_cases model inp r0
              (State (cache s) (Os.write_all written (saved tmp (up_data up) (disk s)))))
    as (tc & r & Hfc & Hns & Htc).
  rewrite Hfc in Hrun. destruct r as [[]| |e]; [|done|done].
  rewrite unlink_saved in Hrun. simpl in Hrun.
  injection Hrun as <- <-.
  exists up, tmp, img, r0, rs, written, tc. done.
Qed.

(** What a normal exit of the video block tells about the run. *)
Lemma video_mode_normal model inp s s' t :
  video_mode tempdir model inp s = (s', t, Return tt) →
  (uploaded_video inp = None ∧ s' = s ∧
   t = [st_file_uploader "📤 Upload a Video" ["mp4"; "mov"; "avi"; "mkv"]]) ∨
  (∃ up ext tfile r0 rs written tv,
     uploaded_video inp = Some up ∧
     last (Py.str_split "." (up_name up)) = Some ext ∧
     Os.mkstemp tempdir (tmp_rnds inp) ("." +:+ ext) (disk s) = Some tfile ∧
     Yolo.predict model (saved tfile (up_data up) (disk s))
       (video_args inp (Os.f_path tfile)) = inr (r0 :: rs, written) ∧
     processed_video inp r0
       (State (cache s) (Os.write_all written (saved tfile (up_data up) (disk s))))
     = (State (cache s) (Os.write_all written (saved tfile (up_data up) (disk s))),
        tv, Return tt) ∧
     s' = State (cache s)
            (Os.remove (Os.f_path tfile)
               (Os.write_all written (saved tfile (up_data up) (disk s)))) ∧
     t = [st_file_uploader "📤 Upload a Video" ["mp4"; "mov"; "avi"; "mkv"];
          tempfile_new (Os.f_path tfile);
          file_write (Os.f_path tfile) (up_data up);
          st_markdown "<div class='section'><h3>🎥 Original Video</h3></div>";
          st_video (Os.f_path tfile);
          st_info "⏳ Processing video...";
          model_predict (video_args inp (Os.f_path tfile))]
         ++ tv ++ [os_unlink (Os.f_path tfile)]).
Proof.
  intros Hrun.
  destruct (uploaded_video inp) as [up|] eqn:Hup.
  2:{ left. unfold video_mode in Hrun. rewrite Hup in Hrun.
      revert Hrun. run_steps. by intros [= <- <-]. }
  right.
  destruct (last_str_split "." (up_name up)) as [ext Hext].
  destruct (Os.mkstemp tempdir (tmp_rnds inp) ("." +:+ ext) (disk s))
    as [tfile|] eqn:Htmp.
  2:{ exfalso. revert Hrun.
      unfold video_mode, NamedTemporaryFile, Py.getitem_last.
      rewrite Hup, Hext. run_steps. rewrite Htmp. by run_steps. }
  destruct (Yolo.predict model (saved tfile (up_data up) (disk s))
              (video_args inp (Os.f_path tfile))) as [e|[[|r0 rs] written]] eqn:Hpred.
  1,2: exfalso; revert Hrun;
    unfold video_mode, NamedTemporaryFile, tmp_write, predict, Py.getitem_last;
    rewrite Hup, Hext; run_steps; rewrite Htmp; run_steps; cbn [disk cache];
    rewrite Hpred; by run_steps.
  rewrite (video_mode_run _ _ _ _ _ _ _ _ _ Hup Hext Htmp Hpred) in Hrun.
  rewrite bind_run in Hrun.
  destruct (processed_video_cases inp r0
              (State (cache s) (Os.write_all written (saved tfile (up_data up) (disk s)))))
    as (tv & r & Hpv & _).
  rewrite Hpv in Hrun. destruct r as [[]| |e]; [|done|done].
  rewrite unlink_saved in Hrun. simpl in Hrun.
  injection Hrun as <- <-.
  exists up, ext, tfile, r0, rs, written, tv. done.
Qed.

(** ** Loading the model *)

Lemma load_model_cached p s model :
  cache s = Some model → load_model YOLO p s = (s, [], Return model).
Proof. intros H. unfold load_model. run_steps. by rewrite H. Qed.

Lemma load_model_new p s model :
  cache s = None → YOLO p = inr model →
  load_model YOLO p s = (State (Some model) (disk s), [YOLO_new p], Return model).
Proof. intros H Hp. unfold load_model. run_steps. rewrite H. run_steps. rewrite Hp. by run_steps. Qed.

Lemma load_model_failed p s e :
  cache s = None → YOLO p = inl e →
  load_model YOLO p s = (s, [YOLO_new p], Raised e).
Proof. intros H Hp. unfold load_model. run_steps. rewrite H. run_steps. rewrite Hp. by run_steps. Qed.

(** [load_model] raises exactly when nothing is cached and the
    constructor raises. *)
Lemma load_model_raised p s s1 t1 e :
  load_model YOLO p s = (s1, t1, Raised e) ↔
  cache s = None ∧ YOLO p = inl e ∧ s1 = s ∧ t1 = [YOLO_new p].
Proof.
  split.
  - destruct (cache s) as [model|] eqn:Hc.
    { by rewrite (load_model_cached _ _ _ Hc). }
    destruct (YOLO p) as [e'|model] eqn:Hp.
    + rewrite (load_model_failed _ _ _ Hc Hp). by intros [= <- <- <-].
    + by rewrite (load_model_new _ _ _ Hc Hp).
  - intros (Hc & Hp & -> & ->). by apply load_model_failed.
Qed.

(** The block the mode selects. *)
Abbreviation block model inp :=
  (match mode inp with
   | Image => image_mode Image_open tempdir model inp
   | Video => video_mode tempdir model inp
   end).

Lemma app_cached inp s model :
  cache s = Some model →
  app YOLO Image_open tempdir inp s = block model inp s.
Proof.
  intros Hc. unfold app, try_except. rewrite bind_run.
  rewrite (load_model_cached _ _ _ Hc). apply after_nil.
Qed.

Lemma app_new inp s model :
  cache s = None → YOLO (model_path inp) = inr model →
  app YOLO Image_open tempdir inp s =
    after [YOLO_new (model_path inp)] (block model inp (State (Some model) (disk s))).
Proof.
  intros Hc Hp. unfold app, try_except. rewrite bind_run.
  by rewrite (load_model_new _ _ _ Hc Hp).
Qed.

Lemma app_failed inp s e :
  cache s = None → YOLO (model_path inp) = inl e →
  app YOLO Image_open tempdir inp s =
    (s, [YOLO_new (model_path inp);
         st_error ("❌ Could not load model: " +:+ Py.exn_str e); st_stop], Stopped).
Proof.
  intros Hc Hp. unfold app, try_except. rewrite bind_run.
  by rewrite (load_model_failed _ _ _ Hc Hp).
Qed.

End Script.
End ScriptFacts.

Module CacheFacts.
Import Run RunFacts App OsFacts CountsFacts AppFacts ScriptFacts Spec.

Lemma keeps_model_ret {A} (a : A) : keeps_model (mret a).
Proof. intros s. split; [done|constructor]. Qed.

Lemma keeps_model_bind {A B} (c : M A) (k : A → M B) :
  keeps_model c → (∀ a, keeps_model (k a)) → keeps_model (c ≫= k).
Proof.
  intros Hc Hk s. rewrite bind_run. specialize (Hc s).
  destruct (c s) as [[s1 t1] [a| |e]]; simpl in *; [|done..].
  destruct Hc as [Hc1 Hc2]. specialize (Hk a s1).
  destruct (k a s1) as [[s2 t2] r]; simpl in *.
  destruct Hk as [Hk1 Hk2]. split; [congruence|by apply Forall_app].
Qed.

Lemma keeps_model_emit x : (∀ p, x ≠ YOLO_new p) → keeps_model (emit x).
Proof. intros Hx s. split; [done|]. by repeat constructor. Qed.

Lemma keeps_model_raise {A} e : keeps_model (raise (A:=A) e).
Proof. intros s. split; [done|constructor]. Qed.

Lemma keeps_model_lift {A} (r : Py.exn + A) : keeps_model (lift r).
Proof. destruct r; [apply keeps_model_raise|apply keeps_model_ret]. Qed.

Lemma keeps_model_get : keeps_model get.
Proof. intros s. split; [done|constructor]. Qed.

Lemma keeps_model_put_disk d : keeps_model (put_disk d).
Proof. intros s. split; [done|constructor]. Qed.

Lemma keeps_model_for_each {A} (l : list A) (body : A → M unit) :
  (∀ x, keeps_model (body x)) → keeps_model (for_each l body).
Proof.
  intros Hb. induction l as [|x l IH]; [apply keeps_model_ret|].
  cbn [for_each]. apply keeps_model_bind; [apply Hb|by intros _].
Qed.

Lemma keeps_model_mapM {A B} (f : A → M B) (l : list A) :
  (∀ x, keeps_model (f x)) → keeps_model (mapM f l).
Proof.
  intros Hf. induction l as [|x l IH]; [apply keeps_model_ret|].
  cbn [mapM]. apply keeps_model_bind; [apply Hf|intros y].
  apply keeps_model_bind; [apply IH|intros k]. apply keeps_model_ret.
Qed.

(** Decompose a script into its primitives. *)
Ltac keeps_model_tac :=
  repeat first
    [ apply keeps_model_ret | apply keeps_model_raise | apply keeps_model_lift
    | apply keeps_model_get | apply keeps_model_put_disk
    | apply keeps_model_emit; intros ?; discriminate
    | apply keeps_model_bind; [|intros ?]
    | apply keeps_model_for_each; intros ?
    | apply keeps_model_mapM; intros ?
    | match goal with
      | |- keeps_model (match ?x with _ => _ end) => destruct x
      | |- keeps_model (let _ := _ in _) => cbv zeta
      | |- keeps_model (if ?x then _ else _) => destruct x
      end ].

Section Script.
Variable YOLO : string → Py.exn + Yolo.detector.
Variable Image_open : list byte → Py.exn + Cv2.image.
Variable tempdir : string.

Lemma image_mode_keeps_model model inp :
  keeps_model (image_mode Image_open tempdir model inp).
Proof.
  unfold image_mode, NamedTemporaryFile, tmp_write, Image_open_at, predict,
    fruit_counts, names_getitem, columns, unlink.
  keeps_model_tac.
Qed.

Lemma video_mode_keeps_model model inp :
  keeps_model (video_mode tempdir model inp).
Proof.
  unfold video_mode, NamedTemporaryFile, tmp_write, predict,
    processed_video, listdir_at, open_read, unlink.
  keeps_model_tac.
Qed.

(** With a model in the cache, a rerun neither consults the model
    path nor replaces the model. *)
Lemma app_cached_keeps_model inp s model :
  cache s = Some model →
  app YOLO Image_open tempdir inp s =
    app YOLO Image_open tempdir (set_model_path (model_path inp) inp) s ∧
  (∀ p, app YOLO Image_open tempdir (set_model_path p inp) s =
        app YOLO Image_open tempdir inp s) ∧
  cache (app YOLO Image_open tempdir inp s).1.1 = Some model ∧
  Forall (λ x, ∀ p, x ≠ YOLO_new p) (app YOLO Image_open tempdir inp s).1.2.
Proof.
  intros Hc. split; [|split].
  - by rewrite !(app_cached _ _ _ _ _ _ Hc).
  - intros p. by rewrite !(app_cached _ _ _ _ _ _ Hc).
  - rewrite (app_cached _ _ _ _ _ _ Hc), <- Hc.
    destruct (mode inp);
      [apply image_mode_keeps_model|apply video_mode_keeps_model].
Qed.

End Script.
End CacheFacts.

(** * Every way a block can run *)

Module CaseFacts.
Import Run RunFacts App OsFacts CountsFacts AppFacts ScriptFacts Spec Trace.

Lemma read_write_all_other p w d :
  (∀ f, f ∈ w → Os.f_path f ≠ p) → Os.read p (Os.write_all w d) = Os.read p d.
Proof.
  unfold Os.write_all. revert d.
  induction w as [|f w IH]; intros d Hw; [done|]. simpl.
  rewrite IH by (intros g Hg; apply Hw; by right).
  rewrite read_write. rewrite decide_False; [done|].
  intros ->. by apply (Hw f); [left|].
Qed.

Section Script.
Variable Image_open : list byte → Py.exn + Cv2.image.
Variable tempdir : string.

(** The image block, case by case. *)
Lemma image_mode_cases model inp s :
  image_mode Image_open tempdir model inp s =
    match uploaded_image inp with
    | None =>
        (s, [st_file_uploader "📤 Upload an Image" ["jpg"; "jpeg"; "png"]], Return tt)
    | Some up =>
        match Os.mkstemp tempdir (tmp_rnds inp) ".jpg" (disk s) with
        | None =>
            (s, [st_file_uploader "📤 Upload an Image" ["jpg"; "jpeg"; "png"]],
             Raised (Py.Exn Py.FileExistsError "No usable temporary file name found"))
        | Some tmp =>
            match Image_open (up_data up) with
            | inl e =>
                (State (cache s) (saved tmp (up_data up) (disk s)),
                 [st_file_uploader "📤 Upload an Image" ["jpg"; "jpeg"; "png"];
                  tempfile_new (Os.f_path tmp);
                  file_write (Os.f_path tmp) (up_data up);
                  st_markdown "<div class='section'><h3>📷 Original Image</h3></div>";
                  Image_open_path (Os.f_path tmp)],
                 Raised e)
            | inr img =>
                match Yolo.predict model (saved tmp (up_data up) (disk s))
                        (image_args inp (Os.f_path tmp)) with
                | inl e =>
                    (State (cache s) (saved tmp (up_data up) (disk s)),
                     [st_file_uploader "📤 Upload an Image" ["jpg"; "jpeg"; "png"];
                      tempfile_new (Os.f_path tmp);
                      file_write (Os.f_path tmp) (up_data up);
                      st_markdown "<div class='section'><h3>📷 Original Image</h3></div>";
                      Image_open_path (Os.f_path tmp);
                      st_image img;
                      st_info "🔍 Detecting fruits...";
                      model_predict (image_args inp (Os.f_path tmp))],
                     Raised e)
                | inr ([], written) =>
                    (State (cache s)
                       (Os.write_all written (saved tmp (up_data up) (disk s))),
                     [st_file_uploader "📤 Upload an Image" ["jpg"; "jpeg"; "png"];
                      tempfile_new (Os.f_path tmp);
                      file_write (Os.f_path tmp) (up_data up);
                      st_markdown "<div class='section'><h3>📷 Original Image</h3></div>";
                      Image_open_path (Os.f_path tmp);
                      st_image img;
                      st_info "🔍 Detecting fruits...";
                      model_predict (image_args inp (Os.f_path tmp))],
                     Raised (Py.Exn Py.IndexError "list index out of range"))
                | inr (r0 :: _, written) =>
                    after
                      [st_file_uploader "📤 Upload an Image" ["jpg"; "jpeg"; "png"];
                       tempfile_new (Os.f_path tmp);
                       file_write (Os.f_path tmp) (up_data up);
                       st_markdown "<div class='section'><h3>📷 Original Image</h3></div>";
                       Image_open_path (Os.f_path tmp);
                       st_image img;
                       st_info "🔍 Detecting fruits...";
                       model_predict (image_args inp (Os.f_path tmp));
                       st_markdown "<div class='section'><h3>🎯 Detected Image</h3></div>";
                       st_image (Cv2.cvtColor (Yolo.plot r0) Cv2.COLOR_BGR2RGB)]
                      ((fruit_counts model inp r0;; unlink (Os.f_path tmp))
                         (State (cache s)
                            (Os.write_all written (saved tmp (up_data up) (disk s)))))
                end
            end
        end
    end.
Proof.
  destruct (uploaded_image inp) as [up|] eqn:Hup.
  2:{ unfold image_mode. rewrite Hup. by run_steps. }
  destruct (Os.mkstemp tempdir (tmp_rnds inp) ".jpg" (disk s)) as [tmp|] eqn:Htmp.
  2:{ unfold image_mode, NamedTemporaryFile. rewrite Hup. run_steps.
      rewrite Htmp. by run_steps. }
  destruct (Image_open (up_data up)) as [e|img] eqn:Himg.
  { unfold image_mode, NamedTemporaryFile, tmp_write, Image_open_at.
    rewrite Hup. run_steps. rewrite Htmp. run_steps. cbn [disk cache].
    rewrite read_saved, Himg. by run_steps. }
  destruct (Yolo.predict model (saved tmp (up_data up) (disk s))
              (image_args inp (Os.f_path tmp))) as [e|[[|r0 rs] written]] eqn:Hpred.
  1,2: unfold image_mode, NamedTemporaryFile, tmp_write, Image_open_at, predict;
    rewrite Hup; run_steps; rewrite Htmp; run_steps; cbn [disk cache];
    rewrite read_saved, Himg; run_steps; cbn [disk cache];
    rewrite Hpred; by run_steps.
  by apply image_mode_run with rs.
Qed.

(** The video block, case by case. *)
Lemma video_mode_cases model inp s :
  video_mode tempdir model inp s =
    match uploaded_video inp with
    | None =>
        (s, [st_file_uploader "📤 Upload a Video" ["mp4"; "mov"; "avi"; "mkv"]], Return tt)
    | Some up =>
        match last (Py.str_split "." (up_name up)) with
        | None =>
            (s, [st_file_uploader "📤 Upload a Video" ["mp4"; "mov"; "avi"; "mkv"]],
             Raised (Py.Exn Py.IndexError "list index out of range"))
        | Some ext =>
            match Os.mkstemp tempdir (tmp_rnds inp) ("." +:+ ext) (disk s) with
            | None =>
                (s, [st_file_uploader "📤 Upload a Video" ["mp4"; "mov"; "avi"; "mkv"]],
                 Raised (Py.Exn Py.FileExistsError "No usable temporary file name found"))
            | Some tfile =>
                match Yolo.predict model (saved tfile (up_data up) (disk s))
                        (video_args inp (Os.f_path tfile)) with
                | inl e =>
                    (State (cache s) (saved tfile (up_data up) (disk s)),
                     [st_file_uploader "📤 Upload a Video" ["mp4"; "mov"; "avi"; "mkv"];
                      tempfile_new (Os.f_path tfile);
                      file_write (Os.f_path tfile) (up_data up);
                      st_markdown "<div class='section'><h3>🎥 Original Video</h3></div>";
                      st_video (Os.f_path tfile);
                      st_info "⏳ Processing video...";
                      model_predict (video_args inp (Os.f_path tfile))],
                     Raised e)
                | inr ([], written) =>
                    (State (cache s)
                       (Os.write_all written (saved tfile (up_data up) (disk s))),
                     [st_file_uploader "📤 Upload a Video" ["mp4"; "mov"; "avi"; "mkv"];
                      tempfile_new (Os.f_path tfile);
                      file_write (Os.f_path tfile) (up_data up);
                      st_markdown "<div class='section'><h3>🎥 Original Video</h3></div>";
                      st_video (Os.f_path tfile);
                      st_info "⏳ Processing video...";
                      model_predict (video_args inp (Os.f_path tfile))],
                     Raised (Py.Exn Py.IndexError "list index out of range"))
                | inr (r0 :: _, written) =>
                    after
                      [st_file_uploader "📤 Upload a Video" ["mp4"; "mov"; "avi"; "mkv"];
                       tempfile_new (Os.f_path tfile);
                       file_write (Os.f_path tfile) (up_data up);
                       st_markdown "<div class='section'><h3>🎥 Original Video</h3></div>";
                       st_video (Os.f_path tfile);
                       st_info "⏳ Processing video...";
                       model_predict (video_args inp (Os.f_path tfile))]
                      ((processed_video inp r0;; unlink (Os.f_path tfile))
                         (State (cache s)
                            (Os.write_all written (saved tfile (up_data up) (disk s)))))
                end
            end
        end
    end.
Proof.
  destruct (uploaded_video inp) as [up|] eqn:Hup.
  2:{ unfold video_mode. rewrite Hup. by run_steps. }
  destruct (last (Py.str_split "." (up_name up))) as [ext|] eqn:Hext.
  2:{ unfold video_mode, Py.getitem_last. rewrite Hup, Hext. by run_steps. }
  destruct (Os.mkstemp tempdir (tmp_rnds inp) ("." +:+ ext) (disk s))
    as [tfile|] eqn:Htmp.
  2:{ unfold video_mode, NamedTemporaryFile, Py.getitem_last.
      rewrite Hup, Hext. run_steps. rewrite Htmp. by run_steps. }
  destruct (Yolo.predict model (saved tfile (up_data up) (disk s))
              (video_args inp (Os.f_path tfile))) as [e|[[|r0 rs] written]] eqn:Hpred.
  1,2: unfold video_mode, NamedTemporaryFile, tmp_write, predict, Py.getitem_last;
    rewrite Hup, Hext; run_steps; rewrite Htmp; run_steps; cbn [disk cache];
    rewrite Hpred; by run_steps.
  by apply video_mode_run with ext rs.
Qed.

End Script.
End CaseFacts.

(** * The properties of the script *)

Import Run RunFacts App OsFacts CountsFacts AppFacts ScriptFacts Spec CacheFacts.

(** C1. For every detection-label list [L] of one image, the dict built by
    the comprehension has as keys exactly the distinct labels of [L], each
    once, and maps each of them to its number of occurrences in [L]; a
    label that does not occur in [L] is not a key, and no value is zero.
    When [L] is not empty this dict is what the fruit-count part of the
    script shows, one card per entry. *)
Theorem counts_keys_and_values (order L : list string) :
  Py.iterates_set order L →
  (∀ model inp r0 s,
     mapM (λ box, Yolo.names model !! Yolo.cls box) (Yolo.boxes r0) = Some L →
     set_iter inp L = order →
     L ≠ [] →
     fruit_counts model inp r0 s =
       (s,
        st_markdown "<div class='section'><h3>🍎 Fruit Detection Summary</h3></div>"
        :: st_columns (length (counts order L))
        :: ((λ '(col, (fruit, count)), col_markdown col (Card fruit count))
              <$> zip (seq 0 (length (counts order L))) (counts order L)),
        Return tt)) ∧
  NoDup (Py.dict_keys (counts order L)) ∧
  (∀ label, label ∈ Py.dict_keys (counts order L) ↔ label ∈ L) ∧
  dom (Py.dict_view (counts order L)) = list_to_set L ∧
  (∀ label, label ∈ L →
     Py.dict_get (counts order L) label = Some (Py.list_count label L)) ∧
  (∀ label, label ∉ L → Py.dict_get (counts order L) label = None) ∧
  (∀ label n, Py.dict_get (counts order L) label = Some n →
     n = Py.list_count label L ∧ (1 ≤ n)%nat).
Proof.
  intros Horder. split.
  { intros model inp r0 s Hlabels <- Hne.
    rewrite (fruit_counts_run model inp r0 L s Hlabels Horder).
    by destruct L. }
  destruct Horder as [Hnd Hiff]. repeat split.
  - apply counts_NoDup.
  - rewrite counts_keys. apply Hiff.
  - rewrite counts_keys. apply Hiff.
  - apply set_eq. intros label.
    rewrite elem_of_dom, PyFacts.dict_view_lookup, PyFacts.dict_get_keys, counts_keys,
      elem_of_list_to_set. apply Hiff.
  - intros label Hin. rewrite counts_get, decide_True; [done|by apply Hiff].
  - intros label Hnin. rewrite counts_get, decide_False; [done|by rewrite Hiff].
  - revert H. rewrite counts_get. case_decide; congruence.
  - revert H. rewrite counts_get. case_decide as Hin; [|done].
    intros [= <-]. apply Hiff, PyFacts.list_count_pos in Hin. lia.
Qed.

(** C7. Aggregation is deterministic: two runs on identical detection
    lists build the same mapping, whatever order each run iterates
    [set(labels)] in. *)
Theorem counts_deterministic (order1 order2 L1 L2 : list string) :
  L1 = L2 →
  Py.iterates_set order1 L1 →
  Py.iterates_set order2 L2 →
  Py.dict_view (counts order1 L1) = Py.dict_view (counts order2 L2) ∧
  Py.dict_items (counts order1 L1) ≡ₚ Py.dict_items (counts order2 L2) ∧
  (order1 = order2 → counts order1 L1 = counts order2 L2).
Proof.
  intros <- [Hnd1 H1] [Hnd2 H2].
  assert (Py.dict_view (counts order1 L1) = Py.dict_view (counts order2 L1)) as Hview.
  { apply map_eq. intros label. rewrite !PyFacts.dict_view_lookup, !counts_get.
    destruct (decide (label ∈ order1)) as [Hin|Hnin].
    - rewrite decide_True; [done|]. by apply H2, H1.
    - rewrite decide_False; [done|]. by rewrite H2, <- H1. }
  split; [exact Hview|]. split; [|by intros ->].
  rewrite <- (PyFacts.dict_view_items (counts order1 L1)) by apply counts_NoDup.
  rewrite <- (PyFacts.dict_view_items (counts order2 L1)) by apply counts_NoDup.
  by rewrite Hview.
Qed.

Section Properties.
Variable YOLO : string → Py.exn + Yolo.detector.
Variable Image_open : list byte → Py.exn + Cv2.image.
Variable tempdir : string.

(** C2. For the empty detection list the comprehension gives the empty
    mapping (the script does not even evaluate it), and the image block
    then shows the single notice that nothing was detected: no summary
    header, no columns and no count card are rendered. *)
Theorem no_detections_notice model inp s up tmp img r0 rs written :
  uploaded_image inp = Some up →
  Os.mkstemp tempdir (tmp_rnds inp) ".jpg" (disk s) = Some tmp →
  Image_open (up_data up) = inr img →
  Yolo.predict model (saved tmp (up_data up) (disk s))
    (image_args inp (Os.f_path tmp)) = inr (r0 :: rs, written) →
  Yolo.boxes r0 = [] →
  (∀ order, Py.iterates_set order [] →
     counts order [] = [] ∧ Py.dict_view (counts order []) = ∅) ∧
  image_mode Image_open tempdir model inp s =
    (State (cache s)
       (Os.remove (Os.f_path tmp)
          (Os.write_all written (saved tmp (up_data up) (disk s)))),
     [st_file_uploader "📤 Upload an Image" ["jpg"; "jpeg"; "png"];
      tempfile_new (Os.f_path tmp);
      file_write (Os.f_path tmp) (up_data up);
      st_markdown "<div class='section'><h3>📷 Original Image</h3></div>";
      Image_open_path (Os.f_path tmp);
      st_image img;
      st_info "🔍 Detecting fruits...";
      model_predict (image_args inp (Os.f_path tmp));
      st_markdown "<div class='section'><h3>🎯 Detected Image</h3></div>";
      st_image (Cv2.cvtColor (Yolo.plot r0) Cv2.COLOR_BGR2RGB);
      st_warning "❌ No fruits detected";
      os_unlink (Os.f_path tmp)],
     Return tt).
Proof.
  intros Hup Htmp Himg Hpred Hboxes. split.
  - intros order ->%iterates_set_nil. done.
  - rewrite (image_mode_run _ _ _ _ _ _ _ _ _ _ _ Hup Htmp Himg Hpred).
    rewrite bind_run. unfold fruit_counts at 1.
    rewrite bind_run, labels_run, Hboxes. simpl.
    rewrite unlink_saved. done.
Qed.

(** C3. When the detector cannot be constructed ([load_model] raises,
    which it does when nothing is cached and [YOLO(model_path)] raises),
    the script reports the error and stops: the file system and the
    cache are untouched, no uploader is shown, no temporary file is made,
    no prediction is run, and the run ends by [st.stop()], not by an
    exception. *)
Theorem model_load_failure_halts inp s s1 t1 e :
  load_model YOLO (model_path inp) s = (s1, t1, Raised e) →
  app YOLO Image_open tempdir inp s =
    (s,
     [YOLO_new (model_path inp);
      st_error ("❌ Could not load model: " +:+ Py.exn_str e);
      st_stop],
     Stopped) ∧
  cache s = None ∧ YOLO (model_path inp) = inl e.
Proof.
  intros (Hc & Hp & _ & _)%load_model_raised.
  split; [by apply app_failed|done].
Qed.

(** C5. In image mode the frame the detector drew (BGR) goes through
    [cv2.cvtColor(.., COLOR_BGR2RGB)], which exchanges the first and
    third channel of every pixel, and the converted frame is what
    [st.image] shows: the only images displayed in the run are the
    uploaded original and the converted frame. *)
Theorem detected_image_shown_in_rgb model inp s up tmp img r0 rs written :
  uploaded_image inp = Some up →
  Os.mkstemp tempdir (tmp_rnds inp) ".jpg" (disk s) = Some tmp →
  Image_open (up_data up) = inr img →
  Yolo.predict model (saved tmp (up_data up) (disk s))
    (image_args inp (Os.f_path tmp)) = inr (r0 :: rs, written) →
  let result_rgb := Cv2.cvtColor (Yolo.plot r0) Cv2.COLOR_BGR2RGB in
  (∀ row col b g r,
     Cv2.pixel_at (Yolo.plot r0) row col = Some (b, g, r) →
     Cv2.pixel_at result_rgb row col = Some (r, g, b)) ∧
  (∀ row col, Cv2.pixel_at (Yolo.plot r0) row col = None →
              Cv2.pixel_at result_rgb row col = None) ∧
  ∃ s' rest out,
    image_mode Image_open tempdir model inp s =
      (s',
       [st_file_uploader "📤 Upload an Image" ["jpg"; "jpeg"; "png"];
        tempfile_new (Os.f_path tmp);
        file_write (Os.f_path tmp) (up_data up);
        st_markdown "<div class='section'><h3>📷 Original Image</h3></div>";
        Image_open_path (Os.f_path tmp);
        st_image img;
        st_info "🔍 Detecting fruits...";
        model_predict (image_args inp (Os.f_path tmp));
        st_markdown "<div class='section'><h3>🎯 Detected Image</h3></div>";
        st_image result_rgb] ++ rest,
       out) ∧
    ∀ shown, st_image shown ∉ rest.
Proof.
  intros Hup Htmp Himg Hpred result_rgb.
  assert (∀ row col, Cv2.pixel_at result_rgb row col =
            Cv2.swap_02 <$> Cv2.pixel_at (Yolo.plot r0) row col) as Hpix.
  { intros row col. unfold result_rgb, Cv2.cvtColor, Cv2.pixel_at, Cv2.image.
    rewrite list_lookup_fmap.
    destruct (_ !! row) as [pixels|]; simpl; [|done].
    by rewrite list_lookup_fmap. }
  split; [|split].
  - intros row col b g r H. by rewrite Hpix, H.
  - intros row col H. by rewrite Hpix, H.
  - rewrite (image_mode_run _ _ _ _ _ _ _ _ _ _ _ Hup Htmp Himg Hpred).
    rewrite bind_run.
    destruct (fruit_counts_cases model inp r0
                (State (cache s) (Os.write_all written (saved tmp (up_data up) (disk s)))))
      as (tc & r & -> & Hns & Htc).
    assert (∀ shown, st_image shown ∉ tc) as Hnone.
    { intros shown Hin. rewrite Forall_forall in Htc. apply (Htc _ Hin). }
    destruct r as [[]| |e]; [|done|].
    + rewrite unlink_saved. eexists _, _, _. split; [reflexivity|].
      intros shown [Hin|Hin]%elem_of_app; [by eapply Hnone|].
      by apply list_elem_of_singleton in Hin.
    + eexists _, _, _. split; [reflexivity|]. simpl. done.
Qed.

(** C4. In video mode, when no file of the detector's output directory
    ends with one of the four video extensions, the script shows the
    not-found warning and neither opens a file nor offers a download;
    otherwise [os.listdir] has a first matching entry, and the script
    plays it, opens it and offers its bytes for download.  This holds
    whatever order the operating system enumerates the directory in. *)
Theorem video_output_scan model inp s up ext tfile r0 rs written :
  uploaded_video inp = Some up →
  last (Py.str_split "." (up_name up)) = Some ext →
  Os.mkstemp tempdir (tmp_rnds inp) ("." +:+ ext) (disk s) = Some tfile →
  Yolo.predict model (saved tfile (up_data up) (disk s))
    (video_args inp (Os.f_path tfile)) = inr (r0 :: rs, written) →
  let video_path := Os.f_path tfile in
  let after_predict := Os.write_all written (saved tfile (up_data up) (disk s)) in
  let pred_dir := Yolo.save_dir r0 in
  let entries := listdir_iter inp (Os.listdir pred_dir after_predict) in
  Os.enumerates entries pred_dir after_predict →
  let before_scan :=
    [st_file_uploader "📤 Upload a Video" ["mp4"; "mov"; "avi"; "mkv"];
     tempfile_new video_path;
     file_write video_path (up_data up);
     st_markdown "<div class='section'><h3>🎥 Original Video</h3></div>";
     st_video video_path;
     st_info "⏳ Processing video...";
     model_predict (video_args inp video_path)] in
  ((∀ f, f ∈ Os.listdir pred_dir after_predict →
         Py.str_endswith_any f video_suffixes = false) →
   video_mode tempdir model inp s =
     (State (cache s) (Os.remove video_path after_predict),
      before_scan ++
      [os_listdir pred_dir;
       st_warning "⚠ Processed video not found";
       os_unlink video_path],
      Return tt)) ∧
  (∀ before f0 rest,
     entries = before ++ f0 :: rest →
     (∀ f, f ∈ before → Py.str_endswith_any f video_suffixes = false) →
     Py.str_endswith_any f0 video_suffixes = true →
     f0 ∈ Os.listdir pred_dir after_predict ∧
     ∃ data,
       Os.read (Os.path_join pred_dir f0) after_predict = Some data ∧
       video_mode tempdir model inp s =
         (State (cache s) (Os.remove video_path after_predict),
          before_scan ++
          [os_listdir pred_dir;
           st_markdown "<div class='section'><h3>✅ Processed Video</h3></div>";
           st_video (Os.path_join pred_dir f0);
           open_rb (Os.path_join pred_dir f0);
           st_download_button "⬇ Download Processed Video" data
             "detected_fruit_video.mp4" "video/mp4";
           os_unlink video_path],
          Return tt)) ∧
  (∀ f, f ∈ Os.listdir pred_dir after_predict →
        Py.str_endswith_any f video_suffixes = true →
        ∃ before f0 rest,
          entries = before ++ f0 :: rest ∧
          (∀ f, f ∈ before → Py.str_endswith_any f video_suffixes = false) ∧
          Py.str_endswith_any f0 video_suffixes = true) ∧
  (∀ f, Py.str_endswith_any f video_suffixes = true ↔
        ∃ stem e, e ∈ ["mp4"; "avi"; "mov"; "mkv"] ∧ f = stem +:+ "." +:+ e).
Proof.
  intros Hup Hext Htmp Hpred video_path after_predict pred_dir entries
    Henum before_scan.
  pose proof (video_mode_run _ _ _ _ _ _ _ _ _ _ Hup Hext Htmp Hpred) as Hrun.
  rewrite bind_run, processed_video_run in Hrun.
  cbv zeta in Hrun. cbn [disk] in Hrun.
  fold after_predict video_path pred_dir in Hrun. fold entries in Hrun.
  split; [|split; [|split]].
  - intros Hnone.
    rewrite find_all_false in Hrun.
    2:{ intros f Hf. apply Hnone. unfold Os.enumerates in Henum.
        by rewrite <- Henum. }
    unfold after_predict, video_path in Hrun.
    rewrite unlink_saved in Hrun. exact Hrun.
  - intros before f0 rest Hentries Hbefore Hf0.
    assert (f0 ∈ entries) as Hin.
    { rewrite Hentries, elem_of_app, elem_of_cons. auto. }
    split; [unfold Os.enumerates in Henum; by rewrite <- Henum|].
    destruct (enumerates_read _ _ _ _ Henum Hin) as [data Hdata].
    exists data. split; [done|].
    rewrite Hentries, (find_first _ _ _ _ Hbefore Hf0), Hdata in Hrun.
    unfold after_predict, video_path in Hrun.
    rewrite unlink_saved in Hrun. exact Hrun.
  - intros f Hf Hmatch. apply (first_split _ _ f); [|done].
    unfold Os.enumerates in Henum. by rewrite Henum.
  - apply video_suffix_extension.
Qed.

(** C9. In video mode with a matching output file, the download button
    serves the bytes of the file the script picked (the first matching
    entry of [os.listdir], in whatever order the directory is
    enumerated) under the fixed file name [detected_fruit_video.mp4]
    and the MIME type [video/mp4], whichever of the recognised
    extensions the file has; it is the only download offered in the
    run. *)
Theorem download_served_as_mp4 model inp s up ext tfile r0 rs written f0 :
  uploaded_video inp = Some up →
  last (Py.str_split "." (up_name up)) = Some ext →
  Os.mkstemp tempdir (tmp_rnds inp) ("." +:+ ext) (disk s) = Some tfile →
  Yolo.predict model (saved tfile (up_data up) (disk s))
    (video_args inp (Os.f_path tfile)) = inr (r0 :: rs, written) →
  let after_predict := Os.write_all written (saved tfile (up_data up) (disk s)) in
  let pred_dir := Yolo.save_dir r0 in
  let entries := listdir_iter inp (Os.listdir pred_dir after_predict) in
  Os.enumerates entries pred_dir after_predict →
  List.find (λ f, Py.str_endswith_any f video_suffixes) entries = Some f0 →
  ∃ data s' t,
    Os.read (Os.path_join pred_dir f0) after_predict = Some data ∧
    video_mode tempdir model inp s = (s', t, Return tt) ∧
    st_video (Os.path_join pred_dir f0) ∈ t ∧
    st_download_button "⬇ Download Processed Video" data
      "detected_fruit_video.mp4" "video/mp4" ∈ t ∧
    (∀ label data' file_name mime,
       st_download_button label data' file_name mime ∈ t →
       data' = data ∧ file_name = "detected_fruit_video.mp4" ∧ mime = "video/mp4").
Proof.
  intros Hup Hext Htmp Hpred after_predict pred_dir entries Henum Hfind.
  pose proof (video_mode_run _ _ _ _ _ _ _ _ _ _ Hup Hext Htmp Hpred) as Hrun.
  rewrite bind_run, processed_video_run in Hrun.
  cbv zeta in Hrun. cbn [disk] in Hrun.
  fold after_predict pred_dir in Hrun. fold entries in Hrun.
  destruct (find_enumerated _ _ _ _ Henum Hfind) as [data Hdata].
  fold entries in Hrun. rewrite Hfind, Hdata in Hrun.
  unfold after_predict in Hrun. rewrite unlink_saved in Hrun.
  exists data. eexists _, _. split; [done|]. split; [exact Hrun|].
  split; [|split].
  - simpl. rewrite !elem_of_cons. auto 20.
  - simpl. rewrite !elem_of_cons. auto 20.
  - intros label data' file_name mime Hin. simpl in Hin.
    rewrite !elem_of_cons, elem_of_nil in Hin.
    repeat (destruct Hin as [Hin|Hin]; [try discriminate|]); [|done].
    by injection Hin as -> -> -> ->.
Qed.

(** The block the mode selects. *)
Local Abbreviation block model inp :=
  (match mode inp with
   | Image => image_mode Image_open tempdir model inp
   | Video => video_mode tempdir model inp
   end).

(** A normally ending block removes the temporary file it made and
    unlinks nothing else. *)
Lemma block_normal_cleanup model inp s0 s' tb :
  block model inp s0 = (s', tb, Return tt) →
  ∀ path, tempfile_new path ∈ tb →
    last tb = Some (os_unlink path) ∧
    os_unlink path ∈ tb ∧
    Os.read path (disk s') = None ∧
    (∀ p, os_unlink p ∈ tb → p = path) ∧
    (∀ out, open_rb out ∈ tb → out ≠ path →
       ∃ data, Os.read out (disk s') = Some data ∧
               st_download_button "⬇ Download Processed Video" data
                 "detected_fruit_video.mp4" "video/mp4" ∈ tb).
Proof.
  destruct (mode inp).
  - intros [(_ & _ & ->)|(up & tmp & img & r0 & rs & written & tc & _ & _ & _ & _
                          & Htc & -> & ->)]%image_mode_normal path Hpath.
    { rewrite list_elem_of_singleton in Hpath. discriminate. }
    rewrite Forall_forall in Htc.
    assert (path = Os.f_path tmp) as ->.
    { rewrite !elem_of_app, !elem_of_cons, elem_of_nil in Hpath.
      destruct Hpath as [Hin|[Hin|Hin]].
      - repeat (destruct Hin as [Hin|Hin]; [try discriminate|]); [|done].
        by injection Hin.
      - destruct (Htc _ Hin).
      - destruct Hin as [Hin|[]]. discriminate. }
    split; [by rewrite !app_assoc, last_snoc|]. repeat split.
    + rewrite !elem_of_app, list_elem_of_singleton. auto.
    + cbn [disk]. rewrite read_remove. by rewrite decide_True.
    + intros p Hp. rewrite !elem_of_app, !elem_of_cons, elem_of_nil in Hp.
      destruct Hp as [Hin|[Hin|Hin]].
      * repeat (destruct Hin as [Hin|Hin]; [try discriminate|]); done.
      * destruct (Htc _ Hin).
      * destruct Hin as [Hin|[]]. by injection Hin.
    + intros out Hout. rewrite !elem_of_app, !elem_of_cons, elem_of_nil in Hout.
      destruct Hout as [Hin|[Hin|Hin]].
      * repeat (destruct Hin as [Hin|Hin]; [try discriminate|]); done.
      * destruct (Htc _ Hin).
      * destruct Hin as [Hin|[]]. discriminate.
  - intros [(_ & _ & ->)|(up & ext & tfile & r0 & rs & written & tv & _ & _ & _ & _
                          & Hpv & -> & ->)]%video_mode_normal path Hpath.
    { rewrite list_elem_of_singleton in Hpath. discriminate. }
    destruct (processed_video_cases inp r0
                (State (cache s0)
                   (Os.write_all written (saved tfile (up_data up) (disk s0)))))
      as (tv' & r & Hpv' & _ & Hopen & Hnotemp & Hnounlink).
    rewrite Hpv in Hpv'. injection Hpv' as <- <-.
    specialize (Hopen eq_refl). cbn [disk] in Hopen.
    assert (path = Os.f_path tfile) as ->.
    { rewrite !elem_of_app, !elem_of_cons, elem_of_nil in Hpath.
      destruct Hpath as [Hin|[Hin|Hin]].
      - repeat (destruct Hin as [Hin|Hin]; [try discriminate|]); [|done].
        by injection Hin.
      - destruct (Hnotemp _ Hin).
      - destruct Hin as [Hin|[]]. discriminate. }
    split; [by rewrite !app_assoc, last_snoc|]. repeat split.
    + rewrite !elem_of_app, list_elem_of_singleton. auto.
    + cbn [disk]. rewrite read_remove. by rewrite decide_True.
    + intros p Hp. rewrite !elem_of_app, !elem_of_cons, elem_of_nil in Hp.
      destruct Hp as [Hin|[Hin|Hin]].
      * repeat (destruct Hin as [Hin|Hin]; [try discriminate|]); done.
      * destruct (Hnounlink _ Hin).
      * destruct Hin as [Hin|[]]. by injection Hin.
    + intros out Hout Hne. rewrite !elem_of_app, !elem_of_cons, elem_of_nil in Hout.
      destruct Hout as [Hin|[Hin|Hin]].
      * repeat (destruct Hin as [Hin|Hin]; [try discriminate|]); done.
      * destruct (Hopen _ Hin) as (data & Hdata & Hbutton).
        exists data. split.
        -- cbn [disk]. rewrite read_remove. by rewrite decide_False.
        -- rewrite !elem_of_app. auto.
      * destruct Hin as [Hin|[]]. discriminate.
Qed.

(** C6. On a normal exit of a rerun, in either mode, the temporary file
    created for the upload is unlinked as the last step and is gone from
    the disk, whether or not anything was detected; nothing else is
    unlinked, and the output video that was opened for the download is
    still on disk with the bytes that were served. *)
Theorem temp_input_removed_on_normal_exit inp s s' t :
  app YOLO Image_open tempdir inp s = (s', t, Return tt) →
  ∀ path, tempfile_new path ∈ t →
    last t = Some (os_unlink path) ∧
    os_unlink path ∈ t ∧
    Os.read path (disk s') = None ∧
    (∀ p, os_unlink p ∈ t → p = path) ∧
    (∀ out, open_rb out ∈ t → out ≠ path →
       ∃ data, Os.read out (disk s') = Some data ∧
               st_download_button "⬇ Download Processed Video" data
                 "detected_fruit_video.mp4" "video/mp4" ∈ t).
Proof.
  intros Hrun path Hpath.
  destruct (cache s) as [model|] eqn:Hc.
  { rewrite (app_cached _ _ _ _ _ _ Hc) in Hrun.
    by apply (block_normal_cleanup _ _ _ _ _ Hrun). }
  destruct (YOLO (model_path inp)) as [e|model] eqn:Hp.
  { by rewrite (app_failed _ _ _ _ _ _ Hc Hp) in Hrun. }
  rewrite (app_new _ _ _ _ _ _ Hc Hp) in Hrun.
  destruct (block model inp (State (Some model) (disk s)))
    as [[s1 tb] r] eqn:Hb.
  injection Hrun as <- <- ->.
  assert (∀ x, x ∈ YOLO_new (model_path inp) :: tb →
               x = YOLO_new (model_path inp) ∨ x ∈ tb) as Hsplit.
  { intros x. by rewrite elem_of_cons. }
  destruct (Hsplit _ Hpath) as [?|Hpath']; [discriminate|].
  destruct (block_normal_cleanup _ _ _ _ _ Hb _ Hpath')
    as (Hlast & Hunlink & Hgone & Honly & Hout).
  repeat split.
  - rewrite last_cons, Hlast. done.
  - apply elem_of_cons. by right.
  - done.
  - intros p [?|Hp']%Hsplit; [discriminate|]. by apply Honly.
  - intros out [?|Hout']%Hsplit Hne; [discriminate|].
    destruct (Hout _ Hout' Hne) as (data & Hdata & Hbutton).
    exists data. split; [done|]. apply elem_of_cons. by right.
Qed.

(** C8. The upload is written to a temporary file that did not exist
    before, under a name whose extension follows the kind of media: an
    image always gets [.jpg], whatever was uploaded; a video keeps the
    extension of the uploaded name (mp4, mov, avi or mkv).  The rest of
    the run works on the disk that holds the uploaded bytes in that
    file and is otherwise as before: the decoder is given these bytes,
    and the detector is run on this disk with the path of the file. *)
Theorem upload_saved_under_typed_temp_name model inp s :
  (∀ up tmp,
     uploaded_image inp = Some up →
     Os.mkstemp tempdir (tmp_rnds inp) ".jpg" (disk s) = Some tmp →
     let img_path := Os.f_path tmp in
     let on_disk := saved tmp (up_data up) (disk s) in
     Py.str_endswith img_path ".jpg" = true ∧
     Os.read img_path (disk s) = None ∧
     Os.read img_path on_disk = Some (up_data up) ∧
     (∀ p, p ≠ img_path → Os.read p on_disk = Os.read p (disk s)) ∧
     image_mode Image_open tempdir model inp s =
       after [st_file_uploader "📤 Upload an Image" ["jpg"; "jpeg"; "png"];
              tempfile_new img_path;
              file_write img_path (up_data up);
              st_markdown "<div class='section'><h3>📷 Original Image</h3></div>";
              Image_open_path img_path]
         match Image_open (up_data up) with
         | inl e => (State (cache s) on_disk, [], Raised e)
         | inr img =>
             after [st_image img;
                    st_info "🔍 Detecting fruits...";
                    model_predict (image_args inp img_path)]
               match Yolo.predict model on_disk (image_args inp img_path) with
               | inl e => (State (cache s) on_disk, [], Raised e)
               | inr ([], written) =>
                   (State (cache s) (Os.write_all written on_disk), [],
                    Raised (Py.Exn Py.IndexError "list index out of range"))
               | inr (r0 :: _, written) =>
                   after
                     [st_markdown "<div class='section'><h3>🎯 Detected Image</h3></div>";
                      st_image (Cv2.cvtColor (Yolo.plot r0) Cv2.COLOR_BGR2RGB)]
                     ((fruit_counts model inp r0;; unlink img_path)
                        (State (cache s) (Os.write_all written on_disk)))
               end
         end) ∧
  (∀ up stem ext tfile,
     uploaded_video inp = Some up →
     up_name up = stem +:+ "." +:+ ext →
     ext ∈ ["mp4"; "mov"; "avi"; "mkv"] →
     Os.mkstemp tempdir (tmp_rnds inp) ("." +:+ ext) (disk s) = Some tfile →
     let video_path := Os.f_path tfile in
     let on_disk := saved tfile (up_data up) (disk s) in
     Py.str_endswith video_path ("." +:+ ext) = true ∧
     Os.read video_path (disk s) = None ∧
     Os.read video_path on_disk = Some (up_data up) ∧
     (∀ p, p ≠ video_path → Os.read p on_disk = Os.read p (disk s)) ∧
     video_mode tempdir model inp s =
       after [st_file_uploader "📤 Upload a Video" ["mp4"; "mov"; "avi"; "mkv"];
              tempfile_new video_path;
              file_write video_path (up_data up);
              st_markdown "<div class='section'><h3>🎥 Original Video</h3></div>";
              st_video video_path;
              st_info "⏳ Processing video...";
              model_predict (video_args inp video_path)]
         match Yolo.predict model on_disk (video_args inp video_path) with
         | inl e => (State (cache s) on_disk, [], Raised e)
         | inr ([], written) =>
             (State (cache s) (Os.write_all written on_disk), [],
              Raised (Py.Exn Py.IndexError "list index out of range"))
         | inr (r0 :: _, written) =>
             (processed_video inp r0;; unlink video_path)
               (State (cache s) (Os.write_all written on_disk))
         end) ∧
  (∀ suffix rnd,
     rnd ∈ tmp_rnds inp →
     Os.read (Os.path_join tempdir (Os.temp_name rnd suffix)) (disk s) = None →
     is_Some (Os.mkstemp tempdir (tmp_rnds inp) suffix (disk s))).
Proof.
  split; [|split].
  - intros up tmp Hup Htmp img_path on_disk.
    destruct (mkstemp_Some _ _ _ _ _ Htmp) as (Hfree & rnd & _ & Hname).
    split; [|split; [done|split; [apply read_saved|split]]].
    { unfold img_path. rewrite Hname. apply temp_path_suffix. }
    { intros p Hp. unfold on_disk. rewrite !read_write. cbn [Os.f_path Os.f_dir Os.f_name].
      fold (Os.f_path tmp). by rewrite !decide_False. }
    rewrite CaseFacts.image_mode_cases, Hup, Htmp.
    fold img_path on_disk.
    destruct (Image_open (up_data up)) as [e|img]; [done|].
    destruct (Yolo.predict model on_disk (image_args inp img_path))
      as [e|[[|r0 rs] written]]; by rewrite ?after_after.
  - intros up stem ext tfile Hup Hname Hext Htmp video_path on_disk.
    destruct (mkstemp_Some _ _ _ _ _ Htmp) as (Hfree & rnd & _ & Hfile).
    split; [|split; [done|split; [apply read_saved|split]]].
    { unfold video_path. rewrite Hfile. apply temp_path_suffix. }
    { intros p Hp. unfold on_disk. rewrite !read_write. cbn [Os.f_path Os.f_dir Os.f_name].
      fold (Os.f_path tfile). by rewrite !decide_False. }
    assert (last (Py.str_split "." (up_name up)) = Some ext) as Hlast.
    { rewrite Hname.
      change (stem +:+ "." +:+ ext) with (stem +:+ String "." ext).
      rewrite PyFacts.str_split_last_app.
      rewrite !elem_of_cons, elem_of_nil in Hext.
      destruct Hext as [->|[->|[->|[->|[]]]]]; reflexivity. }
    rewrite CaseFacts.video_mode_cases, Hup, Hlast, Htmp.
    fold video_path on_disk.
    destruct (Yolo.predict model on_disk (video_args inp video_path))
      as [e|[[|r0 rs] written]]; done.
  - intros suffix rnd. apply mkstemp_is_Some.
Qed.

Lemma session_cached model inps (edit : inputs → string) s :
  cache s = Some model →
  session YOLO Image_open tempdir ((λ inp, set_model_path (edit inp) inp) <$> inps) s
    = session YOLO Image_open tempdir inps s ∧
  cache (session YOLO Image_open tempdir inps s).2 = Some model ∧
  Forall (λ run, Forall (λ x, ∀ p, x ≠ YOLO_new p) run.1)
    (session YOLO Image_open tempdir inps s).1.
Proof.
  revert s. induction inps as [|inp inps IH]; intros s Hc.
  - simpl. split; [done|]. split; [done|constructor].
  - destruct (app_cached_keeps_model YOLO Image_open tempdir inp s model Hc)
      as (_ & Hedit & Hcache & Hcalls).
    destruct (IH _ Hcache) as (IH1 & IH2 & IH3).
    rewrite fmap_cons. cbn [session]. rewrite Hedit, IH1.
    split; [done|]. split; [done|]. by constructor.
Qed.

(** C10. [load_model] is cached with no key and reads the model path as
    a global: the rerun that constructs a detector runs its block with
    it, and every later rerun of the process, whatever the model path
    then says, runs its block with that same detector; the constructor
    is never called again, and editing the model path changes nothing
    in any later rerun. *)
Theorem detector_cached_without_key inp0 s0 model :
  cache s0 = None →
  YOLO (model_path inp0) = inr model →
  let s1 := (app YOLO Image_open tempdir inp0 s0).1.1 in
  app YOLO Image_open tempdir inp0 s0 =
    after [YOLO_new (model_path inp0)]
      (match mode inp0 with
       | Image => image_mode Image_open tempdir model inp0
       | Video => video_mode tempdir model inp0
       end (State (Some model) (disk s0))) ∧
  cache s1 = Some model ∧
  ∀ (inps : list inputs) (edit : inputs → string),
    let later := (session YOLO Image_open tempdir inps s1).2 in
    session YOLO Image_open tempdir
      ((λ inp, set_model_path (edit inp) inp) <$> inps) s1
      = session YOLO Image_open tempdir inps s1 ∧
    cache later = Some model ∧
    Forall (λ run, Forall (λ x, ∀ p, x ≠ YOLO_new p) run.1)
      (session YOLO Image_open tempdir inps s1).1 ∧
    ∀ inp,
      app YOLO Image_open tempdir inp later =
        match mode inp with
        | Image => image_mode Image_open tempdir model inp
        | Video => video_mode tempdir model inp
        end later.
Proof.
  intros Hc Hp s1.
  assert (cache s1 = Some model) as Hs1.
  { unfold s1. rewrite (app_new _ _ _ _ _ _ Hc Hp).
    change (cache (block model inp0 (State (Some model) (disk s0))).1.1 = Some model).
    destruct (mode inp0).
    - by destruct (image_mode_keeps_model Image_open tempdir model inp0
                     (State (Some model) (disk s0))) as [-> _].
    - by destruct (video_mode_keeps_model tempdir model inp0
                     (State (Some model) (disk s0))) as [-> _]. }
  split; [by apply app_new|]. split; [done|]. intros inps edit later.
  destruct (session_cached model inps edit s1 Hs1) as (Hedit & Hlater & Hcalls).
  repeat split; try done.
  intros inp. by apply app_cached.
Qed.

End Properties.

(** * The properties at work on the demo world *)

(** Two apples and a banana, with the set iterated banana first. *)
Lemma counts_keys_and_values_witness :
  Py.iterates_set ["banana"; "apple"] ["apple"; "banana"; "apple"] ∧
  Py.dict_get (counts ["banana"; "apple"] ["apple"; "banana"; "apple"]) "apple"
    = Some 2%nat ∧
  Py.dict_get (counts ["banana"; "apple"] ["apple"; "banana"; "apple"]) "cherry"
    = None.
Proof.
  assert (Py.iterates_set ["banana"; "apple"] ["apple"; "banana"; "apple"]) as H.
  { split.
    - apply NoDup_cons. split.
      + intros Hin. apply list_elem_of_singleton in Hin. discriminate.
      + apply NoDup_singleton.
    - intros x. rewrite !elem_of_cons, !elem_of_nil. tauto. }
  split; [exact H|].
  destruct (counts_keys_and_values _ _ H) as (_ & _ & _ & _ & Hin & Hout & _).
  split.
  - apply (Hin "apple"). apply list_elem_of_here.
  - apply (Hout "cherry"). intros Hc.
    rewrite !elem_of_cons, elem_of_nil in Hc.
    destruct Hc as [Hc|[Hc|[Hc|[]]]]; discriminate.
Defined.

(** The two iteration orders give different dicts and the same mapping. *)
Lemma counts_deterministic_witness :
  counts ["apple"; "banana"] ["apple"; "banana"; "apple"]
    ≠ counts ["banana"; "apple"] ["apple"; "banana"; "apple"] ∧
  Py.dict_view (counts ["apple"; "banana"] ["apple"; "banana"; "apple"])
    = Py.dict_view (counts ["banana"; "apple"] ["apple"; "banana"; "apple"]).
Proof.
  split; [discriminate|].
  refine (proj1 (counts_deterministic ["apple"; "banana"] ["banana"; "apple"]
                   ["apple"; "banana"; "apple"] ["apple"; "banana"; "apple"]
                   eq_refl _ _)).
  - split.
    + apply NoDup_cons. split.
      * intros Hin. apply list_elem_of_singleton in Hin. discriminate.
      * apply NoDup_singleton.
    + intros x. rewrite !elem_of_cons, !elem_of_nil. tauto.
  - split.
    + apply NoDup_cons. split.
      * intros Hin. apply list_elem_of_singleton in Hin. discriminate.
      * apply NoDup_singleton.
    + intros x. rewrite !elem_of_cons, !elem_of_nil. tauto.
Defined.

(** An image in which the detector finds nothing. *)
Lemma no_detections_notice_witness :
  image_mode Demo.Image_open Demo.tempdir Demo.blind_detector
    (Demo.image_inputs "blind.pt") Demo.fresh =
  (State None [Os.File "runs/detect/fruit_ui" "labels.txt" []],
   [st_file_uploader "📤 Upload an Image" ["jpg"; "jpeg"; "png"];
    tempfile_new "/tmp/tmpabc.jpg";
    file_write "/tmp/tmpabc.jpg" [x05];
    st_markdown "<div class='section'><h3>📷 Original Image</h3></div>";
    Image_open_path "/tmp/tmpabc.jpg";
    st_image [[(x09, x08, x07)]];
    st_info "🔍 Detecting fruits...";
    model_predict (image_args (Demo.image_inputs "blind.pt") "/tmp/tmpabc.jpg");
    st_markdown "<div class='section'><h3>🎯 Detected Image</h3></div>";
    st_image [[(x03, x02, x01)]];
    st_warning "❌ No fruits detected";
    os_unlink "/tmp/tmpabc.jpg"],
   Return tt).
Proof.
  exact (proj2 (no_detections_notice Demo.Image_open Demo.tempdir
                  Demo.blind_detector (Demo.image_inputs "blind.pt") Demo.fresh
                  {| up_name := "bowl.png"; up_data := [x05] |}
                  (Os.File "/tmp" "tmpabc.jpg" []) [[(x09, x08, x07)]]
                  {| Yolo.plot := [[(x01, x02, x03)]]; Yolo.boxes := [];
                     Yolo.save_dir := "runs/detect/fruit_ui" |}
                  [] [Os.File "runs/detect/fruit_ui" "labels.txt" []]
                  eq_refl eq_refl eq_refl eq_refl eq_refl)).
Defined.

(** A model path at which there is no file, in a fresh process. *)
Lemma model_load_failure_halts_witness :
  app Demo.YOLO Demo.Image_open Demo.tempdir (Demo.image_inputs "missing.pt")
    Demo.fresh =
  (Demo.fresh,
   [YOLO_new "missing.pt";
    st_error "❌ Could not load model: No such file or directory";
    st_stop],
   Stopped).
Proof.
  exact (proj1 (model_load_failure_halts Demo.YOLO Demo.Image_open Demo.tempdir
                  (Demo.image_inputs "missing.pt") Demo.fresh Demo.fresh
                  [YOLO_new "missing.pt"]
                  (Py.Exn Py.FileNotFoundError "No such file or directory")
                  eq_refl)).
Defined.

(** An image with two apples and a banana: the pixel the detector drew
    as (1, 2, 3) is shown as (3, 2, 1). *)
Lemma detected_image_shown_in_rgb_witness :
  Cv2.pixel_at (Cv2.cvtColor [[(x01, x02, x03)]] Cv2.COLOR_BGR2RGB) 0 0
    = Some (x03, x02, x01) ∧
  ∃ s' rest out,
    image_mode Demo.Image_open Demo.tempdir Demo.fruit_detector
      (Demo.image_inputs "best.pt") Demo.fresh =
      (s',
       [st_file_uploader "📤 Upload an Image" ["jpg"; "jpeg"; "png"];
        tempfile_new "/tmp/tmpabc.jpg";
        file_write "/tmp/tmpabc.jpg" [x05];
        st_markdown "<div class='section'><h3>📷 Original Image</h3></div>";
        Image_open_path "/tmp/tmpabc.jpg";
        st_image [[(x09, x08, x07)]];
        st_info "🔍 Detecting fruits...";
        model_predict (image_args (Demo.image_inputs "best.pt") "/tmp/tmpabc.jpg");
        st_markdown "<div class='section'><h3>🎯 Detected Image</h3></div>";
        st_image [[(x03, x02, x01)]]] ++ rest,
       out) ∧
    ∀ shown, st_image shown ∉ rest.
Proof.
  destruct (detected_image_shown_in_rgb Demo.Image_open Demo.tempdir
              Demo.fruit_detector (Demo.image_inputs "best.pt") Demo.fresh
              {| up_name := "bowl.png"; up_data := [x05] |}
              (Os.File "/tmp" "tmpabc.jpg" []) [[(x09, x08, x07)]]
              {| Yolo.plot := [[(x01, x02, x03)]];
                 Yolo.boxes := [Yolo.Box 0; Yolo.Box 1; Yolo.Box 0];
                 Yolo.save_dir := "runs/detect/predict" |}
              [] [] eq_refl eq_refl eq_refl eq_refl) as (Hpix & _ & Hrun).
  split; [|exact Hrun].
  exact (Hpix 0%nat 0%nat x01 x02 x03 eq_refl).
Defined.

(** A video for which the detector leaves only a label file; and an
    upload to a process whose output directory still holds
    [earlier.avi], where the detector adds a label file and
    [clip.avi]: enumerated newest first, the directory yields
    [clip.avi]. *)
Lemma video_output_scan_witness :
  video_mode Demo.tempdir Demo.blind_detector (Demo.video_inputs "blind.pt")
    Demo.fresh =
    (State None [Os.File "runs/detect/fruit_ui" "labels.txt" []],
     [st_file_uploader "📤 Upload a Video" ["mp4"; "mov"; "avi"; "mkv"];
      tempfile_new "/tmp/tmpabc.mov";
      file_write "/tmp/tmpabc.mov" [x05];
      st_markdown "<div class='section'><h3>🎥 Original Video</h3></div>";
      st_video "/tmp/tmpabc.mov";
      st_info "⏳ Processing video...";
      model_predict (video_args (Demo.video_inputs "blind.pt") "/tmp/tmpabc.mov");
      os_listdir "runs/detect/fruit_ui";
      st_warning "⚠ Processed video not found";
      os_unlink "/tmp/tmpabc.mov"],
     Return tt) ∧
  "clip.avi" ∈ ["earlier.avi"; "labels.txt"; "clip.avi"] ∧
  ∃ data,
    Os.read "runs/detect/fruit_ui/clip.avi"
      [Os.File "runs/detect/fruit_ui" "earlier.avi" [x09];
       Os.File "/tmp" "tmpabc.mov" [x05];
       Os.File "runs/detect/fruit_ui" "labels.txt" [];
       Os.File "runs/detect/fruit_ui" "clip.avi" [x01; x02]] = Some data ∧
    video_mode Demo.tempdir Demo.fruit_detector
      (Demo.video_inputs_listing reverse) Demo.used =
      (State (Some Demo.fruit_detector)
         [Os.File "runs/detect/fruit_ui" "earlier.avi" [x09];
          Os.File "runs/detect/fruit_ui" "labels.txt" [];
          Os.File "runs/detect/fruit_ui" "clip.avi" [x01; x02]],
       [st_file_uploader "📤 Upload a Video" ["mp4"; "mov"; "avi"; "mkv"];
        tempfile_new "/tmp/tmpabc.mov";
        file_write "/tmp/tmpabc.mov" [x05];
        st_markdown "<div class='section'><h3>🎥 Original Video</h3></div>";
        st_video "/tmp/tmpabc.mov";
        st_info "⏳ Processing video...";
        model_predict
          (video_args (Demo.video_inputs_listing reverse) "/tmp/tmpabc.mov");
        os_listdir "runs/detect/fruit_ui";
        st_markdown "<div class='section'><h3>✅ Processed Video</h3></div>";
        st_video "runs/detect/fruit_ui/clip.avi";
        open_rb "runs/detect/fruit_ui/clip.avi";
        st_download_button "⬇ Download Processed Video" data
          "detected_fruit_video.mp4" "video/mp4";
        os_unlink "/tmp/tmpabc.mov"],
       Return tt).
Proof.
  split.
  - refine (proj1 (video_output_scan Demo.tempdir Demo.blind_detector
                     (Demo.video_inputs "blind.pt") Demo.fresh
                     {| up_name := "clip.mov"; up_data := [x05] |} "mov"
                     (Os.File "/tmp" "tmpabc.mov" [])
                     {| Yolo.plot := [[(x01, x02, x03)]]; Yolo.boxes := [];
                        Yolo.save_dir := "runs/detect/fruit_ui" |}
                     []
                     [Os.File "runs/detect/fruit_ui" "labels.txt" []]
                     eq_refl eq_refl eq_refl eq_refl (Permutation_refl _)) _).
    intros f Hf. apply list_elem_of_singleton in Hf. rewrite Hf. reflexivity.
  - refine (proj1 (proj2 (video_output_scan Demo.tempdir Demo.fruit_detector
                            (Demo.video_inputs_listing reverse) Demo.used
                            {| up_name := "clip.mov"; up_data := [x05] |} "mov"
                            (Os.File "/tmp" "tmpabc.mov" [])
                            {| Yolo.plot := []; Yolo.boxes := [];
                               Yolo.save_dir := "runs/detect/fruit_ui" |}
                            []
                            [Os.File "runs/detect/fruit_ui" "labels.txt" [];
                             Os.File "runs/detect/fruit_ui" "clip.avi" [x01; x02]]
                            eq_refl eq_refl eq_refl eq_refl
                            (reverse_Permutation _)))
              [] "clip.avi" ["labels.txt"; "earlier.avi"] eq_refl _ eq_refl).
    intros f Hf. by apply elem_of_nil in Hf.
Defined.

(** The same upload with the directory enumerated oldest first: the
    first match is [earlier.avi], and its bytes are what the button
    serves, under the [.mp4] name. *)
Lemma download_served_as_mp4_witness :
  ∃ data s' t,
    Os.read "runs/detect/fruit_ui/earlier.avi"
      [Os.File "runs/detect/fruit_ui" "earlier.avi" [x09];
       Os.File "/tmp" "tmpabc.mov" [x05];
       Os.File "runs/detect/fruit_ui" "labels.txt" [];
       Os.File "runs/detect/fruit_ui" "clip.avi" [x01; x02]] = Some data ∧
    video_mode Demo.tempdir Demo.fruit_detector
      (Demo.video_inputs_listing (λ names, names)) Demo.used = (s', t, Return tt) ∧
    st_video "runs/detect/fruit_ui/earlier.avi" ∈ t ∧
    st_download_button "⬇ Download Processed Video" data
      "detected_fruit_video.mp4" "video/mp4" ∈ t ∧
    (∀ label data' file_name mime,
       st_download_button label data' file_name mime ∈ t →
       data' = data ∧ file_name = "detected_fruit_video.mp4" ∧ mime = "video/mp4").
Proof.
  exact (download_served_as_mp4 Demo.tempdir Demo.fruit_detector
           (Demo.video_inputs_listing (λ names, names)) Demo.used
           {| up_name := "clip.mov"; up_data := [x05] |} "mov"
           (Os.File "/tmp" "tmpabc.mov" [])
           {| Yolo.plot := []; Yolo.boxes := [];
              Yolo.save_dir := "runs/detect/fruit_ui" |}
           []
           [Os.File "runs/detect/fruit_ui" "labels.txt" [];
            Os.File "runs/detect/fruit_ui" "clip.avi" [x01; x02]]
           "earlier.avi" eq_refl eq_refl eq_refl eq_refl
           (Permutation_refl _) eq_refl).
Defined.

(** A whole video rerun in a fresh process: the upload's temporary file
    is gone at the end, the output video is still there. *)
Lemma temp_input_removed_on_normal_exit_witness :
  let run := app Demo.YOLO Demo.Image_open Demo.tempdir
               (Demo.video_inputs "best.pt") Demo.fresh in
  run.2 = Return tt ∧
  tempfile_new "/tmp/tmpabc.mov" ∈ run.1.2 ∧
  last run.1.2 = Some (os_unlink "/tmp/tmpabc.mov") ∧
  os_unlink "/tmp/tmpabc.mov" ∈ run.1.2 ∧
  Os.read "/tmp/tmpabc.mov" (disk run.1.1) = None ∧
  (∀ p, os_unlink p ∈ run.1.2 → p = "/tmp/tmpabc.mov") ∧
  (∀ out, open_rb out ∈ run.1.2 → out ≠ "/tmp/tmpabc.mov" →
     ∃ data, Os.read out (disk run.1.1) = Some data ∧
             st_download_button "⬇ Download Processed Video" data
               "detected_fruit_video.mp4" "video/mp4" ∈ run.1.2).
Proof.
  intros run. split; [reflexivity|].
  assert (tempfile_new "/tmp/tmpabc.mov" ∈ run.1.2) as Hin.
  { vm_compute. do 2 apply list_elem_of_further. apply list_elem_of_here. }
  split; [exact Hin|].
  exact (temp_input_removed_on_normal_exit Demo.YOLO Demo.Image_open Demo.tempdir
           (Demo.video_inputs "best.pt") Demo.fresh run.1.1 run.1.2 eq_refl
           "/tmp/tmpabc.mov" Hin).
Defined.

(** A png upload is saved as [.jpg]; a [.mov] upload keeps [.mov];
    the decoder and the detector then work on the saved bytes. *)
Lemma upload_saved_under_typed_temp_name_witness :
  (Py.str_endswith "/tmp/tmpabc.jpg" ".jpg" = true ∧
   Os.read "/tmp/tmpabc.jpg" (disk Demo.fresh) = None ∧
   Os.read "/tmp/tmpabc.jpg" [Os.File "/tmp" "tmpabc.jpg" [x05]] = Some [x05] ∧
   (∀ p, p ≠ "/tmp/tmpabc.jpg" →
      Os.read p [Os.File "/tmp" "tmpabc.jpg" [x05]] = Os.read p (disk Demo.fresh)) ∧
   image_mode Demo.Image_open Demo.tempdir Demo.blind_detector
     (Demo.image_inputs "blind.pt") Demo.fresh =
     (State None [Os.File "runs/detect/fruit_ui" "labels.txt" []],
      [st_file_uploader "📤 Upload an Image" ["jpg"; "jpeg"; "png"];
       tempfile_new "/tmp/tmpabc.jpg";
       file_write "/tmp/tmpabc.jpg" [x05];
       st_markdown "<div class='section'><h3>📷 Original Image</h3></div>";
       Image_open_path "/tmp/tmpabc.jpg";
       st_image [[(x09, x08, x07)]];
       st_info "🔍 Detecting fruits...";
       model_predict (image_args (Demo.image_inputs "blind.pt") "/tmp/tmpabc.jpg");
       st_markdown "<div class='section'><h3>🎯 Detected Image</h3></div>";
       st_image [[(x03, x02, x01)]];
       st_warning "❌ No fruits detected";
       os_unlink "/tmp/tmpabc.jpg"],
      Return tt)) ∧
  (Py.str_endswith "/tmp/tmpabc.mov" ".mov" = true ∧
   Os.read "/tmp/tmpabc.mov" (disk Demo.fresh) = None ∧
   Os.read "/tmp/tmpabc.mov" [Os.File "/tmp" "tmpabc.mov" [x05]] = Some [x05] ∧
   (∀ p, p ≠ "/tmp/tmpabc.mov" →
      Os.read p [Os.File "/tmp" "tmpabc.mov" [x05]] = Os.read p (disk Demo.fresh)) ∧
   video_mode Demo.tempdir Demo.blind_detector
     (Demo.video_inputs "blind.pt") Demo.fresh =
     (State None [Os.File "runs/detect/fruit_ui" "labels.txt" []],
      [st_file_uploader "📤 Upload a Video" ["mp4"; "mov"; "avi"; "mkv"];
       tempfile_new "/tmp/tmpabc.mov";
       file_write "/tmp/tmpabc.mov" [x05];
       st_markdown "<div class='section'><h3>🎥 Original Video</h3></div>";
       st_video "/tmp/tmpabc.mov";
       st_info "⏳ Processing video...";
       model_predict (video_args (Demo.video_inputs "blind.pt") "/tmp/tmpabc.mov");
       os_listdir "runs/detect/fruit_ui";
       st_warning "⚠ Processed video not found";
       os_unlink "/tmp/tmpabc.mov"],
      Return tt)).
Proof.
  split.
  - exact (proj1 (upload_saved_under_typed_temp_name Demo.Image_open Demo.tempdir
                    Demo.blind_detector (Demo.image_inputs "blind.pt") Demo.fresh)
             {| up_name := "bowl.png"; up_data := [x05] |}
             (Os.File "/tmp" "tmpabc.jpg" []) eq_refl eq_refl).
  - refine (proj1 (proj2 (upload_saved_under_typed_temp_name Demo.Image_open
                            Demo.tempdir Demo.blind_detector
                            (Demo.video_inputs "blind.pt") Demo.fresh))
              {| up_name := "clip.mov"; up_data := [x05] |} "clip" "mov"
              (Os.File "/tmp" "tmpabc.mov" []) eq_refl eq_refl _ eq_refl).
    apply list_elem_of_further, list_elem_of_here.
Defined.

(** After a first rerun with [best.pt], reruns with a path at which no
    model exists behave as reruns with [best.pt], and a rerun that asks
    for [blind.pt] still runs the detector of [best.pt]. *)
Lemma detector_cached_without_key_witness :
  let s1 := (app Demo.YOLO Demo.Image_open Demo.tempdir
               (Demo.image_inputs "best.pt") Demo.fresh).1.1 in
  app Demo.YOLO Demo.Image_open Demo.tempdir (Demo.image_inputs "best.pt")
    Demo.fresh =
    after [YOLO_new "best.pt"]
      (image_mode Demo.Image_open Demo.tempdir Demo.fruit_detector
         (Demo.image_inputs "best.pt") (State (Some Demo.fruit_detector) [])) ∧
  cache s1 = Some Demo.fruit_detector ∧
  session Demo.YOLO Demo.Image_open Demo.tempdir
    [Demo.video_inputs "missing.pt"; Demo.image_inputs "missing.pt"] s1
  = session Demo.YOLO Demo.Image_open Demo.tempdir
      [Demo.video_inputs "best.pt"; Demo.image_inputs "best.pt"] s1 ∧
  app Demo.YOLO Demo.Image_open Demo.tempdir (Demo.video_inputs "blind.pt")
    (session Demo.YOLO Demo.Image_open Demo.tempdir
       [Demo.video_inputs "best.pt"; Demo.image_inputs "best.pt"] s1).2 =
    video_mode Demo.tempdir Demo.fruit_detector (Demo.video_inputs "blind.pt")
      (session Demo.YOLO Demo.Image_open Demo.tempdir
         [Demo.video_inputs "best.pt"; Demo.image_inputs "best.pt"] s1).2.
Proof.
  intros s1.
  destruct (detector_cached_without_key Demo.YOLO Demo.Image_open Demo.tempdir
              (Demo.image_inputs "best.pt") Demo.fresh Demo.fruit_detector
              eq_refl eq_refl) as (Hfirst & Hcache & Hlater).
  split; [exact Hfirst|]. split; [exact Hcache|].
  destruct (Hlater [Demo.video_inputs "best.pt"; Demo.image_inputs "best.pt"]
              (λ _, "missing.pt")) as (Hedit & _ & _ & Hblock).
  split; [exact Hedit|].
  exact (Hblock (Demo.video_inputs "blind.pt")).
Defined.

(** * More about the tally *)

Module TallyFacts.
Import Py PyFacts App CountsFacts Run RunFacts AppFacts.

Lemma dict_setitem_fresh {V} (d : dict V) k v :
  k ∉ dict_keys d → dict_setitem d k v = d ++ [(k, v)].
Proof.
  unfold dict_keys. induction d as [|[k0 v0] d IH]; intros Hk; [done|].
  rewrite fmap_cons in Hk. apply not_elem_of_cons in Hk as [Hne Hk].
  cbn [dict_setitem]. rewrite decide_False by done.
  rewrite IH by done. done.
Qed.

(** The comprehension lists the labels in iteration order. *)
Lemma counts_items order labels :
  NoDup order →
  counts order labels = (λ label, (label, list_count label labels)) <$> order.
Proof.
  intros Hnd. unfold counts.
  enough (∀ d : dict nat, NoDup (dict_keys d ++ order) →
            foldl (λ d' label, dict_setitem d' label (list_count label labels)) d order
            = d ++ ((λ label, (label, list_count label labels)) <$> order)) as H.
  { apply (H []). done. }
  clear Hnd. induction order as [|k order IH]; intros d Hd; simpl.
  - by rewrite app_nil_r.
  - assert (k ∉ dict_keys d) as Hk.
    { apply NoDup_app in Hd as (_ & Hdis & _).
      intros Hk. apply (Hdis k Hk). by left. }
    rewrite (dict_setitem_fresh d k _ Hk), IH.
    + by rewrite <- app_assoc.
    + unfold dict_keys in *. rewrite fmap_app. simpl. by rewrite <- app_assoc.
Qed.

Lemma sum_list_fmap_cons {A} (f : A → nat) (x : A) (l : list A) :
  sum_list (f <$> x :: l) = (f x + sum_list (f <$> l))%nat.
Proof. done. Qed.

Lemma sum_list_fmap_add {A} (f g : A → nat) (l : list A) :
  sum_list ((λ x, f x + g x)%nat <$> l) = (sum_list (f <$> l) + sum_list (g <$> l))%nat.
Proof.
  induction l as [|x l IH]; [done|].
  rewrite !sum_list_fmap_cons, IH. lia.
Qed.

Lemma sum_list_indicator_out `{EqDecision A} (y : A) (l : list A) :
  y ∉ l → sum_list ((λ x, if decide (y = x) then 1 else 0)%nat <$> l) = 0%nat.
Proof.
  induction l as [|x l IH]; intros Hy; [done|].
  apply not_elem_of_cons in Hy as [Hne Hy].
  rewrite sum_list_fmap_cons, IH by done. by rewrite decide_False.
Qed.

Lemma sum_list_indicator `{EqDecision A} (y : A) (l : list A) :
  NoDup l → y ∈ l →
  sum_list ((λ x, if decide (y = x) then 1 else 0)%nat <$> l) = 1%nat.
Proof.
  induction l as [|x l IH]; intros Hnd Hin; [by apply elem_of_nil in Hin|].
  apply NoDup_cons in Hnd as [Hx Hnd]. rewrite sum_list_fmap_cons.
  destruct (decide (y = x)) as [->|Hne].
  - by rewrite sum_list_indicator_out.
  - apply elem_of_cons in Hin as [?|Hin]; [done|]. by rewrite IH.
Qed.

Lemma sum_list_count (order labels : list string) :
  NoDup order → (∀ x, x ∈ labels → x ∈ order) →
  sum_list ((λ x, list_count x labels) <$> order) = length labels.
Proof.
  intros Hnd. induction labels as [|y labels IH]; intros Hin.
  - clear. induction order as [|x order IHo]; [done|].
    by rewrite sum_list_fmap_cons, IHo.
  - cbn [list_count length].
    rewrite (sum_list_fmap_add (λ x, if decide (y = x) then 1 else 0)%nat
               (λ x, list_count x labels)).
    rewrite sum_list_indicator; [|done|apply Hin; by left].
    rewrite IH; [done|]. intros x Hx. apply Hin. by right.
Qed.

Lemma iterates_set_remove_dups l : iterates_set (remove_dups l) l.
Proof. split; [apply NoDup_remove_dups|apply elem_of_remove_dups]. Qed.

Lemma iterates_set_length order l :
  iterates_set order l → length order = length (remove_dups l).
Proof.
  intros [Hnd Hiff]. apply Permutation_length, NoDup_Permutation.
  - done.
  - apply NoDup_remove_dups.
  - intros x. by rewrite Hiff, elem_of_remove_dups.
Qed.

(** The first box whose class has no name, if any. *)
Lemma labels_None (model : Yolo.detector) (bs : list Yolo.box) :
  mapM (λ box, Yolo.names model !! Yolo.cls box) bs = None ↔
  is_Some (List.find (λ box, bool_decide (Yolo.names model !! Yolo.cls box = None)) bs).
Proof.
  induction bs as [|b bs IH]; simpl.
  - split; [done|by intros [? ?]].
  - cbn [mapM]. destruct (Yolo.names model !! Yolo.cls b) as [label|] eqn:Hb; simpl.
    + rewrite <- IH.
      destruct (mapM (λ box, Yolo.names model !! Yolo.cls box) bs); simpl; split; done.
    + split; [by eexists|done].
Qed.

End TallyFacts.

Import Py PyFacts App CountsFacts Run RunFacts AppFacts TallyFacts.

(** X1. The counts add up: for any iteration order of [set(labels)] the
    dict lists the labels in that order, each with its number of
    occurrences; there are as many entries as distinct labels, and the
    values sum to the number of detections. *)
Theorem counts_sum_to_detections (order L : list string) :
  Py.iterates_set order L →
  counts order L = (λ label, (label, Py.list_count label L)) <$> order ∧
  length (counts order L) = length (remove_dups L) ∧
  sum_list ((counts order L).*2) = length L.
Proof.
  intros Horder. pose proof Horder as [Hnd Hiff].
  rewrite (counts_items order L Hnd). split; [done|]. split.
  - rewrite length_fmap. by apply iterates_set_length.
  - rewrite <- list_fmap_compose.
    apply (sum_list_count order L Hnd). intros x. apply Hiff.
Qed.

(** X2. The fruit-count part fails only on a class id that the model's
    name table lacks: it then raises [KeyError] for the first such box
    before anything of the summary is shown; with every id named it
    returns normally, so [st.columns] is never asked for zero columns. *)
Theorem fruit_counts_key_error model inp r0 s :
  (∀ labels, Py.iterates_set (set_iter inp labels) labels) →
  match List.find (λ box, bool_decide (Yolo.names model !! Yolo.cls box = None))
          (Yolo.boxes r0) with
  | Some box =>
      fruit_counts model inp r0 s =
        (s, [], Raised (Py.Exn Py.KeyError (pretty (Yolo.cls box))))
  | None =>
      ∃ labels t,
        mapM (λ box, Yolo.names model !! Yolo.cls box) (Yolo.boxes r0) = Some labels ∧
        length labels = length (Yolo.boxes r0) ∧
        fruit_counts model inp r0 s = (s, t, Return tt) ∧
        ∀ c, c ∈ t → c ≠ st_columns 0
  end.
Proof.
  intros Hset.
  destruct (List.find _ (Yolo.boxes r0)) as [box|] eqn:Hfind.
  - assert (mapM (λ box, Yolo.names model !! Yolo.cls box) (Yolo.boxes r0) = None)
      as Hnone by (apply labels_None; rewrite Hfind; by eexists).
    unfold fruit_counts. rewrite bind_run, labels_run, Hnone, Hfind. done.
  - destruct (mapM (λ box, Yolo.names model !! Yolo.cls box) (Yolo.boxes r0))
      as [labels|] eqn:Hlabels.
    2:{ apply labels_None in Hlabels. rewrite Hfind in Hlabels. by destruct Hlabels. }
    exists labels. eexists. split; [done|]. split.
    { symmetry. by eapply length_mapM. }
    split; [apply (fruit_counts_run model inp r0 labels s Hlabels (Hset labels))|].
    intros c Hc. destruct labels as [|l labels].
    + apply list_elem_of_singleton in Hc. by subst.
    + cbv zeta in Hc. rewrite !elem_of_cons in Hc.
      destruct Hc as [->|[->|Hc]]; [done| |].
      * pose proof (counts_length _ (l :: labels) (proj1 (Hset (l :: labels)))) as Hlen.
        unfold dict_len in Hlen.
        pose proof (proj2 (Hset (l :: labels)) l) as Hl.
        destruct (set_iter inp (l :: labels)) as [|x order] eqn:Horder.
        { exfalso. eapply not_elem_of_nil, Hl. by left. }
        rewrite Hlen. simpl. discriminate.
      * apply list_elem_of_fmap in Hc as ([col [fruit count]] & -> & _). done.
Qed.

(** * What a computation may call and how it may end *)

Module TraceFacts.
Import Run RunFacts App Trace.

Section emits_only.
Context (P : call → Prop).

Lemma emits_only_ret {A} (a : A) : emits_only P (mret a).
Proof. intros s. constructor. Qed.

Lemma emits_only_bind {A B} (c : M A) (k : A → M B) :
  emits_only P c → (∀ a, emits_only P (k a)) → emits_only P (c ≫= k).
Proof.
  intros Hc Hk s. rewrite bind_run. specialize (Hc s).
  destruct (c s) as [[s1 t1] [a| |e]]; simpl in *; [|done..].
  specialize (Hk a s1). destruct (k a s1) as [[s2 t2] r]; simpl in *.
  by apply Forall_app.
Qed.

Lemma emits_only_emit x : P x → emits_only P (emit x).
Proof. intros Hx s. by repeat constructor. Qed.

Lemma emits_only_raise {A} e : emits_only P (raise (A:=A) e).
Proof. intros s. constructor. Qed.

Lemma emits_only_lift {A} (r : Py.exn + A) : emits_only P (lift r).
Proof. destruct r; [apply emits_only_raise|apply emits_only_ret]. Qed.

Lemma emits_only_get : emits_only P get.
Proof. intros s. constructor. Qed.

Lemma emits_only_put_disk d : emits_only P (put_disk d).
Proof. intros s. constructor. Qed.

Lemma emits_only_for_each {A} (l : list A) (body : A → M unit) :
  (∀ x, emits_only P (body x)) → emits_only P (for_each l body).
Proof.
  intros Hb. induction l as [|x l IH]; [apply emits_only_ret|].
  cbn [for_each]. apply emits_only_bind; [apply Hb|by intros _].
Qed.

Lemma emits_only_mapM {A B} (f : A → M B) (l : list A) :
  (∀ x, emits_only P (f x)) → emits_only P (mapM f l).
Proof.
  intros Hf. induction l as [|x l IH]; [apply emits_only_ret|].
  cbn [mapM]. apply emits_only_bind; [apply Hf|intros y].
  apply emits_only_bind; [apply IH|intros k]. apply emits_only_ret.
Qed.

End emits_only.

Lemma never_stops_ret {A} (a : A) : never_stops (mret a).
Proof. by intros s. Qed.

Lemma never_stops_bind {A B} (c : M A) (k : A → M B) :
  never_stops c → (∀ a, never_stops (k a)) → never_stops (c ≫= k).
Proof.
  intros Hc Hk s. rewrite bind_run. specialize (Hc s).
  destruct (c s) as [[s1 t1] [a| |e]]; simpl in *; [|done..].
  specialize (Hk a s1). by destruct (k a s1) as [[s2 t2] r].
Qed.

Lemma never_stops_emit x : never_stops (emit x).
Proof. by intros s. Qed.

Lemma never_stops_raise {A} e : never_stops (raise (A:=A) e).
Proof. by intros s. Qed.

Lemma never_stops_lift {A} (r : Py.exn + A) : never_stops (lift r).
Proof. destruct r; [apply never_stops_raise|apply never_stops_ret]. Qed.

Lemma never_stops_get : never_stops get.
Proof. by intros s. Qed.

Lemma never_stops_put_disk d : never_stops (put_disk d).
Proof. by intros s. Qed.

Lemma never_stops_for_each {A} (l : list A) (body : A → M unit) :
  (∀ x, never_stops (body x)) → never_stops (for_each l body).
Proof.
  intros Hb. induction l as [|x l IH]; [apply never_stops_ret|].
  cbn [for_each]. apply never_stops_bind; [apply Hb|by intros _].
Qed.

Lemma never_stops_mapM {A B} (f : A → M B) (l : list A) :
  (∀ x, never_stops (f x)) → never_stops (mapM f l).
Proof.
  intros Hf. induction l as [|x l IH]; [apply never_stops_ret|].
  cbn [mapM]. apply never_stops_bind; [apply Hf|intros y].
  apply never_stops_bind; [apply IH|intros k]. apply never_stops_ret.
Qed.

(** Decompose a script into its primitives. *)
Ltac emits_only_tac :=
  repeat first
    [ apply emits_only_ret | apply emits_only_raise | apply emits_only_lift
    | apply emits_only_get | apply emits_only_put_disk
    | apply emits_only_emit; simpl; intros []
    | apply emits_only_bind; [|intros ?]
    | apply emits_only_for_each; intros ?
    | apply emits_only_mapM; intros ?
    | match goal with
      | |- emits_only _ (match ?x with _ => _ end) => destruct x
      | |- emits_only _ (let _ := _ in _) => cbv zeta
      | |- emits_only _ (if ?x then _ else _) => destruct x
      end ].

Ltac never_stops_tac :=
  repeat first
    [ apply never_stops_ret | apply never_stops_raise | apply never_stops_lift
    | apply never_stops_get | apply never_stops_put_disk
    | apply never_stops_emit
    | apply never_stops_bind; [|intros ?]
    | apply never_stops_for_each; intros ?
    | apply never_stops_mapM; intros ?
    | match goal with
      | |- never_stops (match ?x with _ => _ end) => destruct x
      | |- never_stops (let _ := _ in _) => cbv zeta
      | |- never_stops (if ?x then _ else _) => destruct x
      end ].

Section Script.
Variable Image_open : list byte → Py.exn + Cv2.image.
Variable tempdir : string.

Lemma image_mode_never_stops model inp :
  never_stops (image_mode Image_open tempdir model inp).
Proof.
  unfold image_mode, NamedTemporaryFile, tmp_write, Image_open_at, predict,
    fruit_counts, names_getitem, columns, unlink.
  never_stops_tac.
Qed.

Lemma video_mode_never_stops model inp :
  never_stops (video_mode tempdir model inp).
Proof.
  unfold video_mode, NamedTemporaryFile, tmp_write, predict,
    processed_video, listdir_at, open_read, unlink.
  never_stops_tac.
Qed.

Lemma video_mode_no_image_call model inp :
  emits_only (λ c, ¬ image_only_call c) (video_mode tempdir model inp).
Proof.
  unfold video_mode, NamedTemporaryFile, tmp_write, predict,
    processed_video, listdir_at, open_read, unlink.
  emits_only_tac.
Qed.

Lemma image_mode_no_video_call model inp :
  emits_only (λ c, ¬ video_only_call c) (image_mode Image_open tempdir model inp).
Proof.
  unfold image_mode, NamedTemporaryFile, tmp_write, Image_open_at, predict,
    fruit_counts, names_getitem, columns, unlink.
  emits_only_tac.
Qed.

End Script.
End TraceFacts.

Import Run RunFacts App OsFacts CountsFacts AppFacts ScriptFacts Spec CacheFacts.
Import Trace TraceFacts CaseFacts.

Section TraceProperties.
Variable YOLO : string → Py.exn + Yolo.detector.
Variable Image_open : list byte → Py.exn + Cv2.image.
Variable tempdir : string.

(** X7. A rerun ends by [st.stop()] exactly when the model has to be
    constructed and the constructor raises; neither block ever stops the
    script. *)
Theorem stops_only_on_load_failure inp s :
  (app YOLO Image_open tempdir inp s).2 = Stopped ↔
  cache s = None ∧ ∃ e, YOLO (model_path inp) = inl e.
Proof.
  assert (∀ model s0,
            (match mode inp with
             | Image => image_mode Image_open tempdir model inp
             | Video => video_mode tempdir model inp
             end s0).2 ≠ Stopped) as Hblock.
  { intros model s0. destruct (mode inp);
      [apply image_mode_never_stops|apply video_mode_never_stops]. }
  split.
  - intros Hstop. destruct (cache s) as [model|] eqn:Hc.
    { rewrite (app_cached _ _ _ _ _ _ Hc) in Hstop. by apply Hblock in Hstop. }
    split; [done|].
    destruct (YOLO (model_path inp)) as [e|model] eqn:Hp; [by exists e|].
    rewrite (app_new _ _ _ _ _ _ Hc Hp) in Hstop. by apply Hblock in Hstop.
  - intros [Hc [e Hp]]. by rewrite (app_failed _ _ _ _ _ _ Hc Hp).
Qed.

(** X9. The two blocks do not mix: a video rerun never decodes or shows
    an image and never lays out count cards (no tally is made for
    videos); an image rerun never plays a video, lists a directory, opens
    a file or offers a download. *)
Theorem modes_do_not_mix model inp s :
  (∀ c, c ∈ (video_mode tempdir model inp s).1.2 → ¬ image_only_call c) ∧
  (∀ c, c ∈ (image_mode Image_open tempdir model inp s).1.2 → ¬ video_only_call c).
Proof.
  split; intros c Hc.
  - pose proof (video_mode_no_image_call tempdir model inp s) as H.
    rewrite Forall_forall in H. by apply H.
  - pose proof (image_mode_no_video_call Image_open tempdir model inp s) as H.
    rewrite Forall_forall in H. by apply H.
Qed.

End TraceProperties.

Module TailFacts.
Import Run RunFacts App OsFacts CountsFacts AppFacts ScriptFacts Spec CacheFacts.
Import Trace TraceFacts CaseFacts.

Lemma read_after_predict tmp data written d :
  is_Some (Os.read (Os.f_path tmp) (Os.write_all written (saved tmp data d))).
Proof. apply read_write_all_is_Some. rewrite read_saved. by eexists. Qed.

(** The end of the image block: the tally, then the unlink. *)
Lemma image_tail model inp r0 tmp data written c d :
  ∃ tc, Forall summary_call tc ∧
    ((fruit_counts model inp r0;; unlink (Os.f_path tmp))
       (State c (Os.write_all written (saved tmp data d))) =
       (State c (Os.remove (Os.f_path tmp) (Os.write_all written (saved tmp data d))),
        tc ++ [os_unlink (Os.f_path tmp)], Return tt)
     ∨ ∃ e,
       (fruit_counts model inp r0;; unlink (Os.f_path tmp))
         (State c (Os.write_all written (saved tmp data d))) =
         (State c (Os.write_all written (saved tmp data d)), tc, Raised e)).
Proof.
  destruct (fruit_counts_cases model inp r0
              (State c (Os.write_all written (saved tmp data d))))
    as (tc & r & Hfc & Hns & Htc).
  exists tc. split; [done|]. rewrite bind_run, Hfc.
  destruct r as [[]| |e]; [|done|].
  - left. by rewrite unlink_saved.
  - right. by exists e.
Qed.

Lemma processed_video_scan inp r0 s :
  ∃ tv r, processed_video inp r0 s = (s, tv, r) ∧ r ≠ Stopped ∧
    Forall scan_call tv.
Proof.
  rewrite processed_video_run. cbv zeta.
  destruct (List.find _ _) as [f0|]; [destruct (Os.read _ _) as [data|]|];
    eexists _, _; (split; [done|]); (split; [done|]); by repeat constructor.
Qed.

(** The end of the video block: the scan, then the unlink. *)
Lemma video_tail inp r0 tfile data written c d :
  ∃ tv, Forall scan_call tv ∧
    ((processed_video inp r0;; unlink (Os.f_path tfile))
       (State c (Os.write_all written (saved tfile data d))) =
       (State c (Os.remove (Os.f_path tfile) (Os.write_all written (saved tfile data d))),
        tv ++ [os_unlink (Os.f_path tfile)], Return tt)
     ∨ ∃ e,
       (processed_video inp r0;; unlink (Os.f_path tfile))
         (State c (Os.write_all written (saved tfile data d))) =
         (State c (Os.write_all written (saved tfile data d)), tv, Raised e)).
Proof.
  destruct (processed_video_scan inp r0
              (State c (Os.write_all written (saved tfile data d))))
    as (tv & r & Hpv & Hns & Htv).
  exists tv. split; [done|]. rewrite bind_run, Hpv.
  destruct r as [[]| |e]; [|done|].
  - left. by rewrite unlink_saved.
  - right. by exists e.
Qed.

Lemma filter_none {A} (P : A → Prop) (f : A → bool) (l : list A) :
  Forall P l → (∀ x, P x → f x = false) → List.filter f l = [].
Proof.
  intros Hl Hf. induction Hl as [|x l Hx _ IH]; [done|].
  simpl. by rewrite (Hf x Hx).
Qed.

Lemma summary_not_predict tc :
  Forall summary_call tc → List.filter is_model_predict tc = [].
Proof. intros H. apply (filter_none _ _ _ H). by intros []. Qed.

Lemma scan_not_predict tv :
  Forall scan_call tv → List.filter is_model_predict tv = [].
Proof. intros H. apply (filter_none _ _ _ H). by intros []. Qed.

(** Membership in a trace written out as a list. *)
Ltac in_calls H :=
  rewrite ?elem_of_app, ?elem_of_cons, ?elem_of_nil in H;
  repeat match type of H with
         | _ ∨ _ => destruct H as [H|H]
         | False => destruct H
         end;
  try discriminate.

Section Script.
Variable Image_open : list byte → Py.exn + Cv2.image.
Variable tempdir : string.

(** An image block that raises leaves its temporary file behind. *)
Lemma image_mode_raised model inp s s' t e :
  image_mode Image_open tempdir model inp s = (s', t, Raised e) →
  ∀ path, tempfile_new path ∈ t →
    is_Some (Os.read path (disk s')) ∧ ∀ p, os_unlink p ∉ t.
Proof.
  rewrite image_mode_cases.
  destruct (uploaded_image inp) as [up|]; [|done].
  destruct (Os.mkstemp _ _ _ _) as [tmp|].
  2:{ intros [= <- <- <-] path Hpath. in_calls Hpath. }
  destruct (Image_open _) as [e'|img].
  { intros [= <- <- <-] path Hpath. in_calls Hpath. injection Hpath as ->.
    split; [cbn [disk]; rewrite read_saved; by eexists|].
    intros p Hp. in_calls Hp. }
  destruct (Yolo.predict _ _ _) as [e'|[[|r0 rs] written]].
  - intros [= <- <- <-] path Hpath. in_calls Hpath. injection Hpath as ->.
    split; [cbn [disk]; rewrite read_saved; by eexists|].
    intros p Hp. in_calls Hp.
  - intros [= <- <- <-] path Hpath. in_calls Hpath. injection Hpath as ->.
    split; [apply read_after_predict|].
    intros p Hp. in_calls Hp.
  - destruct (image_tail model inp r0 tmp (up_data up) written (cache s) (disk s))
      as (tc & Htc & [->|[e' ->]]); [done|].
    rewrite Forall_forall in Htc.
    intros [= <- <- <-] path Hpath. in_calls Hpath.
    + injection Hpath as ->. split; [apply read_after_predict|].
      intros p Hp. in_calls Hp. destruct (Htc _ Hp).
    + destruct (Htc _ Hpath).
Qed.

Lemma video_mode_raised model inp s s' t e :
  video_mode tempdir model inp s = (s', t, Raised e) →
  ∀ path, tempfile_new path ∈ t →
    is_Some (Os.read path (disk s')) ∧ ∀ p, os_unlink p ∉ t.
Proof.
  rewrite video_mode_cases.
  destruct (uploaded_video inp) as [up|]; [|done].
  destruct (last _) as [ext|].
  2:{ intros [= <- <- <-] path Hpath. in_calls Hpath. }
  destruct (Os.mkstemp _ _ _ _) as [tfile|].
  2:{ intros [= <- <- <-] path Hpath. in_calls Hpath. }
  destruct (Yolo.predict _ _ _) as [e'|[[|r0 rs] written]].
  - intros [= <- <- <-] path Hpath. in_calls Hpath. injection Hpath as ->.
    split; [cbn [disk]; rewrite read_saved; by eexists|].
    intros p Hp. in_calls Hp.
  - intros [= <- <- <-] path Hpath. in_calls Hpath. injection Hpath as ->.
    split; [apply read_after_predict|].
    intros p Hp. in_calls Hp.
  - destruct (video_tail inp r0 tfile (up_data up) written (cache s) (disk s))
      as (tv & Htv & [->|[e' ->]]); [done|].
    rewrite Forall_forall in Htv.
    intros [= <- <- <-] path Hpath. in_calls Hpath.
    + injection Hpath as ->. split; [apply read_after_predict|].
      intros p Hp. in_calls Hp. destruct (Htv _ Hp).
    + destruct (Htv _ Hpath).
Qed.

(** The one prediction of an image block. *)
Lemma image_mode_predict model inp s :
  let t := (image_mode Image_open tempdir model inp s).1.2 in
  (length (List.filter is_model_predict t) ≤ 1)%nat ∧
  ∀ args, model_predict args ∈ t →
    ∃ path, tempfile_new path ∈ t ∧ args = image_args inp path.
Proof.
  rewrite image_mode_cases.
  destruct (uploaded_image inp) as [up|].
  2:{ simpl. split; [lia|]. intros args H. in_calls H. }
  destruct (Os.mkstemp _ _ _ _) as [tmp|].
  2:{ simpl. split; [lia|]. intros args H. in_calls H. }
  destruct (Image_open _) as [e'|img].
  { simpl. split; [lia|]. intros args H. in_calls H. }
  assert (tempfile_new (Os.f_path tmp)
            ∈ [st_file_uploader "📤 Upload an Image" ["jpg"; "jpeg"; "png"];
               tempfile_new (Os.f_path tmp)]) as Hnew
    by (apply list_elem_of_further, list_elem_of_here).
  destruct (Yolo.predict _ _ _) as [e'|[[|r0 rs] written]].
  - simpl. split; [lia|]. intros args H. in_calls H. injection H as ->.
    exists (Os.f_path tmp). split; [|done]. rewrite !elem_of_cons. tauto.
  - simpl. split; [lia|]. intros args H. in_calls H. injection H as ->.
    exists (Os.f_path tmp). split; [|done]. rewrite !elem_of_cons. tauto.
  - destruct (image_tail model inp r0 tmp (up_data up) written (cache s) (disk s))
      as (tc & Htc & [->|[e' ->]]);
      pose proof (summary_not_predict tc Htc) as Hnone;
      rewrite Forall_forall in Htc; cbn [after fst snd].
    + split.
      * rewrite !List.filter_app, Hnone. simpl. lia.
      * intros args H. in_calls H.
        -- injection H as ->. exists (Os.f_path tmp). split; [|done].
           rewrite !elem_of_app, !elem_of_cons. tauto.
        -- destruct (Htc _ H).
    + split.
      * rewrite !List.filter_app, Hnone. simpl. lia.
      * intros args H. in_calls H.
        -- injection H as ->. exists (Os.f_path tmp). split; [|done].
           rewrite !elem_of_app, !elem_of_cons. tauto.
        -- destruct (Htc _ H).
Qed.

(** The one prediction of a video block. *)
Lemma video_mode_predict model inp s :
  let t := (video_mode tempdir model inp s).1.2 in
  (length (List.filter is_model_predict t) ≤ 1)%nat ∧
  ∀ args, model_predict args ∈ t →
    ∃ path, tempfile_new path ∈ t ∧ args = video_args inp path.
Proof.
  rewrite video_mode_cases.
  destruct (uploaded_video inp) as [up|].
  2:{ simpl. split; [lia|]. intros args H. in_calls H. }
  destruct (last _) as [ext|].
  2:{ simpl. split; [lia|]. intros args H. in_calls H. }
  destruct (Os.mkstemp _ _ _ _) as [tfile|].
  2:{ simpl. split; [lia|]. intros args H. in_calls H. }
  destruct (Yolo.predict _ _ _) as [e'|[[|r0 rs] written]].
  - simpl. split; [lia|]. intros args H. in_calls H. injection H as ->.
    exists (Os.f_path tfile). split; [|done]. rewrite !elem_of_cons. tauto.
  - simpl. split; [lia|]. intros args H. in_calls H. injection H as ->.
    exists (Os.f_path tfile). split; [|done]. rewrite !elem_of_cons. tauto.
  - destruct (video_tail inp r0 tfile (up_data up) written (cache s) (disk s))
      as (tv & Htv & [->|[e' ->]]);
      pose proof (scan_not_predict tv Htv) as Hnone;
      rewrite Forall_forall in Htv; cbn [after fst snd].
    + split.
      * rewrite !List.filter_app, Hnone. simpl. lia.
      * intros args H. in_calls H.
        -- injection H as ->. exists (Os.f_path tfile). split; [|done].
           rewrite !elem_of_app, !elem_of_cons. tauto.
        -- destruct (Htv _ H).
    + split.
      * rewrite !List.filter_app, Hnone. simpl. lia.
      * intros args H. in_calls H.
        -- injection H as ->. exists (Os.f_path tfile). split; [|done].
           rewrite !elem_of_app, !elem_of_cons. tauto.
        -- destruct (Htv _ H).
Qed.

End Script.
End TailFacts.

Import Run RunFacts App OsFacts CountsFacts AppFacts ScriptFacts Spec CacheFacts.
Import Trace TraceFacts CaseFacts TailFacts.

Module NameFacts.
Import Py PyFacts.

(** A string without the separator is a single field. *)
Lemma str_split_no_sep (sep : Ascii.ascii) (w : string) :
  sep ∉ String.list_ascii_of_string w → str_split sep w = [w].
Proof.
  induction w as [|c w IH]; intros Hw; [done|].
  simpl in Hw. apply not_elem_of_cons in Hw as [Hne Hw].
  cbn [str_split]. destruct (Ascii.eqb_spec c sep) as [->|_]; [done|].
  by rewrite IH.
Qed.

(** Every name is a dot-free text, possibly after a stem and a dot. *)
Lemma name_after_last_sep (sep : Ascii.ascii) (name : string) :
  ∃ ext, (sep ∉ String.list_ascii_of_string ext) ∧
         (name = ext ∨ ∃ stem, name = stem +:+ String sep ext).
Proof.
  induction name as [|c name (ext & Hext & IH)].
  - exists EmptyString. split; [apply not_elem_of_nil|by left].
  - destruct IH as [->|[stem ->]].
    + destruct (Ascii.eqb_spec c sep) as [->|Hne].
      * exists ext. split; [done|]. right. by exists EmptyString.
      * exists (String c ext). split; [|by left].
        simpl. apply not_elem_of_cons. split; [congruence|done].
    + exists ext. split; [done|]. right. by exists (String c stem).
Qed.

Lemma last_str_split_name (sep : Ascii.ascii) (name ext : string) :
  sep ∉ String.list_ascii_of_string ext →
  (name = ext ∨ ∃ stem, name = stem +:+ String sep ext) →
  last (str_split sep name) = Some ext.
Proof.
  intros Hext [->|[stem ->]].
  - by rewrite str_split_no_sep.
  - by rewrite str_split_last_app, str_split_no_sep.
Qed.

End NameFacts.

Import NameFacts.

Section RerunProperties.
Variable YOLO : string → Py.exn + Yolo.detector.
Variable Image_open : list byte → Py.exn + Cv2.image.
Variable tempdir : string.

Local Abbreviation block model inp :=
  (match mode inp with
   | Image => image_mode Image_open tempdir model inp
   | Video => video_mode tempdir model inp
   end).

(** A rerun is the model load followed by the block of the mode. *)
Lemma app_block inp s :
  (cache s = None ∧ ∃ e, YOLO (model_path inp) = inl e) ∨
  ∃ model pre s0,
    app YOLO Image_open tempdir inp s = after pre (block model inp s0) ∧
    disk s0 = disk s ∧
    (pre = [] ∨ pre = [YOLO_new (model_path inp)]).
Proof.
  destruct (cache s) as [model|] eqn:Hc.
  { right. exists model, [], s. rewrite (app_cached _ _ _ _ _ _ Hc), after_nil. auto. }
  destruct (YOLO (model_path inp)) as [e|model] eqn:Hp.
  { left. split; [done|]. by exists e. }
  right. exists model, [YOLO_new (model_path inp)], (State (Some model) (disk s)).
  rewrite (app_new _ _ _ _ _ _ Hc Hp). auto.
Qed.

(** X3. There is no cleanup on the error path: when a rerun ends with an
    uncaught exception after the upload was saved (undecodable image,
    failing detector, no results, unnamed class), nothing is unlinked and
    the temporary file is still on disk. *)
Theorem temp_input_left_on_exception inp s s' t e :
  app YOLO Image_open tempdir inp s = (s', t, Raised e) →
  ∀ path, tempfile_new path ∈ t →
    is_Some (Os.read path (disk s')) ∧ ∀ p, os_unlink p ∉ t.
Proof.
  intros Hrun path Hpath.
  destruct (app_block inp s) as [[Hc [e' Hp]]|(model & pre & s0 & Happ & _ & Hpre)].
  { by rewrite (app_failed _ _ _ _ _ _ Hc Hp) in Hrun. }
  rewrite Happ in Hrun.
  destruct (block model inp s0) as [[s1 tb] r] eqn:Hb.
  cbn [after fst snd] in Hrun. injection Hrun as <- <- ->.
  assert (tempfile_new path ∈ tb) as Hpath'.
  { destruct Hpre as [->| ->]; in_calls Hpath; done. }
  assert (is_Some (Os.read path (disk s1)) ∧ ∀ p, os_unlink p ∉ tb) as [Hsome Hno].
  { destruct (mode inp).
    - by apply (image_mode_raised _ _ _ _ _ _ _ _ Hb).
    - by apply (video_mode_raised _ _ _ _ _ _ _ Hb). }
  split; [done|]. intros p Hp.
  destruct Hpre as [->| ->]; in_calls Hp; by apply (Hno p).
Qed.

(** X8. A rerun calls the detector at most once, on the temporary file
    it has just made, with the confidence of the slider: with [save]
    off in image mode, and with [save] on under project [runs/detect],
    name [fruit_ui], in video mode. *)
Theorem predict_once_on_temp_file inp s :
  let t := (app YOLO Image_open tempdir inp s).1.2 in
  (length (List.filter is_model_predict t) ≤ 1)%nat ∧
  ∀ args, model_predict args ∈ t →
    ∃ path, tempfile_new path ∈ t ∧
      args = match mode inp with
             | Image => image_args inp path
             | Video => video_args inp path
             end.
Proof.
  intros t. unfold t.
  destruct (app_block inp s) as [[Hc [e' Hp]]|(model & pre & s0 & -> & _ & Hpre)].
  { rewrite (app_failed _ _ _ _ _ _ Hc Hp). simpl. split; [lia|].
    intros args H. in_calls H. }
  assert (∀ tb, List.filter is_model_predict (pre ++ tb)
                = List.filter is_model_predict tb) as Hfilter.
  { intros tb. by destruct Hpre as [->| ->]. }
  assert (∀ c tb, c ∈ tb → c ∈ pre ++ tb) as Hin.
  { intros c tb Hc. apply elem_of_app. by right. }
  assert (∀ args tb, model_predict args ∈ pre ++ tb → model_predict args ∈ tb) as Hout.
  { intros args tb H. destruct Hpre as [->| ->]; in_calls H; done. }
  cbn [after fst snd]. rewrite Hfilter.
  destruct (mode inp).
  - destruct (image_mode_predict Image_open tempdir model inp s0) as [Hone Hargs].
    split; [done|]. intros args [path [Hpath ->]]%Hout%Hargs. exists path. auto.
  - destruct (video_mode_predict tempdir model inp s0) as [Hone Hargs].
    split; [done|]. intros args [path [Hpath ->]]%Hout%Hargs. exists path. auto.
Qed.

(** X4. When the detector returns an empty list of results, [results[0]]
    raises [IndexError]: in image mode after the original image was
    shown, in video mode before any scan of the output directory; the
    temporary file stays. *)
Theorem no_results_index_error model inp s :
  (∀ up tmp img written,
     uploaded_image inp = Some up →
     Os.mkstemp tempdir (tmp_rnds inp) ".jpg" (disk s) = Some tmp →
     Image_open (up_data up) = inr img →
     Yolo.predict model (saved tmp (up_data up) (disk s))
       (image_args inp (Os.f_path tmp)) = inr ([], written) →
     image_mode Image_open tempdir model inp s =
       (State (cache s) (Os.write_all written (saved tmp (up_data up) (disk s))),
        [st_file_uploader "📤 Upload an Image" ["jpg"; "jpeg"; "png"];
         tempfile_new (Os.f_path tmp);
         file_write (Os.f_path tmp) (up_data up);
         st_markdown "<div class='section'><h3>📷 Original Image</h3></div>";
         Image_open_path (Os.f_path tmp);
         st_image img;
         st_info "🔍 Detecting fruits...";
         model_predict (image_args inp (Os.f_path tmp))],
        Raised (Py.Exn Py.IndexError "list index out of range"))) ∧
  (∀ up ext tfile written,
     uploaded_video inp = Some up →
     last (Py.str_split "." (up_name up)) = Some ext →
     Os.mkstemp tempdir (tmp_rnds inp) ("." +:+ ext) (disk s) = Some tfile →
     Yolo.predict model (saved tfile (up_data up) (disk s))
       (video_args inp (Os.f_path tfile)) = inr ([], written) →
     video_mode tempdir model inp s =
       (State (cache s) (Os.write_all written (saved tfile (up_data up) (disk s))),
        [st_file_uploader "📤 Upload a Video" ["mp4"; "mov"; "avi"; "mkv"];
         tempfile_new (Os.f_path tfile);
         file_write (Os.f_path tfile) (up_data up);
         st_markdown "<div class='section'><h3>🎥 Original Video</h3></div>";
         st_video (Os.f_path tfile);
         st_info "⏳ Processing video...";
         model_predict (video_args inp (Os.f_path tfile))],
        Raised (Py.Exn Py.IndexError "list index out of range"))).
Proof.
  split.
  - intros up tmp img written Hup Htmp Himg Hpred.
    by rewrite image_mode_cases, Hup, Htmp, Himg, Hpred.
  - intros up ext tfile written Hup Hext Htmp Hpred.
    by rewrite video_mode_cases, Hup, Hext, Htmp, Hpred.
Qed.

(** X5. A rerun that ends normally changes the disk only where the
    detector wrote: every other path, the one of the temporary file
    included, reads afterwards as it did before. *)
Theorem normal_rerun_touches_only_detector_output model inp s s' t :
  (∀ up tmp results written,
     uploaded_image inp = Some up →
     Os.mkstemp tempdir (tmp_rnds inp) ".jpg" (disk s) = Some tmp →
     Yolo.predict model (saved tmp (up_data up) (disk s))
       (image_args inp (Os.f_path tmp)) = inr (results, written) →
     image_mode Image_open tempdir model inp s = (s', t, Return tt) →
     ∀ p, (∀ f, f ∈ written → Os.f_path f ≠ p) →
          Os.read p (disk s') = Os.read p (disk s)) ∧
  (∀ up ext tfile results written,
     uploaded_video inp = Some up →
     last (Py.str_split "." (up_name up)) = Some ext →
     Os.mkstemp tempdir (tmp_rnds inp) ("." +:+ ext) (disk s) = Some tfile →
     Yolo.predict model (saved tfile (up_data up) (disk s))
       (video_args inp (Os.f_path tfile)) = inr (results, written) →
     video_mode tempdir model inp s = (s', t, Return tt) →
     ∀ p, (∀ f, f ∈ written → Os.f_path f ≠ p) →
          Os.read p (disk s') = Os.read p (disk s)).
Proof.
  assert (∀ tmp data w p,
            Os.read (Os.f_path tmp) (disk s) = None →
            (∀ f, f ∈ w → Os.f_path f ≠ p) →
            Os.read p (Os.remove (Os.f_path tmp) (Os.write_all w (saved tmp data (disk s))))
            = Os.read p (disk s)) as Hframe.
  { intros tmp data w p Hfresh Hw. rewrite read_remove.
    destruct (decide (p = Os.f_path tmp)) as [->|Hne]; [done|].
    rewrite (read_write_all_other _ _ _ Hw), !read_write.
    rewrite decide_False by done. by rewrite decide_False. }
  split.
  - intros up tmp results written Hup Htmp Hpred Hrun p Hp.
    apply image_mode_normal in Hrun
      as [(Hnone & _)|(up' & tmp' & img & r0 & rs & w & tc & Hup' & Htmp' & _ & Hpred'
                       & _ & -> & _)]; [congruence|].
    rewrite Hup in Hup'. injection Hup' as <-.
    rewrite Htmp in Htmp'. injection Htmp' as <-.
    rewrite Hpred in Hpred'. injection Hpred' as -> <-.
    cbn [disk]. apply Hframe; [by apply mkstemp_Some in Htmp as [? _]|done].
  - intros up ext tfile results written Hup Hext Htmp Hpred Hrun p Hp.
    apply video_mode_normal in Hrun
      as [(Hnone & _)|(up' & ext' & tfile' & r0 & rs & w & tv & Hup' & Hext' & Htmp'
                       & Hpred' & _ & -> & _)]; [congruence|].
    rewrite Hup in Hup'. injection Hup' as <-.
    rewrite Hext in Hext'. injection Hext' as <-.
    rewrite Htmp in Htmp'. injection Htmp' as <-.
    rewrite Hpred in Hpred'. injection Hpred' as -> <-.
    cbn [disk]. apply Hframe; [by apply mkstemp_Some in Htmp as [? _]|done].
Qed.

(** X11. A rerun without an upload does nothing beyond loading the
    model if it is not cached yet and showing the uploader of the mode:
    no file is created or removed and the detector is not run. *)
Theorem rerun_without_upload inp s :
  uploaded_image inp = None →
  uploaded_video inp = None →
  let uploader :=
    match mode inp with
    | Image => st_file_uploader "📤 Upload an Image" ["jpg"; "jpeg"; "png"]
    | Video => st_file_uploader "📤 Upload a Video" ["mp4"; "mov"; "avi"; "mkv"]
    end in
  app YOLO Image_open tempdir inp s =
    match cache s, YOLO (model_path inp) with
    | Some _, _ => (s, [uploader], Return tt)
    | None, inr model =>
        (State (Some model) (disk s), [YOLO_new (model_path inp); uploader], Return tt)
    | None, inl e =>
        (s, [YOLO_new (model_path inp);
             st_error ("❌ Could not load model: " +:+ Py.exn_str e); st_stop],
         Stopped)
    end.
Proof.
  intros Himg Hvid uploader.
  assert (∀ model s0, block model inp s0 = (s0, [uploader], Return tt)) as Hblock.
  { intros model s0. unfold uploader. destruct (mode inp).
    - by rewrite image_mode_cases, Himg.
    - by rewrite video_mode_cases, Hvid. }
  destruct (cache s) as [model|] eqn:Hc.
  { by rewrite (app_cached _ _ _ _ _ _ Hc), Hblock. }
  destruct (YOLO (model_path inp)) as [e|model] eqn:Hp.
  - by rewrite (app_failed _ _ _ _ _ _ Hc Hp).
  - by rewrite (app_new _ _ _ _ _ _ Hc Hp), Hblock.
Qed.

Lemma session_app inps1 inps2 s :
  session YOLO Image_open tempdir (inps1 ++ inps2) s =
    let r1 := session YOLO Image_open tempdir inps1 s in
    let r2 := session YOLO Image_open tempdir inps2 r1.2 in
    (r1.1 ++ r2.1, r2.2).
Proof.
  revert s. induction inps1 as [|inp inps1 IH]; intros s.
  - simpl. by destruct (session YOLO Image_open tempdir inps2 s).
  - rewrite <- app_comm_cons. cbn [session]. rewrite IH. done.
Qed.

(** X6. A failed load is not remembered: as long as the constructor
    raises, every rerun calls it again, reports the error and stops,
    leaving cache and disk as they were; the first rerun whose path
    loads then constructs the detector and caches it. *)
Theorem failed_load_is_retried (err : inputs → Py.exn) inps inp s model :
  cache s = None →
  (∀ i, i ∈ inps → YOLO (model_path i) = inl (err i)) →
  YOLO (model_path inp) = inr model →
  session YOLO Image_open tempdir inps s =
    ((λ i, ([YOLO_new (model_path i);
             st_error ("❌ Could not load model: " +:+ Py.exn_str (err i));
             st_stop], Stopped)) <$> inps, s) ∧
  (session YOLO Image_open tempdir (inps ++ [inp]) s).2
    = (app YOLO Image_open tempdir inp s).1.1 ∧
  cache (session YOLO Image_open tempdir (inps ++ [inp]) s).2 = Some model ∧
  head (app YOLO Image_open tempdir inp s).1.2 = Some (YOLO_new (model_path inp)).
Proof.
  intros Hc Hbad Hgood.
  assert (session YOLO Image_open tempdir inps s =
            ((λ i, ([YOLO_new (model_path i);
                     st_error ("❌ Could not load model: " +:+ Py.exn_str (err i));
                     st_stop], Stopped)) <$> inps, s)) as Hfailed.
  { induction inps as [|i inps IH]; [done|].
    cbn [session]. rewrite (app_failed _ _ _ _ _ _ Hc (Hbad i ltac:(by left))).
    cbn [fst snd]. rewrite IH; [done|]. intros j Hj. apply Hbad. by right. }
  split; [done|].
  rewrite session_app, Hfailed. cbn [session fst snd].
  split; [done|].
  rewrite (app_new _ _ _ _ _ _ Hc Hgood). cbn [after fst snd]. split; [|done].
  destruct (mode inp).
  - by destruct (image_mode_keeps_model Image_open tempdir model inp
                   (State (Some model) (disk s))) as [-> _].
  - by destruct (video_mode_keeps_model tempdir model inp
                   (State (Some model) (disk s))) as [-> _].
Qed.

(** X10. In video mode the suffix of the temporary file is a dot and
    whatever follows the last dot of the uploaded name, dot-free by
    construction; a name without a dot is taken whole, so the suffix is
    then a dot and the entire name. *)
Theorem video_temp_suffix_after_last_dot model inp s up :
  uploaded_video inp = Some up →
  ∃ ext,
    ("."%char ∉ String.list_ascii_of_string ext) ∧
    (up_name up = ext ∨ ∃ stem, up_name up = stem +:+ "." +:+ ext) ∧
    last (Py.str_split "." (up_name up)) = Some ext ∧
    ∀ tfile,
      Os.mkstemp tempdir (tmp_rnds inp) ("." +:+ ext) (disk s) = Some tfile →
      Py.str_endswith (Os.f_path tfile) ("." +:+ ext) = true ∧
      ∃ s' rest out,
        video_mode tempdir model inp s =
          (s',
           st_file_uploader "📤 Upload a Video" ["mp4"; "mov"; "avi"; "mkv"]
           :: tempfile_new (Os.f_path tfile)
           :: file_write (Os.f_path tfile) (up_data up) :: rest,
           out).
Proof.
  intros Hup.
  destruct (name_after_last_sep "." (up_name up)) as (ext & Hext & Hname).
  pose proof (last_str_split_name "." _ _ Hext Hname) as Hlast.
  exists ext. split; [done|]. split; [done|]. split; [done|].
  intros tfile Htmp.
  destruct (mkstemp_Some _ _ _ _ _ Htmp) as (_ & rnd & _ & ->).
  split; [apply temp_path_suffix|].
  unfold video_mode, NamedTemporaryFile, tmp_write, Py.getitem_last.
  rewrite Hup, Hlast. run_steps. rewrite Htmp. run_steps.
  eexists _, _, _. reflexivity.
Qed.

End RerunProperties.

Import Run RunFacts App OsFacts CountsFacts AppFacts ScriptFacts Spec CacheFacts.
Import Trace TraceFacts CaseFacts TailFacts TallyFacts NameFacts.

(** * The further properties at work *)

(** Two apples and a banana: two entries, summing to three. *)
Lemma counts_sum_to_detections_witness :
  counts (remove_dups ["apple"; "banana"; "apple"]) ["apple"; "banana"; "apple"]
    = [("banana", 1%nat); ("apple", 2%nat)] ∧
  length (counts (remove_dups ["apple"; "banana"; "apple"])
            ["apple"; "banana"; "apple"]) = 2%nat ∧
  sum_list ((counts (remove_dups ["apple"; "banana"; "apple"])
               ["apple"; "banana"; "apple"]).*2) = 3%nat.
Proof.
  exact (counts_sum_to_detections (remove_dups ["apple"; "banana"; "apple"])
           ["apple"; "banana"; "apple"]
           (iterates_set_remove_dups ["apple"; "banana"; "apple"])).
Defined.

(** Class 7 has no name: the tally raises [KeyError: 7]. *)
Lemma fruit_counts_key_error_witness :
  fruit_counts Faults.sparse_detector (Demo.image_inputs "sparse.pt")
    {| Yolo.plot := [[(x01, x02, x03)]];
       Yolo.boxes := [Yolo.Box 0; Yolo.Box 7; Yolo.Box 9];
       Yolo.save_dir := "runs/detect/predict" |} Demo.fresh =
  (Demo.fresh, [], Raised (Py.Exn Py.KeyError "7")).
Proof.
  exact (fruit_counts_key_error Faults.sparse_detector (Demo.image_inputs "sparse.pt")
           {| Yolo.plot := [[(x01, x02, x03)]];
              Yolo.boxes := [Yolo.Box 0; Yolo.Box 7; Yolo.Box 9];
              Yolo.save_dir := "runs/detect/predict" |} Demo.fresh
           iterates_set_remove_dups).
Defined.

(** The detector raises on an uploaded image: the copy stays in /tmp. *)
Lemma temp_input_left_on_exception_witness :
  let run := app Faults.faulty_YOLO Demo.Image_open Demo.tempdir
               (Demo.image_inputs "failing.pt") Demo.fresh in
  run.2 = Raised (Py.Exn Py.OtherException "cannot read the source") ∧
  tempfile_new "/tmp/tmpabc.jpg" ∈ run.1.2 ∧
  is_Some (Os.read "/tmp/tmpabc.jpg" (disk run.1.1)) ∧
  ∀ p, os_unlink p ∉ run.1.2.
Proof.
  intros run. split; [reflexivity|].
  assert (tempfile_new "/tmp/tmpabc.jpg" ∈ run.1.2) as Hin.
  { vm_compute. do 2 apply list_elem_of_further. apply list_elem_of_here. }
  split; [exact Hin|].
  exact (temp_input_left_on_exception Faults.faulty_YOLO Demo.Image_open Demo.tempdir
           (Demo.image_inputs "failing.pt") Demo.fresh run.1.1 run.1.2
           (Py.Exn Py.OtherException "cannot read the source") eq_refl
           "/tmp/tmpabc.jpg" Hin).
Defined.

(** A detector without results, on an image and on a video. *)
Lemma no_results_index_error_witness :
  (image_mode Demo.Image_open Demo.tempdir Faults.empty_detector
     (Demo.image_inputs "empty.pt") Demo.fresh).2
    = Raised (Py.Exn Py.IndexError "list index out of range") ∧
  (video_mode Demo.tempdir Faults.empty_detector
     (Demo.video_inputs "empty.pt") Demo.fresh).2
    = Raised (Py.Exn Py.IndexError "list index out of range").
Proof.
  split.
  - rewrite (proj1 (no_results_index_error Demo.Image_open Demo.tempdir
                      Faults.empty_detector (Demo.image_inputs "empty.pt") Demo.fresh)
               {| up_name := "bowl.png"; up_data := [x05] |}
               (Os.File "/tmp" "tmpabc.jpg" []) [[(x09, x08, x07)]] []
               eq_refl eq_refl eq_refl eq_refl).
    reflexivity.
  - rewrite (proj2 (no_results_index_error Demo.Image_open Demo.tempdir
                      Faults.empty_detector (Demo.video_inputs "empty.pt") Demo.fresh)
               {| up_name := "clip.mov"; up_data := [x05] |} "mov"
               (Os.File "/tmp" "tmpabc.mov" []) []
               eq_refl eq_refl eq_refl eq_refl).
    reflexivity.
Defined.

(** An image rerun leaves every path as it was; a video rerun leaves
    the path of its temporary file as it was. *)
Lemma normal_rerun_touches_only_detector_output_witness :
  (∀ p, Os.read p
          (disk (image_mode Demo.Image_open Demo.tempdir Demo.fruit_detector
                   (Demo.image_inputs "best.pt") Demo.fresh).1.1)
        = Os.read p (disk Demo.fresh)) ∧
  Os.read "/tmp/tmpabc.mov"
    (disk (video_mode Demo.tempdir Demo.fruit_detector
             (Demo.video_inputs "best.pt") Demo.fresh).1.1)
  = Os.read "/tmp/tmpabc.mov" (disk Demo.fresh).
Proof.
  split.
  - intros p.
    refine (proj1 (normal_rerun_touches_only_detector_output Demo.Image_open
                     Demo.tempdir Demo.fruit_detector (Demo.image_inputs "best.pt")
                     Demo.fresh _ _)
              {| up_name := "bowl.png"; up_data := [x05] |}
              (Os.File "/tmp" "tmpabc.jpg" []) _ []
              eq_refl eq_refl eq_refl eq_refl p _).
    intros f Hf. by apply elem_of_nil in Hf.
  - refine (proj2 (normal_rerun_touches_only_detector_output Demo.Image_open
                     Demo.tempdir Demo.fruit_detector (Demo.video_inputs "best.pt")
                     Demo.fresh _ _)
              {| up_name := "clip.mov"; up_data := [x05] |} "mov"
              (Os.File "/tmp" "tmpabc.mov" []) _
              [Os.File "runs/detect/fruit_ui" "labels.txt" [];
               Os.File "runs/detect/fruit_ui" "clip.avi" [x01; x02]]
              eq_refl eq_refl eq_refl eq_refl eq_refl "/tmp/tmpabc.mov" _).
    intros f Hf. rewrite !elem_of_cons, elem_of_nil in Hf.
    destruct Hf as [->|[->|[]]]; discriminate.
Defined.

(** Two reruns with a wrong path, then one with the right path. *)
Lemma failed_load_is_retried_witness :
  session Demo.YOLO Demo.Image_open Demo.tempdir
    [Demo.image_inputs "missing.pt"; Demo.video_inputs "missing.pt"] Demo.fresh =
    ([([YOLO_new "missing.pt";
        st_error "❌ Could not load model: No such file or directory";
        st_stop], Stopped);
      ([YOLO_new "missing.pt";
        st_error "❌ Could not load model: No such file or directory";
        st_stop], Stopped)],
     Demo.fresh) ∧
  cache (session Demo.YOLO Demo.Image_open Demo.tempdir
           [Demo.image_inputs "missing.pt"; Demo.video_inputs "missing.pt";
            Demo.image_inputs "best.pt"] Demo.fresh).2
    = Some Demo.fruit_detector.
Proof.
  destruct (failed_load_is_retried Demo.YOLO Demo.Image_open Demo.tempdir
              (λ _, Py.Exn Py.FileNotFoundError "No such file or directory")
              [Demo.image_inputs "missing.pt"; Demo.video_inputs "missing.pt"]
              (Demo.image_inputs "best.pt") Demo.fresh Demo.fruit_detector
              eq_refl) as (Hfailed & _ & Hcache & _).
  - intros i Hi. rewrite !elem_of_cons, elem_of_nil in Hi.
    destruct Hi as [->|[->|[]]]; reflexivity.
  - reflexivity.
  - split; [exact Hfailed|exact Hcache].
Defined.

(** With the model cached the rerun returns; with a wrong path in a
    fresh process it stops. *)
Lemma stops_only_on_load_failure_witness :
  (app Demo.YOLO Demo.Image_open Demo.tempdir (Demo.image_inputs "missing.pt")
     Demo.fresh).2 = Stopped ∧
  (app Demo.YOLO Demo.Image_open Demo.tempdir (Demo.image_inputs "missing.pt")
     (State (Some Demo.fruit_detector) [])).2 ≠ Stopped.
Proof.
  split.
  - apply (stops_only_on_load_failure Demo.YOLO Demo.Image_open Demo.tempdir
             (Demo.image_inputs "missing.pt") Demo.fresh).
    split; [reflexivity|]. eexists. reflexivity.
  - intros Hstop.
    apply (stops_only_on_load_failure Demo.YOLO Demo.Image_open Demo.tempdir
             (Demo.image_inputs "missing.pt") (State (Some Demo.fruit_detector) []))
      in Hstop as [Hc _].
    discriminate.
Defined.

(** The one prediction of a video rerun. *)
Lemma predict_once_on_temp_file_witness :
  let t := (app Demo.YOLO Demo.Image_open Demo.tempdir
              (Demo.video_inputs "best.pt") Demo.fresh).1.2 in
  (length (List.filter is_model_predict t) ≤ 1)%nat ∧
  ∃ path, tempfile_new path ∈ t ∧
    video_args (Demo.video_inputs "best.pt") "/tmp/tmpabc.mov"
    = video_args (Demo.video_inputs "best.pt") path.
Proof.
  intros t.
  destruct (predict_once_on_temp_file Demo.YOLO Demo.Image_open Demo.tempdir
              (Demo.video_inputs "best.pt") Demo.fresh) as [Hone Hargs].
  split; [exact Hone|].
  apply (Hargs (video_args (Demo.video_inputs "best.pt") "/tmp/tmpabc.mov")).
  vm_compute. do 7 apply list_elem_of_further. apply list_elem_of_here.
Defined.

(** The download button is in a video rerun, so it is no image call. *)
Lemma modes_do_not_mix_witness :
  ¬ image_only_call
      (st_download_button "⬇ Download Processed Video" [x01; x02]
         "detected_fruit_video.mp4" "video/mp4").
Proof.
  apply (proj1 (modes_do_not_mix Demo.Image_open Demo.tempdir Demo.fruit_detector
                  (Demo.video_inputs "best.pt") Demo.fresh)).
  vm_compute. do 11 apply list_elem_of_further. apply list_elem_of_here.
Defined.

(** A video uploaded as [holiday] is saved as [tmpabc.holiday]. *)
Lemma video_temp_suffix_after_last_dot_witness :
  Py.str_endswith "/tmp/tmpabc.holiday" ".holiday" = true ∧
  ∃ s' rest out,
    video_mode Demo.tempdir Demo.fruit_detector Faults.dotless_inputs Demo.fresh =
      (s',
       st_file_uploader "📤 Upload a Video" ["mp4"; "mov"; "avi"; "mkv"]
       :: tempfile_new "/tmp/tmpabc.holiday"
       :: file_write "/tmp/tmpabc.holiday" [x05] :: rest,
       out).
Proof.
  destruct (video_temp_suffix_after_last_dot Demo.tempdir Demo.fruit_detector
              Faults.dotless_inputs Demo.fresh
              {| up_name := "holiday"; up_data := [x05] |} eq_refl)
    as (ext & _ & _ & Hlast & Hrun).
  injection Hlast as <-.
  exact (Hrun (Os.File "/tmp" "tmpabc.holiday" []) eq_refl).
Defined.

(** An idle rerun in a fresh process with a good path. *)
Lemma rerun_without_upload_witness :
  app Demo.YOLO Demo.Image_open Demo.tempdir (Faults.idle_inputs "best.pt" Video)
    Demo.fresh =
  (State (Some Demo.fruit_detector) [],
   [YOLO_new "best.pt";
    st_file_uploader "📤 Upload a Video" ["mp4"; "mov"; "avi"; "mkv"]],
   Return tt).
Proof.
  exact (rerun_without_upload Demo.YOLO Demo.Image_open Demo.tempdir
           (Faults.idle_inputs "best.pt" Video) Demo.fresh eq_refl eq_refl).
Defined.
